(** * EasyClangComplete: the flags manager

    A shallow embedding of [plugin/completion/flags_manager.py] and the
    properties of its specification.

    Conventions of the embedding.
    - A Python [str] is a [string]; its characters are code points below 256.
    - A Python [set] of flags is a list; its iteration order is the list
      order.  Every statement about sets is about membership, or holds for
      every list, so nothing depends on the order a run of Python picks.
    - The file system is a finite map from absolute path strings to nodes.
      Two spellings of one location are two keys; permissions, links and
      missing parent directories are outside the model.
    - Code that mutates the world runs in a state and exception monad [Py]:
      a raised exception keeps the world as it was when raised.
    - The clock does not move during a call: what a call writes is stamped
      with the time [now] of the world it runs in.
    - Logging appends to a log kept in the world; only the level and the
      message template are recorded. *)

From Stdlib Require Import ZArith Ascii String Lia.
From stdpp Require Import base option list gmap strings.

Local Open Scope Z_scope.

(** ** Python strings *)

Module PyStr.

(** [str.isspace] on one character (code points below 256). *)
Definition is_space (c : ascii) : bool :=
  match c with
  | "009" | "010" | "011" | "012" | "013"
  | "028" | "029" | "030" | "031" | " " | "133" | "160" => true
  | _ => false
  end%char.

(** [s.startswith(p)] *)
Definition startswith (s p : string) : bool := String.prefix p s.

(** [s.endswith(p)] *)
Fixpoint endswith (s p : string) : bool :=
  if String.eqb s p then true
  else match s with
       | EmptyString => false
       | String _ r => endswith r p
       end.

(** [s[n:]] *)
Fixpoint slice_from (n : nat) (s : string) : string :=
  match n, s with
  | O, _ => s
  | S _, EmptyString => EmptyString
  | S m, String _ r => slice_from m r
  end.

(** [s.lstrip()] *)
Fixpoint lstrip (s : string) : string :=
  match s with
  | EmptyString => EmptyString
  | String c r => if is_space c then lstrip r else s
  end.

(** [s.rstrip()] *)
Fixpoint rstrip (s : string) : string :=
  match s with
  | EmptyString => EmptyString
  | String c r =>
      match rstrip r with
      | EmptyString => if is_space c then EmptyString else String c EmptyString
      | r' => String c r'
      end
  end.

(** [s.strip()] *)
Definition strip (s : string) : string := rstrip (lstrip s).

(** [s.split()]: the maximal runs of characters that are not white space. *)
Fixpoint split (s : string) : list string :=
  match s with
  | EmptyString => []
  | String c r =>
      if is_space c then split r
      else match r with
           | EmptyString => [String c EmptyString]
           | String d _ =>
               if is_space d then String c EmptyString :: split r
               else match split r with
                    | w :: ws => String c w :: ws
                    | [] => [String c EmptyString]
                    end
           end
  end.

(** [s.split(sep)] for a separator of one character: empty pieces stay. *)
Fixpoint split_on (sep : ascii) (s : string) : list string :=
  match s with
  | EmptyString => [EmptyString]
  | String c r =>
      if Ascii.eqb c sep then EmptyString :: split_on sep r
      else match split_on sep r with
           | w :: ws => String c w :: ws
           | [] => [String c EmptyString]
           end
  end.

(** [sep.join(l)] *)
Definition join (sep : string) (l : list string) : string := String.concat sep l.

(** [c * n] for a character [c] *)
Fixpoint repeat_char (c : ascii) (n : nat) : string :=
  match n with
  | O => EmptyString
  | S m => String c (repeat_char c m)
  end.

(** [s.rstrip(c)] for one character [c] *)
Fixpoint rstrip_char (c : ascii) (s : string) : string :=
  match s with
  | EmptyString => EmptyString
  | String d r =>
      match rstrip_char c r with
      | EmptyString => if Ascii.eqb d c then EmptyString else String d EmptyString
      | r' => String d r'
      end
  end.

(** Reading in text mode translates the line ends [\r\n] and [\r] to [\n]. *)
Fixpoint universal_newlines (s : string) : string :=
  match s with
  | EmptyString => EmptyString
  | String c r =>
      if Ascii.eqb c "013"%char then
        match r with
        | String d r' =>
            if Ascii.eqb d "010"%char then String "010"%char (universal_newlines r')
            else String "010"%char (universal_newlines r)
        | EmptyString => String "010"%char EmptyString
        end
      else String c (universal_newlines r)
  end.

(** The lines of a text, each with its line end when it has one. *)
Fixpoint keep_lines (s : string) : list string :=
  match s with
  | EmptyString => []
  | String c r =>
      if Ascii.eqb c "010"%char then String c EmptyString :: keep_lines r
      else match keep_lines r with
           | l :: ls => String c l :: ls
           | [] => [String c EmptyString]
           end
  end.

(** [f.readlines()] on a file opened with [open(path)] *)
Definition readlines (content : string) : list string :=
  keep_lines (universal_newlines content).

End PyStr.

(** ** [os.path] on POSIX *)

Module PyPath.
Import PyStr.

Definition sep : ascii := "/"%char.

(** [path.isabs(p)] *)
Definition isabs (p : string) : bool := startswith p "/".

(** [path.join(a, b)] *)
Definition join (a b : string) : string :=
  if startswith b "/" then b
  else if String.eqb a "" || endswith a "/" then a +:+ b
  else a +:+ "/" +:+ b.

(** One round of the loop of [normpath] over the components. *)
Definition norm_step (initial_slashes : nat) (new_comps : list string)
    (comp : string) : list string :=
  if String.eqb comp "" || String.eqb comp "." then new_comps
  else if negb (String.eqb comp "..")
          || (Nat.eqb initial_slashes 0 && bool_decide (new_comps = []))
          || (bool_decide (new_comps ≠ [])
              && bool_decide (last new_comps = Some ".."))
       then new_comps ++ [comp]
       else removelast new_comps.

(** [path.normpath(p)] *)
Definition normpath (p : string) : string :=
  if String.eqb p "" then "."
  else
    let initial_slashes : nat :=
      if startswith p "/" then
        if startswith p "//" && negb (startswith p "///") then 2%nat else 1%nat
      else 0%nat in
    let comps := fold_left (norm_step initial_slashes) (split_on sep p) [] in
    let p' := repeat_char sep initial_slashes +:+ PyStr.join "/" comps in
    if String.eqb p' "" then "." else p'.

(** [p[:p.rfind('/') + 1]] *)
Fixpoint head_of (p : string) : string :=
  match p with
  | EmptyString => EmptyString
  | String c r =>
      match head_of r with
      | EmptyString => if Ascii.eqb c sep then String c EmptyString else EmptyString
      | h => String c h
      end
  end.

(** [path.dirname(p)] *)
Definition dirname (p : string) : string :=
  let head := head_of p in
  if negb (String.eqb head "")
     && negb (String.eqb head (repeat_char sep (String.length head)))
  then rstrip_char sep head
  else head.

End PyPath.

(** ** The world: file system, clock, logs *)

Inductive exn : Set :=
| ValueError | TypeError | KeyError | AttributeError | IndexError
| FileNotFoundError | IsADirectoryError | NotADirectoryError.

Inductive result (A : Type) : Type :=
| Ok (a : A)
| Raise (e : exn).
Arguments Ok {A} a.
Arguments Raise {A} e.

Inductive level : Set := DEBUG | INFO | WARNING | ERROR.

(** A node of the file system: a directory, or a regular file with its
    content and its modification time. *)
Inductive node : Type :=
| Dir
| Reg (content : string) (mtime : Z).

Record world : Type := World {
  files : gmap string node;   (* the file system, by absolute path *)
  cwd : string;               (* the working directory of the process *)
  now : Z;                    (* the time a write is stamped with *)
  writes : list string;       (* the paths this program wrote, oldest first *)
  logs : list (level * string) (* what was logged, oldest first *)
}.

Definition set_files (fs : gmap string node) (w : world) : world :=
  World fs (cwd w) (now w) (writes w) (logs w).
Definition add_write (p : string) (w : world) : world :=
  World (files w) (cwd w) (now w) (writes w ++ [p]) (logs w).
Definition add_log (l : level) (msg : string) (w : world) : world :=
  World (files w) (cwd w) (now w) (writes w) (logs w ++ [(l, msg)]).

(** The state and exception monad of the embedding. *)
Definition Py (A : Type) : Type := world → result A * world.

Definition ret {A} (a : A) : Py A := λ w, (Ok a, w).
Definition raise {A} (e : exn) : Py A := λ w, (Raise e, w).
Definition bind {A B} (c : Py A) (k : A → Py B) : Py B :=
  λ w, match c w with
       | (Ok a, w') => k a w'
       | (Raise e, w') => (Raise e, w')
       end.

Declare Scope py_scope.
Delimit Scope py_scope with py.
Notation "x <~ c ;; k" := (bind c (λ x, k))
  (at level 100, c at next level, right associativity) : py_scope.
Notation "c ;;; k" := (bind c (λ _, k))
  (at level 100, right associativity) : py_scope.
Local Open Scope py_scope.

Definition log (l : level) (msg : string) : Py unit :=
  λ w, (Ok tt, add_log l msg w).

Module FS.

(** The key of a path: a relative path is taken from the working directory. *)
Definition key (w : world) (p : string) : string :=
  if PyPath.isabs p then p else PyPath.join (cwd w) p.

Definition lookup (p : string) (w : world) : option node := files w !! key w p.

(** [path.exists(p)] *)
Definition exists_ (p : string) (w : world) : bool :=
  bool_decide (is_Some (lookup p w)).

(** [path.getmtime(p)] of a regular file *)
Definition mtime (p : string) (w : world) : option Z :=
  match lookup p w with
  | Some (Reg _ t) => Some t
  | _ => None
  end.

(** [open(p).read()] *)
Definition read (p : string) : Py string :=
  λ w, match lookup p w with
       | Some (Reg c _) => (Ok c, w)
       | Some Dir => (Raise IsADirectoryError, w)
       | None => (Raise FileNotFoundError, w)
       end.

(** [f = open(p, 'w'); f.seek(0); f.write(content); f.close()] *)
Definition write (p content : string) : Py unit :=
  λ w, match lookup p w with
       | Some Dir => (Raise IsADirectoryError, w)
       | _ => (Ok tt, add_write (key w p)
                        (set_files (<[key w p := Reg content (now w)]> (files w)) w))
       end.

(** [os.makedirs(p)] where nothing exists at [p] *)
Definition makedirs (p : string) : Py unit :=
  λ w, (Ok tt, add_write (key w p) (set_files (<[key w p := Dir]> (files w)) w)).

End FS.

(** ** What the plugin gets from outside

    [Tools.get_temp_dir()], [hashlib.md5(...).hexdigest()], the external
    build tool started by [subprocess.check_output], [json.load] and the
    dialog of the editor are parameters of the model. *)

#[warnings="-register-all"]
Inductive json : Type :=
| JNull
| JBool (b : bool)
| JNum (n : Z)
| JStr (s : string)
| JArr (items : list json)
| JObj (members : list (string * json)).

Record Host : Type := {
  (* Tools.get_temp_dir() *)
  get_temp_dir : string;
  (* hashlib.md5(s.encode('utf-8')).hexdigest() *)
  md5_hexdigest : string → string;
  (* the command run by the shell in a directory: its return code, its
     output and the file system it leaves *)
  check_output : string → string → gmap string node → Z * string * gmap string node;
  (* json.load on the text of a file; None when it raises ValueError *)
  json_load : string → option json;
  (* sublime.yes_no_cancel_dialog(message, yes_title, no_title) *)
  yes_no_cancel_dialog : string → string → string → Z
}.

(** The answers of [sublime.yes_no_cancel_dialog]. *)
Definition DIALOG_CANCEL : Z := 0.
Definition DIALOG_YES : Z := 1.
Definition DIALOG_NO : Z := 2.

(** ** File references ([tools.File])

    The class [File] lives in [plugin/tools.py]; the flags manager uses its
    methods [loaded], [was_modified], [folder], [full_path] and [search]. *)

(** Modelled from the spec: the class [File] of [plugin/tools.py] is missing.
    A file reference has an absolute path, unset or set, and the last
    modification time it has seen. *)
Record File : Type := mkFile {
  full_path : option string;
  last_seen_modification : Z
}.

(** Modelled from the spec: [File()], the empty reference the orchestrator
    starts with ("created empty"). *)
Definition File_empty : File := mkFile None 0.

(** Modelled from the spec: [File(path)], a reference populated by a direct
    path.  It holds the absolute path of something that exists; a path with
    nothing behind it leaves the reference unset. *)
Definition File_at (path : string) (w : world) : File :=
  if FS.exists_ path w then mkFile (Some (FS.key w path)) 0 else File_empty.

(** Modelled from the spec: [loaded()] reports whether a path is bound. *)
Definition loaded (f : File) : bool := bool_decide (is_Some (full_path f)).

(** Modelled from the spec: [folder()] returns the containing directory. *)
Definition folder (f : File) : string := PyPath.dirname (default "" (full_path f)).

(** Modelled from the spec: [was_modified()] is true when the timestamp of
    the file has advanced since the last observation, and records the new
    timestamp.  An unset reference, and a bound one with no regular file
    behind it, has not been modified. *)
Definition was_modified (f : File) (w : world) : bool * File :=
  match full_path f with
  | None => (false, f)
  | Some p =>
      match FS.mtime p w with
      | Some t =>
          if last_seen_modification f <? t then (true, mkFile (Some p) t)
          else (false, f)
      | None => (false, f)
      end
  end.

(** [needle in s] *)
Fixpoint contains (s needle : string) : bool :=
  PyStr.startswith s needle
  || match s with
     | EmptyString => false
     | String _ r => contains r needle
     end.

(** Modelled from the spec: does [candidate] name a regular file, with
    [search_content] in its text when that is asked for? *)
Definition search_match (candidate : string) (search_content : option string)
    (w : world) : bool :=
  match FS.lookup candidate w with
  | Some (Reg text _) =>
      match search_content with
      | None => true
      | Some needle => contains text needle
      end
  | _ => false
  end.

(** Modelled from the spec: the upward walk of [File.search], from [current]
    to [to_folder] inclusive and never above it; it also ends where a folder
    is its own parent. *)
Fixpoint search_up (fuel : nat) (file_name current to_folder : string)
    (search_content : option string) (w : world) : File :=
  match fuel with
  | O => File_empty
  | S fuel' =>
      let candidate := PyPath.join current file_name in
      if search_match candidate search_content w then File_at candidate w
      else if String.eqb current to_folder then File_empty
      else if String.eqb (PyPath.dirname current) current then File_empty
      else search_up fuel' file_name (PyPath.dirname current) to_folder
             search_content w
  end.

(** A Python value used as a condition: [None] and the empty string are false. *)
Definition truthy (v : option string) : bool :=
  match v with
  | Some s => negb (String.eqb s "")
  | None => false
  end.

(** Modelled from the spec: [File.search(file_name, from_folder, to_folder,
    search_content)].  A search with a bound that is not set finds nothing;
    otherwise the first match of the upward walk is returned, or an empty
    reference. *)
Definition File_search (file_name : string) (from_folder to_folder : option string)
    (search_content : option string) (w : world) : File :=
  match from_folder, to_folder with
  | Some f, Some t =>
      if truthy from_folder && truthy to_folder
      then search_up (S (String.length f)) file_name f t search_content w
      else File_empty
  | _, _ => File_empty
  end.

(** ** [SearchScope] *)

Record SearchScope : Type := mkSearchScope {
  from_folder : option string;
  to_folder : option string
}.

(** [SearchScope()] *)
Definition SearchScope_default : SearchScope := mkSearchScope None None.

(** [SearchScope.valid] *)
Definition valid (s : SearchScope) : bool :=
  if truthy (from_folder s) && truthy (to_folder s) then true else false.

(** ** Flag sets

    A Python [set] of strings, as the list of its members. *)

(** [s.add(x)] *)
Definition set_add (x : string) (s : list string) : list string :=
  if bool_decide (x ∈ s) then s else s ++ [x].

(** [set(l)] *)
Definition set_of_list (l : list string) : list string := remove_dups l.

(** [a.union(b)] *)
Definition union (a b : list string) : list string := list_union a b.

(** [a.symmetric_difference(b)] *)
Definition symmetric_difference (a b : list string) : list string :=
  list_difference a b ++ list_difference b a.

(** ** [FlagsManager] *)

Record FlagsManager : Type := mkFlagsManager {
  _cmake_file : File;
  _clang_complete_file : File;
  _flags : list string;
  _search_scope : SearchScope;
  _use_cmake : bool;
  _flags_update_strategy : string
}.

Definition set_cmake_file (f : File) (self : FlagsManager) : FlagsManager :=
  mkFlagsManager f (_clang_complete_file self) (_flags self) (_search_scope self)
    (_use_cmake self) (_flags_update_strategy self).
Definition set_clang_complete_file (f : File) (self : FlagsManager) : FlagsManager :=
  mkFlagsManager (_cmake_file self) f (_flags self) (_search_scope self)
    (_use_cmake self) (_flags_update_strategy self).
Definition set_flags (l : list string) (self : FlagsManager) : FlagsManager :=
  mkFlagsManager (_cmake_file self) (_clang_complete_file self) l (_search_scope self)
    (_use_cmake self) (_flags_update_strategy self).

Definition cmake_mask (path : string) : string :=
  "cmake -DCMAKE_EXPORT_COMPILE_COMMANDS=ON " +:+ path.
Definition CMAKE_FILE_NAME : string := "CMakeLists.txt".
Definition CMAKE_DB_FILE_NAME : string := "compile_commands.json".
Definition CLANG_COMPLETE_FILE_NAME : string := ".clang_complete".

(** [FlagsManager.__init__]: the class attributes give the files and the
    flags their first values. *)
Definition __init__ (use_cmake : bool) (flags_update_strategy : string)
    (search_scope : SearchScope) : Py FlagsManager :=
  (if negb (valid search_scope) then log ERROR " search scope is wrong."
   else ret tt) ;;;
  ret (mkFlagsManager File_empty File_empty [] search_scope use_cmake
         flags_update_strategy).

(** [FlagsManager.any_file_modified] *)
Definition any_file_modified (self : FlagsManager) (w : world) : bool * FlagsManager :=
  let '(m1, f1) := was_modified (_cmake_file self) w in
  let self := set_cmake_file f1 self in
  if m1 then (true, self)
  else
    let '(m2, f2) := was_modified (_clang_complete_file self) w in
    let self := set_clang_complete_file f2 self in
    if m2 then (true, self) else (false, self).

(** *** Parsing a [.clang_complete] file *)

Definition quote : string := String "034"%char EmptyString.

(** The line end. *)
Definition nl : string := String "010"%char EmptyString.

(** [mask.format(a, b)] for the two masks of [flags_from_clang_file] *)
Definition format_mask (separate_includes : bool) (a b : string) : string :=
  if separate_includes then a +:+ " " +:+ quote +:+ b +:+ quote
  else a +:+ b.

(** One round of the loop over the lines: the flag the line adds, if any. *)
Definition parse_line (folder : string) (separate_includes : bool)
    (line : string) : option string :=
  if PyStr.startswith line "-D" then Some (PyStr.strip line)
  else if PyStr.startswith line "-I" then
    let path_to_add := PyStr.strip (PyStr.slice_from 2 line) in
    if PyPath.isabs path_to_add
    then Some (format_mask separate_includes "-I" (PyPath.normpath path_to_add))
    else Some (format_mask separate_includes "-I" (PyPath.join folder path_to_add))
  else if PyStr.startswith line "-isystem" then
    let path_to_add := PyStr.strip (PyStr.slice_from 8 line) in
    if PyPath.isabs path_to_add
    then Some (PyStr.strip
                 (format_mask separate_includes "-isystem" (PyPath.normpath path_to_add)))
    else Some (PyStr.strip
                 (format_mask separate_includes "-isystem"
                    (PyPath.join folder path_to_add)))
  else None.

(** [FlagsManager.flags_from_clang_file]; a loaded file has a path, the
    default of [full_path] is never used. *)
Definition flags_from_clang_file (file : File) (separate_includes : bool)
    : Py (list string) :=
  if negb (loaded file) then
    log ERROR " cannot get flags from clang_complete_file. No file." ;;;
    ret []
  else
    let folder := folder file in
    content <~ FS.read (default "" (full_path file)) ;;
    let flags := omap (parse_line folder separate_includes)
                   (PyStr.readlines content) in
    log DEBUG " .clang_complete contains flags: %s" ;;;
    ret flags.

(** *** Reading a compilation database *)

(** [not data] for a value that [json.load] returned *)
Definition falsy (data : json) : bool :=
  match data with
  | JNull => true
  | JBool b => negb b
  | JNum n => n =? 0
  | JStr s => String.eqb s ""
  | JArr items => bool_decide (items = [])
  | JObj members => bool_decide (members = [])
  end.

(** The single characters of a string, as [for c in s] yields them. *)
Fixpoint chars (s : string) : list string :=
  match s with
  | EmptyString => []
  | String c r => String c EmptyString :: chars r
  end.

(** [for entry in data]: what the loop runs over. *)
Definition iterate (data : json) : result (list json) :=
  match data with
  | JArr items => Ok items
  | JObj members => Ok (map (λ kv, JStr (fst kv)) members)
  | JStr s => Ok (map JStr (chars s))
  | JNull | JBool _ | JNum _ => Raise TypeError
  end.

(** [d[k]] on the members of a dictionary *)
Fixpoint dict_get (k : string) (members : list (string * json)) : option json :=
  match members with
  | [] => None
  | (k', v) :: rest => if String.eqb k' k then Some v else dict_get k rest
  end.

(** [entry['command']] *)
Definition subscript_command (entry : json) : result json :=
  match entry with
  | JObj members =>
      match dict_get "command" members with
      | Some v => Ok v
      | None => Raise KeyError
      end
  | _ => Raise TypeError
  end.

(** [command.split()] *)
Definition split_command (command : json) : result (list string) :=
  match command with
  | JStr s => Ok (PyStr.split s)
  | _ => Raise AttributeError
  end.

(** The loop [for (i, part) in enumerate(all_command_parts)], from index [i]
    on; [parts] is what is left of the list at that index. *)
Fixpoint scan_parts (all_command_parts : list string) (i : nat)
    (parts : list string) (flags_set : list string) : result (list string) :=
  match parts with
  | [] => Ok flags_set
  | part :: parts' =>
      if PyStr.startswith part "-I" || PyStr.startswith part "-D" then
        scan_parts all_command_parts (S i) parts' (set_add (PyStr.strip part) flags_set)
      else if PyStr.startswith part "-isystem" then
        match all_command_parts !! i, all_command_parts !! S i with
        | Some a, Some b =>
            let tmp := a +:+ " " +:+ b in
            scan_parts all_command_parts (S i) parts' (set_add (PyStr.strip tmp) flags_set)
        | _, _ => Raise IndexError
        end
      else scan_parts all_command_parts (S i) parts' flags_set
  end.

(** The loop [for entry in data] *)
Fixpoint scan_entries (entries : list json) (flags_set : list string)
    : result (list string) :=
  match entries with
  | [] => Ok flags_set
  | entry :: entries' =>
      match subscript_command entry with
      | Raise e => Raise e
      | Ok command =>
          match split_command command with
          | Raise e => Raise e
          | Ok all_command_parts =>
              match scan_parts all_command_parts 0 all_command_parts flags_set with
              | Raise e => Raise e
              | Ok flags_set' => scan_entries entries' flags_set'
              end
          end
      end
  end.

(** [flags_from_database] once the file is parsed: [None], or the set. *)
Definition flags_from_data (data : json) : result (option (list string)) :=
  if falsy data then Ok None
  else match iterate data with
       | Raise e => Raise e
       | Ok entries =>
           match scan_entries entries [] with
           | Raise e => Raise e
           | Ok flags_set => Ok (Some flags_set)
           end
       end.

(** Lifting a result that needs no world into the monad. *)
Definition lift {A} (r : result A) : Py A := λ w, (r, w).

Section WithHost.
Context (host : Host).

(** [FlagsManager.flags_from_database] *)
Definition flags_from_database (database_file : File) : Py (option (list string)) :=
  match full_path database_file with
  | None => raise TypeError     (* open(None) *)
  | Some path =>
      text <~ FS.read path ;;
      match json_load host text with
      | None => raise ValueError
      | Some data =>
          flags <~ lift (flags_from_data data) ;;
          match flags with
          | None => ret None
          | Some flags_set => log DEBUG " flags set: %s" ;;; ret (Some flags_set)
          end
      end
  end.

(** [FlagsManager.get_flags_strategy]; [None] when the function falls off
    its end. *)
Definition get_flags_strategy (strategy : string) : option string :=
  if String.eqb strategy "ask" then
    let user_pick :=
      yes_no_cancel_dialog host
        ".clang_complete file exists. What do you want to do?"
        "Merge!" "Overwrite!" in
    if user_pick =? DIALOG_YES then Some "merge"
    else if user_pick =? DIALOG_NO then Some "overwrite"
    else if user_pick =? DIALOG_CANCEL then Some "keep_old"
    else None
  else Some strategy.

(** The end of [write_flags_to_file]: open, write, close. *)
Definition write_lines (new_flags : list string) (file_path : string) : Py unit :=
  FS.write file_path (PyStr.join nl new_flags +:+ nl).

(** [FlagsManager.write_flags_to_file] *)
Definition write_flags_to_file (new_flags : list string) (file_path strategy : string)
    : Py unit :=
  λ w,
    if FS.exists_ file_path w then
      (log DEBUG " path already exists" ;;;
       let flag_strategy := get_flags_strategy strategy in
       log DEBUG " picked '%s' strategy." ;;;
       if bool_decide (flag_strategy = Some "keep_old") then ret tt
       else if bool_decide (flag_strategy = Some "merge") then
         parsed <~ (λ w', flags_from_clang_file (File_at file_path w') false w') ;;
         let curr_flags := set_of_list parsed in
         write_lines (union new_flags curr_flags) file_path
       else write_lines new_flags file_path) w
    else write_lines new_flags file_path w.

(** [FlagsManager.compile_cmake] *)
Definition compile_cmake (cmake_file : File) : Py (option File) :=
  match full_path cmake_file with
  | None => raise AttributeError     (* None.encode *)
  | Some path =>
      let cmake_cmd := cmake_mask (folder cmake_file) in
      let unique_proj_str := md5_hexdigest host path in
      let tempdir :=
        PyPath.join (PyPath.join (get_temp_dir host) "cmake_builds") unique_proj_str in
      (λ w, if negb (FS.exists_ tempdir w) then FS.makedirs tempdir w else (Ok tt, w)) ;;;
      (λ w, match FS.lookup tempdir w with
            | Some Dir =>
                let '(returncode, output_text, fs) :=
                  check_output host cmake_cmd (FS.key w tempdir) (files w) in
                let w := set_files fs w in
                if returncode =? 0 then (Ok tt, w)
                else (log INFO " clang process finished with code: \n%s" ;;;
                      log INFO " clang process output: \n%s") w
            | _ => (Raise NotADirectoryError, w)
            end) ;;;
      log DEBUG " cmake produced output: \n%s" ;;;
      let database_path := PyPath.join tempdir CMAKE_DB_FILE_NAME in
      λ w, if negb (FS.exists_ database_path w) then
             (log ERROR " cmake has finished, but no compilation database." ;;;
              ret None) w
           else (Ok (Some (File_at database_path w)), w)
  end.

(** *** [get_flags], in the four parts of its body *)

(** Lines 66-73: search for [CMakeLists.txt] when it is wanted and not
    loaded yet. *)
Definition locate_cmake_file (self : FlagsManager) (w : world) : FlagsManager * world :=
  if _use_cmake self && negb (loaded (_cmake_file self)) then
    let w := add_log DEBUG " cmake file not loaded yet. Searching for one..." w in
    (set_cmake_file
       (File_search CMAKE_FILE_NAME (from_folder (_search_scope self))
          (to_folder (_search_scope self)) (Some "project") w) self, w)
  else (self, w).

(** Lines 83-101: what is done with a compilation database. *)
Definition update_clang_complete (cmake_file : File) (strategy : string)
    (compilation_db : File) : Py unit :=
  new_flags <~ flags_from_database compilation_db ;;
  let new_clang_file_path :=
    PyPath.join (folder cmake_file) CLANG_COMPLETE_FILE_NAME in
  parsed <~ (λ w, flags_from_clang_file (File_at new_clang_file_path w) false w) ;;
  let curr_flags := set_of_list parsed in
  match new_flags with
  | None => raise AttributeError     (* None.symmetric_difference *)
  | Some new_flags =>
      if (0 <? length (symmetric_difference new_flags curr_flags))%nat then
        write_flags_to_file new_flags new_clang_file_path strategy ;;;
        log DEBUG "'%s' is not equal to '%s' by %s so update"
      else
        log DEBUG " the flags have not changed so we don't modify the .clang_complete file"
  end.

(** Lines 78-103: the body of [if self._use_cmake and
    self._cmake_file.was_modified()]. *)
Definition regenerate (cmake_file : File) (strategy : string) : Py unit :=
  log DEBUG " CMakeLists.txt was modified. Generate new .clang_complete" ;;;
  compilation_db <~ compile_cmake cmake_file ;;
  match compilation_db with
  | Some db => update_clang_complete cmake_file strategy db
  | None => log WARNING " could not get compilation database from cmake"
  end.

(** Lines 75-103: the test of the build description and its body. *)
Definition refresh_from_cmake (self : FlagsManager) (w : world)
    : result unit * FlagsManager * world :=
  if _use_cmake self then
    let '(modified, f) := was_modified (_cmake_file self) w in
    let self := set_cmake_file f self in
    if modified then
      let '(r, w) := regenerate (_cmake_file self) (_flags_update_strategy self) w in
      (r, self, w)
    else (Ok tt, self, w)
  else (Ok tt, self, w).

(** Lines 105-110: search for [.clang_complete] when it is not loaded. *)
Definition locate_clang_complete_file (self : FlagsManager) (w : world)
    : FlagsManager * world :=
  if negb (loaded (_clang_complete_file self)) then
    let w := add_log DEBUG " .clang_complete not loaded. Searching for one..." w in
    (set_clang_complete_file
       (File_search CLANG_COMPLETE_FILE_NAME (from_folder (_search_scope self))
          (to_folder (_search_scope self)) None w) self, w)
  else (self, w).

(** Lines 112-118: load the flags again when the file was modified, and
    return them. *)
Definition reload_flags (self : FlagsManager) (separate_includes : bool) (w : world)
    : result (list string) * FlagsManager * world :=
  let '(modified, f) := was_modified (_clang_complete_file self) w in
  let self := set_clang_complete_file f self in
  if modified then
    match (log DEBUG " .clang_complete modified. Load new flags." ;;;
           flags_from_clang_file (_clang_complete_file self) separate_includes) w with
    | (Ok flags, w) => (Ok flags, set_flags flags self, w)
    | (Raise e, w) => (Raise e, self, w)
    end
  else (Ok (_flags self), self, w).

(** [FlagsManager.get_flags]: the result, the manager and the world it
    leaves. *)
Definition get_flags (self : FlagsManager) (separate_includes : bool) (w : world)
    : result (list string) * FlagsManager * world :=
  let '(self, w) := locate_cmake_file self w in
  match refresh_from_cmake self w with
  | (Raise e, self, w) => (Raise e, self, w)
  | (Ok _, self, w) =>
      let '(self, w) := locate_clang_complete_file self w in
      reload_flags self separate_includes w
  end.

End WithHost.

(** ** Predicates used in the statements *)

(** *** On strings *)

(** The last character of a string that has one. *)
Fixpoint last_char (s : string) : option ascii :=
  match s with
  | EmptyString => None
  | String c EmptyString => Some c
  | String _ r => last_char r
  end.

(** The string starts, or ends, with a character that is not white space. *)
Definition starts_nonspace (s : string) : bool :=
  match s with
  | String c _ => negb (PyStr.is_space c)
  | EmptyString => false
  end.
Definition ends_nonspace (s : string) : bool :=
  match last_char s with
  | Some c => negb (PyStr.is_space c)
  | None => false
  end.

(** No character of the string is white space. *)
Fixpoint no_space (s : string) : bool :=
  match s with
  | EmptyString => true
  | String c r => negb (PyStr.is_space c) && no_space r
  end.

(** A token: not empty, and without white space. *)
Definition is_token (t : string) : Prop := t ≠ "" ∧ no_space t = true.

(** No character of the string ends a line. *)
Fixpoint single_line (s : string) : bool :=
  match s with
  | EmptyString => true
  | String c r =>
      negb (Ascii.eqb c "010"%char) && negb (Ascii.eqb c "013"%char) && single_line r
  end.

(** The text of a list of lines, each with its line end. *)
Definition unlines (l : list string) : string :=
  fold_right (λ f text, f +:+ nl +:+ text) "" l.

(** *** On compilation databases *)

(** A compilation database of the standard shape: every entry is a record
    whose [command] is a string. *)
Definition records (entries : list json) (commands : list string) : Prop :=
  Forall2 (λ entry command, subscript_command entry = Ok (JStr command))
    entries commands.

(** The last token starts with [-isystem], so that no token follows it. *)
Definition dangling (parts : list string) : bool :=
  match last parts with
  | Some part => PyStr.startswith part "-isystem"
  | None => false
  end.
Definition dangling_isystem (command : string) : bool :=
  dangling (PyStr.split command).

(** The flags of a list of tokens, in the words of the specification: a
    token that starts with [-I] or [-D] is kept as it is, a token that
    starts with [-isystem] is combined with the token after it, every other
    token is dropped. *)
Fixpoint spec_flags (parts : list string) : list string :=
  match parts with
  | [] => []
  | part :: rest =>
      if PyStr.startswith part "-I" || PyStr.startswith part "-D"
      then part :: spec_flags rest
      else if PyStr.startswith part "-isystem" then
        match rest with
        | next :: _ => (part +:+ " " +:+ next) :: spec_flags rest
        | [] => spec_flags rest
        end
      else spec_flags rest
  end.

(** *** On flags *)

(** A flag that [flags_from_clang_file] gives back as it was written: one
    line, no white space around it, and either a define, or an include
    path that is absolute and normalized and follows [-I] or [-isystem]
    directly. *)
Definition stable_flag (f : string) : Prop :=
  single_line f = true
  ∧ PyStr.strip f = f
  ∧ (PyStr.startswith f "-D" = true
     ∨ (∃ p, f = "-I" +:+ p ∧ PyPath.isabs p = true ∧ PyPath.normpath p = p)
     ∨ (∃ p, f = "-isystem" +:+ p ∧ PyPath.isabs p = true ∧ PyPath.normpath p = p)).

(** *** On worlds and commands *)

(** Two worlds with the same file system and working directory. *)
Definition same_fs (w w' : world) : Prop :=
  files w' = files w ∧ cwd w' = cwd w.

(** A command that keeps the file system, does not move, and writes nothing. *)
Definition read_only {A} (c : Py A) : Prop :=
  ∀ w, same_fs w (snd (c w)) ∧ writes (snd (c w)) = writes w.

(** A command that does not move, and that leaves every file other than
    the one at [path] as it was. *)
Definition writes_only {A} (path : string) (c : Py A) : Prop :=
  ∀ w, cwd (snd (c w)) = cwd w
       ∧ ∀ k, k ≠ FS.key w path → files (snd (c w)) !! k = files w !! k.

(** The build tool leaves the files named [CMakeLists.txt] as they are. *)
Definition respects_build_files (host : Host) : Prop :=
  ∀ cmd dir fs p,
    PyStr.endswith p CMAKE_FILE_NAME = true →
    (check_output host cmd dir fs).2 !! p = fs !! p.

(** *** On managers *)

(** The managers a program can hold: made by the constructor, and then
    used through [get_flags] and [any_file_modified], in any worlds and
    whether the call returned or raised. *)
Inductive reachable (host : Host) : FlagsManager → Prop :=
| reachable_init use_cmake flags_update_strategy search_scope w self w' :
    __init__ use_cmake flags_update_strategy search_scope w = (Ok self, w') →
    reachable host self
| reachable_get_flags self separate_includes w r self' w' :
    reachable host self →
    get_flags host self separate_includes w = (r, self', w') →
    reachable host self'
| reachable_any_file_modified self w b self' :
    reachable host self →
    any_file_modified self w = (b, self') →
    reachable host self'.

(** The build-description file of a manager, when it is bound, is a file
    named [CMakeLists.txt]: [get_flags] binds no other. *)
Definition cmake_file_named (self : FlagsManager) : Prop :=
  ∀ c, full_path (_cmake_file self) = Some c →
       PyStr.endswith c CMAKE_FILE_NAME = true.

(** A manager with nothing to do in a world: the searches it would make
    find what it holds already, and neither of its files was modified. *)
Definition quiet (self : FlagsManager) (w : world) : Prop :=
  (_use_cmake self = true →
     (loaded (_cmake_file self) = false →
        File_search CMAKE_FILE_NAME (from_folder (_search_scope self))
          (to_folder (_search_scope self)) (Some "project") w = _cmake_file self)
     ∧ was_modified (_cmake_file self) w = (false, _cmake_file self))
  ∧ (loaded (_clang_complete_file self) = false →
       File_search CLANG_COMPLETE_FILE_NAME (from_folder (_search_scope self))
         (to_folder (_search_scope self)) None w = _clang_complete_file self)
  ∧ was_modified (_clang_complete_file self) w = (false, _clang_complete_file self).

(** ** Worlds, hosts and managers for the examples *)

(** A host.  Its build tool leaves a database with the given text in its
    working directory; its [json.load] reads that text as the given value
    ([None]: it raises) and rejects every other text; its user answers
    every dialog with "Overwrite!". *)
Definition host_with (text : string) (data : option json) : Host := {|
  get_temp_dir := "/tmp";
  md5_hexdigest := λ _, "0123456789abcdef0123456789abcdef";
  check_output := λ _ dir fs,
    (0, "", <[PyPath.join dir CMAKE_DB_FILE_NAME := Reg text 7]> fs);
  json_load := λ text', if String.eqb text' text then data else None;
  yes_no_cancel_dialog := λ _ _ _, DIALOG_NO
|}.

(** The host of a project with one compile command. *)
Definition demo_db_text (command : string) : string :=
  "[{" +:+ quote +:+ "command" +:+ quote +:+ ": " +:+ quote +:+ command +:+ quote +:+ "}]".
Definition demo_database (command : string) : json :=
  JArr [JObj [("directory", JStr "/proj"); ("command", JStr command)]].
Definition demo_host (command : string) : Host :=
  host_with (demo_db_text command) (Some (demo_database command)).

(** A world with one flag-list file at [/proj/.flags], and a working
    directory somewhere else. *)
Definition flags_file_world (content : string) : world :=
  World {[ "/proj/.flags" := Reg content 1 ]} "/elsewhere" 2 [] [].

(** A world with one database file at [/db/compile_commands.json]. *)
Definition database_world (text : string) : world :=
  World {[ "/db/compile_commands.json" := Reg text 1 ]} "/elsewhere" 2 [] [].

(** A project: [/proj/CMakeLists.txt], an editor working in [/proj/src],
    and a manager that searches from there up to [/proj]. *)
Definition demo_command : string :=
  "clang -I/usr/include -DFOO=1 -O2 -c a.c".
Definition demo_world : world :=
  World {[ "/proj/CMakeLists.txt" := Reg "project(demo)" 3 ]} "/proj/src" 10 [] [].
Definition demo_manager : FlagsManager :=
  mkFlagsManager File_empty File_empty []
    (mkSearchScope (Some "/proj/src") (Some "/proj")) true "overwrite".

(** The same project with a flag-list file that holds the flags of
    [demo_command] already, in another order. *)
Definition demo_world_in_sync : world :=
  World (<[ "/proj/.clang_complete" :=
              Reg ("-DFOO=1" +:+ nl +:+ "-I/usr/include" +:+ nl) 2 ]>
           (files demo_world))
    "/proj/src" 10 [] [].

(** ** Predicates for the further properties *)

(** A flag as [flags_from_database] makes them: it starts with [-I], [-D]
    or [-isystem], is one line, and has no white space around it. *)
Definition well_formed_flag (f : string) : Prop :=
  (PyStr.startswith f "-I" = true ∨ PyStr.startswith f "-D" = true
   ∨ PyStr.startswith f "-isystem" = true)
  ∧ single_line f = true ∧ PyStr.strip f = f.

(** ** [merge_flags]

    The source gives the arguments of [merge_flags] no type.  A flag is a
    string and a collection of flags is a list: these are the two kinds of
    value the model hands to it. *)
Inductive pyval : Type :=
| VStr (s : string)
| VList (items : list string).

#[global] Instance pyval_eq_dec : EqDecision pyval.
Proof. solve_decision. Defined.

(** A string can be a member of a set, a list cannot. *)
Definition hashable (v : pyval) : bool :=
  match v with
  | VStr _ => true
  | VList _ => false
  end.

(** [s.add(v)] on a set of values: [TypeError] for a value that has no hash. *)
Definition set_add_value (v : pyval) (s : list pyval) : result (list pyval) :=
  if hashable v then Ok (if bool_decide (v ∈ s) then s else s ++ [v])
  else Raise TypeError.

(** [FlagsManager.merge_flags]: [list(s)] of the set with the two
    arguments.  Python fixes no order for the members of a set; the model
    lists them as they were added, and what is proved of the result is
    about its members and its length alone. *)
Definition merge_flags (flags_1 flags_2 : pyval) : result (list pyval) :=
  match set_add_value flags_1 [] with
  | Raise e => Raise e
  | Ok s =>
      match set_add_value flags_2 s with
      | Raise e => Raise e
      | Ok s => Ok s
      end
  end.

(** A world for the gate: a database at [/db/compile_commands.json] with one
    compile command, and a flag-list file beside the build description of
    [/proj]. *)
Definition gate_world (command content : string) : world :=
  World (<[ "/db/compile_commands.json" := Reg (demo_db_text command) 1 ]>
           {[ "/proj/.clang_complete" := Reg content 2 ]})
    "/proj/src" 10 [] [].


(** * Facts about the string functions *)

Module PyStrFacts.
Import PyStr.
Lemma sapp_cons c s t : String c s +:+ t = String c (s +:+ t).
Proof. reflexivity. Qed.

Lemma sapp_nil_l s : "" +:+ s = s.
Proof. reflexivity. Qed.

Lemma sapp_nil_r s : s +:+ "" = s.
Proof. induction s as [|c s IH]; [done|]. by rewrite sapp_cons, IH. Qed.

Lemma sapp_assoc s t u : (s +:+ t) +:+ u = s +:+ (t +:+ u).
Proof. induction s as [|c s IH]; [done|]. by rewrite !sapp_cons, IH. Qed.

Lemma sapp_eq_nil s t : s +:+ t = "" → s = "" ∧ t = "".
Proof. destruct s; [done|]. by rewrite sapp_cons. Qed.

Lemma last_char_app s t : t ≠ "" → last_char (s +:+ t) = last_char t.
Proof.
  intros Ht. induction s as [|c s IH]; [done|].
  rewrite sapp_cons. simpl. rewrite IH.
  destruct (s +:+ t) eqn:E; [|done].
  apply sapp_eq_nil in E as [_ ?]. done.
Qed.

Lemma endswith_unfold s p :
  endswith s p =
  if String.eqb s p then true
  else match s with EmptyString => false | String _ r => endswith r p end.
Proof. by destruct s. Qed.

Lemma endswith_refl s : endswith s s = true.
Proof. by rewrite endswith_unfold, String.eqb_refl. Qed.

Lemma endswith_split s p : endswith s p = true → ∃ x, s = x +:+ p.
Proof.
  induction s as [|c s IH]; rewrite endswith_unfold.
  - destruct (String.eqb_spec "" p) as [<-|]; [|done]. by exists "".
  - destruct (String.eqb_spec (String c s) p) as [<-|].
    + by exists "".
    + intros [x ->]%IH. by exists (String c x).
Qed.

Lemma endswith_app s p : endswith (s +:+ p) p = true.
Proof.
  induction s as [|c s IH].
  - rewrite sapp_nil_l. apply endswith_refl.
  - rewrite sapp_cons, endswith_unfold, IH. by destruct (String.eqb _ _).
Qed.
Lemma lstrip_id s : starts_nonspace s = true → lstrip s = s.
Proof. destruct s as [|c r]; [done|]. simpl. by destruct (is_space c). Qed.

Lemma last_char_cons c s : s ≠ "" → last_char (String c s) = last_char s.
Proof. by destruct s. Qed.

Lemma ends_nonspace_cons c s : s ≠ "" → ends_nonspace (String c s) = ends_nonspace s.
Proof. intros. unfold ends_nonspace. by rewrite last_char_cons. Qed.

Lemma ends_nonspace_app s t : t ≠ "" → ends_nonspace (s +:+ t) = ends_nonspace t.
Proof. intros. unfold ends_nonspace. by rewrite last_char_app. Qed.

Lemma rstrip_id s : ends_nonspace s = true → rstrip s = s.
Proof.
  induction s as [|c r IH]; [done|]. intros H. simpl.
  destruct r as [|d r'].
  - simpl. unfold ends_nonspace in H. simpl in H. by destruct (is_space c).
  - rewrite ends_nonspace_cons in H by done. by rewrite IH.
Qed.

Lemma strip_id s : starts_nonspace s = true → ends_nonspace s = true → strip s = s.
Proof. intros H1 H2. unfold strip. rewrite lstrip_id by done. by apply rstrip_id. Qed.

Lemma rstrip_app_space s c : is_space c = true → rstrip (s +:+ String c "") = rstrip s.
Proof.
  intros Hc. induction s as [|d r IH].
  - rewrite sapp_nil_l. simpl. by rewrite Hc.
  - rewrite sapp_cons. simpl. by rewrite IH.
Qed.

Lemma rstrip_ends s : rstrip s = "" ∨ ends_nonspace (rstrip s) = true.
Proof.
  induction s as [|c r IH]; [by left|]. simpl.
  destruct (rstrip r) as [|d r'] eqn:E.
  - destruct (is_space c) eqn:Ec; [by left|right].
    unfold ends_nonspace. simpl. by rewrite Ec.
  - right. destruct IH as [?|IH]; [done|]. by rewrite ends_nonspace_cons.
Qed.

Lemma lstrip_starts s : lstrip s = "" ∨ starts_nonspace (lstrip s) = true.
Proof.
  induction s as [|c r IH]; [by left|]. simpl.
  destruct (is_space c) eqn:Ec; [done|]. right. simpl. by rewrite Ec.
Qed.

Lemma rstrip_starts s :
  starts_nonspace s = true → starts_nonspace (rstrip s) = true.
Proof.
  destruct s as [|c r]; [done|]. simpl. intros Hc.
  destruct (rstrip r); [|done].
  destruct (is_space c) eqn:E; simpl in *; by rewrite ?E.
Qed.

Lemma strip_fixed s :
  strip s = s → s = "" ∨ (starts_nonspace s = true ∧ ends_nonspace s = true).
Proof.
  unfold strip. intros H.
  destruct (lstrip_starts s) as [E|E].
  - left. by rewrite E in H.
  - right. split.
    + rewrite <- H. by apply rstrip_starts.
    + destruct (rstrip_ends (lstrip s)) as [E'|E'].
      * rewrite E' in H. subst s. done.
      * by rewrite H in E'.
Qed.

Lemma starts_nonspace_app s t :
  starts_nonspace s = true → starts_nonspace (s +:+ t) = true.
Proof. by destruct s. Qed.

Lemma starts_nonspace_nonempty s : starts_nonspace s = true → s ≠ "".
Proof. by destruct s. Qed.

(** Stripping a stripped string followed by one white space character. *)
Lemma strip_app_space s c :
  is_space c = true → strip s = s → strip (s +:+ String c "") = s.
Proof.
  intros Hc [->|[H1 H2]]%strip_fixed.
  - rewrite sapp_nil_l. unfold strip. simpl. rewrite Hc. done.
  - unfold strip. rewrite lstrip_id by by apply starts_nonspace_app.
    rewrite rstrip_app_space by done. by apply rstrip_id.
Qed.

Lemma no_space_starts s : s ≠ "" → no_space s = true → starts_nonspace s = true.
Proof. destruct s; [done|]. simpl. by intros _ [? _]%andb_true_iff. Qed.

Lemma no_space_ends s : s ≠ "" → no_space s = true → ends_nonspace s = true.
Proof.
  induction s as [|c r IH]; [done|]. intros _ [Hc Hr]%andb_true_iff.
  destruct r as [|d r'].
  - done.
  - rewrite ends_nonspace_cons by done. by apply IH.
Qed.

Lemma split_tokens s : Forall (λ t, t ≠ "" ∧ no_space t = true) (split s).
Proof.
  induction s as [|c r IH]; [constructor|]. simpl.
  destruct (is_space c) eqn:Ec; [done|].
  destruct r as [|d r'].
  - repeat constructor; [done|]. simpl. by rewrite Ec.
  - destruct (is_space d) eqn:Ed.
    + constructor; [|done]. split; [done|]. simpl. by rewrite Ec.
    + destruct (split (String d r')) as [|w ws].
      * repeat constructor; [done|]. simpl. by rewrite Ec.
      * inversion IH as [|?? [? Hw] ?]; subst. constructor; [|done].
        split; [done|]. simpl. by rewrite Ec, Hw.
Qed.
Lemma startswith_nil s : startswith s "" = true.
Proof. by destruct s. Qed.

Lemma startswith_cons a p b s :
  startswith (String b s) (String a p) = bool_decide (a = b) && startswith s p.
Proof.
  unfold startswith. cbn [String.prefix].
  destruct (ascii_dec a b); [by rewrite bool_decide_true|by rewrite bool_decide_false].
Qed.

Lemma startswith_split s p : startswith s p = true ↔ ∃ r, s = p +:+ r.
Proof.
  revert s. induction p as [|a p IH]; intros s.
  - rewrite startswith_nil. split; [by exists s|done].
  - destruct s as [|b s].
    + split; [done|]. by intros [r ?].
    + rewrite startswith_cons, andb_true_iff, bool_decide_eq_true, IH.
      split.
      * intros [-> [r ->]]. by exists r.
      * intros [r Hr]. rewrite sapp_cons in Hr. injection Hr as -> ->. eauto.
Qed.

Lemma startswith_app p r : startswith (p +:+ r) p = true.
Proof. apply startswith_split. by exists r. Qed.
Lemma startswith_I_not_D line :
  startswith line "-I" = true → startswith line "-D" = false.
Proof.
  intros [r ->]%startswith_split. done.
Qed.

Lemma startswith_isystem_not_ID line :
  startswith line "-isystem" = true →
  startswith line "-D" = false ∧ startswith line "-I" = false.
Proof.
  intros [r ->]%startswith_split. done.
Qed.

End PyStrFacts.

(** * Examples of the string and path functions *)

Example split_demo :
  PyStr.split "clang -Iinc  -DFOO=1 -isystem /usr/x -O2 " =
  ["clang"; "-Iinc"; "-DFOO=1"; "-isystem"; "/usr/x"; "-O2"].
Proof. reflexivity. Qed.

Example normpath_demo :
  map PyPath.normpath ["/abs/include"; "/a/./b/../c/"; "//x"; "///x"; "a/../.."; ""; "/.."] =
  ["/abs/include"; "/a/c"; "//x"; "/x"; ".."; "."; "/"].
Proof. reflexivity. Qed.

Example dirname_demo :
  map PyPath.dirname ["/proj/.flags"; "/a"; "a"; "/a/b/"; "//"; "/a//b"] =
  ["/proj"; "/"; ""; "/a/b"; "//"; "/a"].
Proof. reflexivity. Qed.

Example join_demo :
  [PyPath.join "/proj" "include"; PyPath.join "/proj/" "x"; PyPath.join "/proj" "/x";
   PyPath.join "" "x"; PyPath.join "/proj" ""] =
  ["/proj/include"; "/proj/x"; "/x"; "x"; "/proj/"].
Proof. reflexivity. Qed.

(** * The search has fuel enough *)

Section Search.
Import PyStr PyStrFacts.

Lemma head_of_prefix p : ∃ r, p = PyPath.head_of p +:+ r.
Proof.
  induction p as [|c p [r IH]]; [by exists ""|]. cbn [PyPath.head_of].
  destruct (PyPath.head_of p) as [|d h] eqn:E.
  - destruct (Ascii.eqb c PyPath.sep); [by exists p|by exists (String c p)].
  - exists r. by rewrite sapp_cons, <- IH.
Qed.

Lemma head_of_last p :
  PyPath.head_of p = "" ∨ last_char (PyPath.head_of p) = Some PyPath.sep.
Proof.
  induction p as [|c p IH]; [by left|]. cbn [PyPath.head_of].
  destruct (PyPath.head_of p) as [|d h] eqn:E.
  - destruct (Ascii.eqb_spec c PyPath.sep) as [->|]; [by right|by left].
  - right. destruct IH as [?|IH]; [done|]. by rewrite last_char_cons.
Qed.

Lemma slength_app s t :
  String.length (s +:+ t) = (String.length s + String.length t)%nat.
Proof. induction s as [|c s IH]; [done|]. rewrite sapp_cons. simpl. by rewrite IH. Qed.

Lemma rstrip_char_length c s :
  (String.length (rstrip_char c s) ≤ String.length s)%nat.
Proof.
  induction s as [|d s IH]; [done|]. cbn [rstrip_char].
  destruct (rstrip_char c s); [|simpl in *; lia].
  destruct (Ascii.eqb d c); simpl; lia.
Qed.

Lemma rstrip_char_shorter c s :
  last_char s = Some c → (String.length (rstrip_char c s) < String.length s)%nat.
Proof.
  induction s as [|d s IH]; [done|]. intros H. cbn [rstrip_char].
  destruct s as [|e s'].
  - simpl in H. injection H as ->. simpl. rewrite Ascii.eqb_refl. simpl. lia.
  - rewrite last_char_cons in H by done. specialize (IH H).
    destruct (rstrip_char c (String e s')); [|simpl in *; lia].
    destruct (Ascii.eqb d c); simpl in *; lia.
Qed.

(** A folder is its own parent, or its parent has a shorter name. *)
Lemma dirname_shorter p :
  PyPath.dirname p = p ∨ (String.length (PyPath.dirname p) < String.length p)%nat.
Proof.
  unfold PyPath.dirname. destruct (head_of_prefix p) as [r Hr].
  assert (Hlen : String.length p
                 = (String.length (PyPath.head_of p) + String.length r)%nat).
  { rewrite Hr at 1. apply slength_app. }
  destruct (negb _ && negb _) eqn:E.
  - right. apply andb_true_iff in E as [E _].
    destruct (head_of_last p) as [H|H].
    + rewrite H in E. done.
    + apply (rstrip_char_shorter _ _) in H. lia.
  - destruct r as [|c r].
    + left. by rewrite sapp_nil_r in Hr.
    + right. simpl in Hlen. lia.
Qed.

(** The result of the walk is the same for every amount of fuel above the
    length of the folder it starts from: [File.search] gives it enough. *)
Lemma search_up_fuel n m file_name current to_folder search_content w :
  (String.length current < n)%nat →
  (String.length current < m)%nat →
  search_up n file_name current to_folder search_content w
  = search_up m file_name current to_folder search_content w.
Proof.
  revert m current. induction n as [|n IH]; intros m current Hn Hm; [lia|].
  destruct m as [|m]; [lia|]. cbn [search_up].
  destruct (search_match _ _ _); [done|].
  destruct (String.eqb current to_folder); [done|].
  destruct (String.eqb_spec (PyPath.dirname current) current) as [|Hne]; [done|].
  destruct (dirname_shorter current) as [?|?]; [done|].
  apply IH; lia.
Qed.
End Search.

(** * The parser of [.clang_complete] files *)

Section ClangFile.
Import PyStr PyStrFacts.

Lemma loaded_false f : loaded f = false → full_path f = None.
Proof.
  unfold loaded. destruct (full_path f); [|done].
  rewrite bool_decide_eq_false. intros []. by eexists.
Qed.

Lemma loaded_true f : loaded f = true → ∃ p, full_path f = Some p.
Proof. unfold loaded. rewrite bool_decide_eq_true. by intros [p ?]; exists p. Qed.

Lemma loaded_Some f p : full_path f = Some p → loaded f = true.
Proof. intros H. unfold loaded. rewrite H. by apply bool_decide_eq_true. Qed.

Lemma flags_from_clang_file_unloaded file separate_includes w :
  loaded file = false →
  flags_from_clang_file file separate_includes w =
  (Ok [], add_log ERROR " cannot get flags from clang_complete_file. No file." w).
Proof. intros H. unfold flags_from_clang_file. by rewrite H. Qed.

Lemma flags_from_clang_file_loaded file separate_includes w path content t :
  full_path file = Some path →
  FS.lookup path w = Some (Reg content t) →
  flags_from_clang_file file separate_includes w =
  (Ok (omap (parse_line (folder file) separate_includes) (readlines content)),
   add_log DEBUG " .clang_complete contains flags: %s" w).
Proof.
  intros Hp Hl. unfold flags_from_clang_file, bind, FS.read.
  rewrite (loaded_Some _ _ Hp), Hp. cbn [negb from_option id]. by rewrite Hl.
Qed.

Lemma parse_line_I folder separate_includes line :
  startswith line "-I" = true →
  parse_line folder separate_includes line =
  Some (format_mask separate_includes "-I"
          (let path_to_add := strip (slice_from 2 line) in
           if PyPath.isabs path_to_add then PyPath.normpath path_to_add
           else PyPath.join folder path_to_add)).
Proof.
  intros H. unfold parse_line. rewrite (startswith_I_not_D _ H), H. simpl.
  by destruct (PyPath.isabs _).
Qed.

Lemma parse_line_isystem folder separate_includes line :
  startswith line "-isystem" = true →
  parse_line folder separate_includes line =
  Some (strip (format_mask separate_includes "-isystem"
          (let path_to_add := strip (slice_from 8 line) in
           if PyPath.isabs path_to_add then PyPath.normpath path_to_add
           else PyPath.join folder path_to_add))).
Proof.
  intros H. unfold parse_line.
  destruct (startswith_isystem_not_ID _ H) as [-> ->]. rewrite H. simpl.
  by destruct (PyPath.isabs _).
Qed.

End ClangFile.

(** C8.  A file reference with no path bound: [flags_from_clang_file]
    returns the empty list, for both values of [separate_includes]; it
    raises nothing, and all it does to the world is to log one error. *)
Theorem unloaded_file_gives_no_flags (file : File) (separate_includes : bool) (w : world) :
  loaded file = false →
  flags_from_clang_file file separate_includes w =
  (Ok [], add_log ERROR " cannot get flags from clang_complete_file. No file." w).
Proof. apply flags_from_clang_file_unloaded. Qed.

Lemma unloaded_file_gives_no_flags_witness :
  loaded File_empty = false ∧
  ∀ b, flags_from_clang_file File_empty b (World ∅ "/" 0 [] []) =
       (Ok [], add_log ERROR " cannot get flags from clang_complete_file. No file."
                 (World ∅ "/" 0 [] [])).
Proof.
  split; [reflexivity|].
  intros b. apply (unloaded_file_gives_no_flags File_empty b). reflexivity.
Defined.

(** C6.  In [flags_from_clang_file] every line that begins with [-I] has
    the rest of the line, stripped, taken as a path: an absolute path is
    normalized, a relative one is joined to the directory of the flag-list
    file; lines that begin with [-isystem] are treated the same way.  The
    working directory plays no part: with an absolute path bound, two
    worlds with the same files give the same flags.  A file
    [/proj/.flags] with the line [-Iinclude] gives [-I/proj/include], and
    with the line [-I/abs/include] it gives [-I/abs/include]. *)
Theorem include_paths_anchor_at_the_file
    (file : File) (separate_includes : bool) (w : world)
    (path content : string) (t : Z) :
  full_path file = Some path →
  FS.lookup path w = Some (Reg content t) →
  fst (flags_from_clang_file file separate_includes w) =
    Ok (omap (parse_line (PyPath.dirname path) separate_includes)
          (PyStr.readlines content))
  ∧ (∀ line, PyStr.startswith line "-I" = true →
       parse_line (PyPath.dirname path) separate_includes line =
       Some (format_mask separate_includes "-I"
               (let path_to_add := PyStr.strip (PyStr.slice_from 2 line) in
                if PyPath.isabs path_to_add then PyPath.normpath path_to_add
                else PyPath.join (PyPath.dirname path) path_to_add)))
  ∧ (∀ line, PyStr.startswith line "-isystem" = true →
       parse_line (PyPath.dirname path) separate_includes line =
       Some (PyStr.strip
               (format_mask separate_includes "-isystem"
                  (let path_to_add := PyStr.strip (PyStr.slice_from 8 line) in
                   if PyPath.isabs path_to_add then PyPath.normpath path_to_add
                   else PyPath.join (PyPath.dirname path) path_to_add))))
  ∧ (∀ w', PyPath.isabs path = true → files w' = files w →
       fst (flags_from_clang_file file separate_includes w') =
       fst (flags_from_clang_file file separate_includes w))
  ∧ (let w1 := flags_file_world ("-Iinclude" +:+ nl) in
     fst (flags_from_clang_file (File_at "/proj/.flags" w1) false w1) =
     Ok ["-I/proj/include"])
  ∧ (let w2 := flags_file_world ("-I/abs/include" +:+ nl) in
     fst (flags_from_clang_file (File_at "/proj/.flags" w2) false w2) =
     Ok ["-I/abs/include"]).
Proof.
  intros Hp Hl.
  assert (Hf : folder file = PyPath.dirname path) by (unfold folder; by rewrite Hp).
  split; [|split; [|split; [|split; [|split]]]].
  - rewrite (flags_from_clang_file_loaded _ _ _ _ _ _ Hp Hl). by rewrite Hf.
  - intros line H. by apply parse_line_I.
  - intros line H. by apply parse_line_isystem.
  - intros w' Habs Hfiles.
    assert (Hl' : FS.lookup path w' = Some (Reg content t)).
    { unfold FS.lookup, FS.key in *. rewrite Habs in *. by rewrite Hfiles. }
    by rewrite (flags_from_clang_file_loaded _ _ _ _ _ _ Hp Hl),
               (flags_from_clang_file_loaded _ _ _ _ _ _ Hp Hl').
  - vm_compute. reflexivity.
  - vm_compute. reflexivity.
Qed.

Lemma include_paths_anchor_at_the_file_witness :
  let w := flags_file_world ("-Iinclude" +:+ nl +:+ "-isystem /usr/x" +:+ nl) in
  fst (flags_from_clang_file (File_at "/proj/.flags" w) true w) =
  Ok (omap (parse_line "/proj" true)
        (PyStr.readlines ("-Iinclude" +:+ nl +:+ "-isystem /usr/x" +:+ nl))).
Proof.
  intros w.
  refine (proj1 (include_paths_anchor_at_the_file (File_at "/proj/.flags" w) true w
                   "/proj/.flags" ("-Iinclude" +:+ nl +:+ "-isystem /usr/x" +:+ nl) 1
                   _ _)).
  - vm_compute. reflexivity.
  - vm_compute. reflexivity.
Defined.

(** * The compilation database *)

Section Database.
Import PyStr PyStrFacts.

Lemma elem_of_set_add f x s : f ∈ set_add x s ↔ f ∈ s ∨ f = x.
Proof.
  unfold set_add. case_bool_decide.
  - split; [auto|]. by intros [?| ->].
  - by rewrite elem_of_app, list_elem_of_singleton.
Qed.

Lemma NoDup_set_add x s : NoDup s → NoDup (set_add x s).
Proof.
  intros Hs. unfold set_add. case_bool_decide; [done|].
  apply NoDup_app. split_and!; [done| |apply NoDup_singleton].
  intros y Hy ->%list_elem_of_singleton. done.
Qed.

Lemma token_strip t : is_token t → strip t = t.
Proof. intros [??]. apply strip_id; [by apply no_space_starts|by apply no_space_ends]. Qed.

Lemma token_pair_strip a b : is_token a → is_token b → strip (a +:+ " " +:+ b) = a +:+ " " +:+ b.
Proof.
  intros [Ha ?] [Hb ?]. apply strip_id.
  - apply starts_nonspace_app. by apply no_space_starts.
  - rewrite ends_nonspace_app by (by destruct b).
    rewrite ends_nonspace_app by done. by apply no_space_ends.
Qed.

Lemma dangling_cons part rest : rest ≠ [] → dangling (part :: rest) = dangling rest.
Proof. destruct rest; [done|]. intros _. unfold dangling. by rewrite last_cons_cons. Qed.

Lemma scan_parts_raise pre parts flags_set :
  dangling parts = true →
  scan_parts (pre ++ parts) (length pre) parts flags_set = Raise IndexError.
Proof.
  revert pre flags_set. induction parts as [|part rest IH]; intros pre flags_set Hd; [done|].
  assert (Hnext : ∀ acc, rest ≠ [] →
            scan_parts (pre ++ part :: rest) (S (length pre)) rest acc = Raise IndexError).
  { intros acc Hne. rewrite dangling_cons in Hd by done.
    specialize (IH (pre ++ [part]) acc Hd).
    by rewrite <- app_assoc, length_app, Nat.add_1_r in IH. }
  cbn [scan_parts].
  destruct (startswith part "-I" || startswith part "-D") eqn:E1.
  - destruct rest as [|next rest']; [|by apply Hnext].
    unfold dangling in Hd. simpl in Hd.
    destruct (startswith_isystem_not_ID _ Hd) as [H1 H2]. by rewrite H1, H2 in E1.
  - destruct (startswith part "-isystem") eqn:E2.
    + rewrite list_lookup_middle by done.
      destruct rest as [|next rest'].
      * rewrite lookup_ge_None_2; [done|]. rewrite length_app. simpl. lia.
      * replace (pre ++ part :: next :: rest') with ((pre ++ [part]) ++ next :: rest')
          by by rewrite <- app_assoc.
        rewrite list_lookup_middle by (rewrite length_app; simpl; lia).
        rewrite <- app_assoc. by apply Hnext.
    + destruct rest as [|next rest']; [|by apply Hnext].
      unfold dangling in Hd. simpl in Hd. congruence.
Qed.

Lemma scan_parts_ok pre parts flags_set :
  Forall is_token (pre ++ parts) →
  dangling parts = false →
  ∃ flags_set',
    scan_parts (pre ++ parts) (length pre) parts flags_set = Ok flags_set'
    ∧ (NoDup flags_set → NoDup flags_set')
    ∧ ∀ f, f ∈ flags_set' ↔ f ∈ flags_set ∨ f ∈ spec_flags parts.
Proof.
  revert pre flags_set. induction parts as [|part rest IH]; intros pre flags_set Htok Hd.
  { exists flags_set. split_and!; [done..|]. intros f. rewrite elem_of_nil. tauto. }
  assert (Hpart : is_token part).
  { rewrite Forall_app, Forall_cons in Htok. tauto. }
  assert (Hnext : ∀ acc, ∃ flags_set',
            scan_parts (pre ++ part :: rest) (S (length pre)) rest acc = Ok flags_set'
            ∧ (NoDup acc → NoDup flags_set')
            ∧ ∀ f, f ∈ flags_set' ↔ f ∈ acc ∨ f ∈ spec_flags rest).
  { intros acc.
    assert (Hd' : dangling rest = false).
    { destruct rest; [done|]. by rewrite dangling_cons in Hd. }
    specialize (IH (pre ++ [part]) acc).
    rewrite <- app_assoc, length_app, Nat.add_1_r in IH. by apply IH. }
  cbn [scan_parts spec_flags].
  destruct (startswith part "-I" || startswith part "-D") eqn:E1.
  - destruct (Hnext (set_add (strip part) flags_set)) as (s & -> & Hnd & Hs).
    exists s. split_and!; [done|by intros ?; apply Hnd, NoDup_set_add|].
    intros f. rewrite Hs, elem_of_set_add, elem_of_cons, token_strip by done. tauto.
  - destruct (startswith part "-isystem") eqn:E2; [|by apply Hnext].
    rewrite list_lookup_middle by done.
    destruct rest as [|next rest'].
    { unfold dangling in Hd. simpl in Hd. congruence. }
    replace (pre ++ part :: next :: rest') with ((pre ++ [part]) ++ next :: rest')
      by by rewrite <- app_assoc.
    rewrite list_lookup_middle by (rewrite length_app; simpl; lia).
    rewrite <- app_assoc. cbv zeta.
    change (pre ++ [part] ++ next :: rest') with (pre ++ part :: next :: rest').
    assert (Hn : is_token next).
    { rewrite Forall_app, !Forall_cons in Htok. tauto. }
    destruct (Hnext (set_add (strip (part +:+ " " +:+ next)) flags_set))
      as (s & -> & Hnd & Hs).
    exists s. split_and!; [done|by intros ?; apply Hnd, NoDup_set_add|].
    intros f. rewrite Hs, elem_of_set_add, elem_of_cons, token_pair_strip by done. tauto.
Qed.

Lemma scan_command_raise parts flags_set :
  dangling parts = true → scan_parts parts 0 parts flags_set = Raise IndexError.
Proof. apply (scan_parts_raise []). Qed.

Lemma scan_command_ok parts flags_set :
  Forall is_token parts →
  dangling parts = false →
  ∃ flags_set',
    scan_parts parts 0 parts flags_set = Ok flags_set'
    ∧ (NoDup flags_set → NoDup flags_set')
    ∧ ∀ f, f ∈ flags_set' ↔ f ∈ flags_set ∨ f ∈ spec_flags parts.
Proof. apply (scan_parts_ok []). Qed.

Lemma scan_entries_raise entries commands flags_set :
  records entries commands →
  existsb dangling_isystem commands = true →
  scan_entries entries flags_set = Raise IndexError.
Proof.
  intros Hrec. revert flags_set.
  induction Hrec as [|entry command entries commands He _ IH]; intros flags_set Hex;
    [done|].
  cbn [scan_entries split_command]. rewrite He. cbn [split_command].
  destruct (dangling_isystem command) eqn:Hd.
  - by rewrite (scan_command_raise _ _ Hd).
  - destruct (scan_command_ok (split command) flags_set) as (s & -> & _);
      [apply split_tokens|done|].
    apply IH. simpl in Hex. by rewrite Hd in Hex.
Qed.

Lemma scan_entries_ok entries commands flags_set :
  records entries commands →
  existsb dangling_isystem commands = false →
  ∃ flags_set',
    scan_entries entries flags_set = Ok flags_set'
    ∧ (NoDup flags_set → NoDup flags_set')
    ∧ ∀ f, f ∈ flags_set' ↔
           f ∈ flags_set ∨ ∃ command, command ∈ commands ∧ f ∈ spec_flags (split command).
Proof.
  intros Hrec. revert flags_set.
  induction Hrec as [|entry command entries commands He _ IH]; intros flags_set Hex.
  { exists flags_set. split_and!; [done..|]. intros f. split; [auto|].
    intros [?|(c & Hc & _)]; [done|]. by apply elem_of_nil in Hc. }
  simpl in Hex. apply orb_false_iff in Hex as [Hd Hex].
  cbn [scan_entries]. rewrite He. cbn [split_command].
  destruct (scan_command_ok (split command) flags_set) as (s & -> & Hnd & Hs);
    [apply split_tokens|done|].
  destruct (IH s Hex) as (s' & -> & Hnd' & Hs').
  exists s'. split_and!; [done|by auto|].
  intros f. rewrite Hs', Hs. split.
  - intros [[?|?]|(c & ? & ?)]; [by left|right; exists command|right; exists c];
      by rewrite elem_of_cons; auto.
  - intros [?|(c & [->|?]%elem_of_cons & ?)]; [by auto..|]. right. by exists c.
Qed.

Lemma flags_from_database_parsed host database_file w path text t data :
  full_path database_file = Some path →
  FS.lookup path w = Some (Reg text t) →
  json_load host text = Some data →
  fst (flags_from_database host database_file w) = flags_from_data data.
Proof.
  intros Hp Hl Hj. unfold flags_from_database, bind, FS.read, lift.
  rewrite Hp, Hl, Hj. by destruct (flags_from_data data) as [[?|]|].
Qed.

Lemma JArr_not_falsy entries : entries ≠ [] → falsy (JArr entries) = false.
Proof. intros. by apply bool_decide_eq_false. Qed.
End Database.

(** C5.  For a database that is a non-empty array of records, none of
    whose commands ends in a token that starts with [-isystem],
    [flags_from_database] returns the set of the flags of the
    specification: of the tokens of each command, split at white space,
    those that start with [-I] or [-D], kept as they are, and those that
    start with [-isystem], each combined with the token after it; all
    other tokens are dropped.  For [clang -Iinc -DFOO=1 -isystem /usr/x
    -O2] the set is [-Iinc], [-DFOO=1], [-isystem /usr/x]. *)
Theorem database_flags_are_the_I_D_isystem_tokens
    (host : Host) (database_file : File) (w : world) (path text : string) (t : Z)
    (entries : list json) (commands : list string) :
  full_path database_file = Some path →
  FS.lookup path w = Some (Reg text t) →
  json_load host text = Some (JArr entries) →
  entries ≠ [] →
  records entries commands →
  existsb dangling_isystem commands = false →
  (∃ flags_set,
      fst (flags_from_database host database_file w) = Ok (Some flags_set)
      ∧ NoDup flags_set
      ∧ ∀ f, f ∈ flags_set ↔
             ∃ command, command ∈ commands ∧ f ∈ spec_flags (PyStr.split command))
  ∧ flags_from_data
      (JArr [JObj [("command", JStr "clang -Iinc -DFOO=1 -isystem /usr/x -O2")]]) =
    Ok (Some ["-Iinc"; "-DFOO=1"; "-isystem /usr/x"]).
Proof.
  intros Hp Hl Hj Hne Hrec Hd. split; [|reflexivity].
  rewrite (flags_from_database_parsed _ _ _ _ _ _ _ Hp Hl Hj).
  unfold flags_from_data. rewrite JArr_not_falsy by done. cbn [iterate].
  destruct (scan_entries_ok entries commands [] Hrec Hd) as (s & -> & Hnd & Hs).
  exists s. split_and!; [done|apply Hnd, NoDup_nil_2|].
  intros f. rewrite Hs, elem_of_nil. tauto.
Qed.

Lemma database_flags_are_the_I_D_isystem_tokens_witness :
  let command := "clang -Iinc -DFOO=1 -isystem /usr/x -O2" in
  let w := database_world (demo_db_text command) in
  ∃ flags_set,
    fst (flags_from_database (demo_host command)
           (File_at "/db/compile_commands.json" w) w) = Ok (Some flags_set)
    ∧ NoDup flags_set
    ∧ ∀ f, f ∈ flags_set ↔
           ∃ c, c ∈ [command] ∧ f ∈ spec_flags (PyStr.split c).
Proof.
  intros command w.
  refine (proj1 (database_flags_are_the_I_D_isystem_tokens (demo_host command)
                   (File_at "/db/compile_commands.json" w) w
                   "/db/compile_commands.json" (demo_db_text command) 1
                   [JObj [("directory", JStr "/proj"); ("command", JStr command)]]
                   [command] _ _ _ _ _ _)).
  - vm_compute. reflexivity.
  - vm_compute. reflexivity.
  - vm_compute. reflexivity.
  - discriminate.
  - repeat constructor.
  - vm_compute. reflexivity.
Defined.

(** C9.  [flags_from_database] reads the token after a token that starts
    with [-isystem] without a check of the index.  On a database that is a
    non-empty array of records it returns a set exactly when no command
    ends in such a token; when some command does, the access
    [all_command_parts[i + 1]] is out of range and the function raises
    [IndexError].  The command [clang -isystem] is such an input. *)
Theorem isystem_needs_a_following_token
    (host : Host) (database_file : File) (w : world) (path text : string) (t : Z)
    (entries : list json) (commands : list string) :
  full_path database_file = Some path →
  FS.lookup path w = Some (Reg text t) →
  json_load host text = Some (JArr entries) →
  entries ≠ [] →
  records entries commands →
  (existsb dangling_isystem commands = false →
     ∃ flags_set, fst (flags_from_database host database_file w) = Ok (Some flags_set))
  ∧ (existsb dangling_isystem commands = true →
     fst (flags_from_database host database_file w) = Raise IndexError)
  ∧ dangling_isystem "clang -isystem" = true
  ∧ flags_from_data (JArr [JObj [("command", JStr "clang -isystem")]]) = Raise IndexError.
Proof.
  intros Hp Hl Hj Hne Hrec.
  rewrite (flags_from_database_parsed _ _ _ _ _ _ _ Hp Hl Hj).
  unfold flags_from_data. rewrite JArr_not_falsy by done. cbn [iterate].
  split_and!; [| |reflexivity..].
  - intros Hd. destruct (scan_entries_ok entries commands [] Hrec Hd) as (s & -> & _).
    by exists s.
  - intros Hd. by rewrite (scan_entries_raise entries commands [] Hrec Hd).
Qed.

Lemma isystem_needs_a_following_token_witness :
  let command := "clang -Iinc -isystem" in
  let w := database_world (demo_db_text command) in
  fst (flags_from_database (demo_host command)
         (File_at "/db/compile_commands.json" w) w) = Raise IndexError.
Proof.
  intros command w.
  refine (proj1 (proj2 (isystem_needs_a_following_token (demo_host command)
                   (File_at "/db/compile_commands.json" w) w
                   "/db/compile_commands.json" (demo_db_text command) 1
                   [JObj [("directory", JStr "/proj"); ("command", JStr command)]]
                   [command] _ _ _ _ _)) _).
  - vm_compute. reflexivity.
  - vm_compute. reflexivity.
  - vm_compute. reflexivity.
  - discriminate.
  - repeat constructor.
  - vm_compute. reflexivity.
Defined.

(** C7 fails for a malformed file: the text [{] is rejected by [json.load],
    and [flags_from_database] raises [ValueError] instead of returning. *)
Lemma malformed_database_raises :
  let host := host_with "{" None in
  let w := database_world "{" in
  json_load host "{" = None
  ∧ flags_from_database host (File_at "/db/compile_commands.json" w) w
    = (Raise ValueError, w).
Proof. vm_compute. split; reflexivity. Qed.

(** C7, amended.  For a database file whose text [json.load] reads as an
    empty value (the empty array, the empty object, null, ...),
    [flags_from_database] returns none, raises nothing and leaves the world
    as it is.  For a text that [json.load] rejects it does not return: the
    [ValueError] of the parser goes on to the caller. *)
Theorem empty_database_gives_none
    (host : Host) (database_file : File) (w : world) (path text : string) (t : Z) :
  full_path database_file = Some path →
  FS.lookup path w = Some (Reg text t) →
  (∀ data, json_load host text = Some data → falsy data = true →
     flags_from_database host database_file w = (Ok None, w))
  ∧ (json_load host text = None →
     flags_from_database host database_file w = (Raise ValueError, w)).
Proof.
  intros Hp Hl. unfold flags_from_database, bind, FS.read, lift, flags_from_data.
  rewrite Hp, Hl. split.
  - intros data -> ->. reflexivity.
  - intros ->. reflexivity.
Qed.

Lemma empty_database_gives_none_witness :
  let host := host_with "[]" (Some (JArr [])) in
  let w := database_world "[]" in
  flags_from_database host (File_at "/db/compile_commands.json" w) w = (Ok None, w).
Proof.
  intros host w.
  refine (proj1 (empty_database_gives_none host (File_at "/db/compile_commands.json" w) w
                   "/db/compile_commands.json" "[]" 1 _ _) (JArr []) _ _).
  - vm_compute. reflexivity.
  - vm_compute. reflexivity.
  - vm_compute. reflexivity.
  - vm_compute. reflexivity.
Defined.

(** What [get_flags] does with that none is another matter: with a build
    tool that leaves the empty database [[]], the call ends in the
    [AttributeError] of [None.symmetric_difference]. *)
Example empty_database_in_get_flags :
  (get_flags (host_with "[]" (Some (JArr []))) demo_manager false demo_world).1.1
  = Raise AttributeError.
Proof. vm_compute. reflexivity. Qed.

(** * Writing the flag-list file *)

Section Writing.
Import PyStr PyStrFacts.

Lemma isabs_join a b : PyPath.isabs a = true → PyPath.isabs (PyPath.join a b) = true.
Proof.
  unfold PyPath.isabs, PyPath.join. intros Ha.
  destruct (startswith b "/") eqn:Hb; [done|].
  apply startswith_split in Ha as [r ->].
  destruct (_ || _); rewrite sapp_assoc; apply startswith_app.
Qed.

Lemma key_abs w p : PyPath.isabs (cwd w) = true → PyPath.isabs (FS.key w p) = true.
Proof.
  intros Hw. unfold FS.key. destruct (PyPath.isabs p) eqn:Hp; [done|].
  by apply isabs_join.
Qed.

Lemma key_of_abs w p : PyPath.isabs p = true → FS.key w p = p.
Proof. intros Hp. unfold FS.key. by rewrite Hp. Qed.

Lemma key_key w p : PyPath.isabs (cwd w) = true → FS.key w (FS.key w p) = FS.key w p.
Proof. intros Hw. by apply key_of_abs, key_abs. Qed.

Lemma File_at_exists p w n :
  FS.lookup p w = Some n → File_at p w = mkFile (Some (FS.key w p)) 0.
Proof.
  intros H. unfold File_at, FS.exists_. rewrite H.
  by rewrite bool_decide_true by by eexists.
Qed.

Lemma File_at_missing p w : FS.lookup p w = None → File_at p w = File_empty.
Proof.
  intros H. unfold File_at, FS.exists_. rewrite H.
  rewrite bool_decide_false; [done|]. by intros [??].
Qed.

Lemma write_lines_spec new_flags file_path w :
  FS.lookup file_path w ≠ Some Dir →
  write_lines new_flags file_path w =
  (Ok tt, add_write (FS.key w file_path)
            (set_files (<[FS.key w file_path :=
                            Reg (join nl new_flags +:+ nl) (now w)]> (files w)) w)).
Proof.
  intros H. unfold write_lines, FS.write.
  destruct (FS.lookup file_path w) as [[]|]; done.
Qed.

Lemma get_flags_strategy_fixed host strategy :
  strategy ≠ "ask" → get_flags_strategy host strategy = Some strategy.
Proof.
  intros H. unfold get_flags_strategy.
  by destruct (String.eqb_spec strategy "ask").
Qed.

Lemma elem_of_union f a b : f ∈ union a b ↔ f ∈ a ∨ f ∈ b.
Proof. apply list_elem_of_union. Qed.

Lemma elem_of_set_of_list f l : f ∈ set_of_list l ↔ f ∈ l.
Proof. apply elem_of_remove_dups. Qed.
Lemma write_flags_fresh host new_flags file_path strategy w :
  FS.lookup file_path w = None →
  write_flags_to_file host new_flags file_path strategy w =
  write_lines new_flags file_path w.
Proof.
  intros Hl. unfold write_flags_to_file, FS.exists_. rewrite Hl.
  by rewrite bool_decide_false by by intros [??].
Qed.

Lemma write_flags_existing host new_flags file_path strategy w n :
  FS.lookup file_path w = Some n →
  write_flags_to_file host new_flags file_path strategy w =
  let w' := add_log DEBUG " picked '%s' strategy."
              (add_log DEBUG " path already exists" w) in
  let flag_strategy := get_flags_strategy host strategy in
  if bool_decide (flag_strategy = Some "keep_old") then (Ok tt, w')
  else if bool_decide (flag_strategy = Some "merge") then
    bind (λ w', flags_from_clang_file (File_at file_path w') false w')
      (λ parsed, write_lines (union new_flags (set_of_list parsed)) file_path) w'
  else write_lines new_flags file_path w'.
Proof.
  intros Hl. unfold write_flags_to_file, FS.exists_. rewrite Hl.
  rewrite bool_decide_true by by eexists.
  unfold bind at 1 2, log. cbv zeta.
  by repeat case_bool_decide.
Qed.

Lemma write_flags_merge host new_flags file_path w content t :
  FS.lookup file_path w = Some (Reg content t) →
  PyPath.isabs (cwd w) = true →
  write_flags_to_file host new_flags file_path "merge" w =
  write_lines
    (union new_flags
       (set_of_list (omap (parse_line (PyPath.dirname (FS.key w file_path)) false)
                       (readlines content))))
    file_path
    (add_log DEBUG " .clang_complete contains flags: %s"
       (add_log DEBUG " picked '%s' strategy."
          (add_log DEBUG " path already exists" w))).
Proof.
  intros Hl Hw. rewrite (write_flags_existing _ _ _ _ _ _ Hl). cbv zeta.
  rewrite get_flags_strategy_fixed by done.
  rewrite bool_decide_false by done. rewrite bool_decide_true by done.
  set (w' := add_log _ _ (add_log _ _ w)).
  assert (Hl' : FS.lookup file_path w' = Some (Reg content t)) by done.
  unfold bind. rewrite (File_at_exists _ _ _ Hl').
  erewrite flags_from_clang_file_loaded; [done|done|].
  change (FS.lookup (FS.key w' file_path) w')
    with (FS.lookup (FS.key w file_path) w).
  unfold FS.lookup. rewrite key_key by done. exact Hl.
Qed.
End Writing.

(** C4.  [write_flags_to_file]: where nothing exists at [file_path] it
    writes [new_flags], joined by line ends and with a line end after the
    last, whatever the strategy.  Where a file exists, [keep_old] writes
    nothing and leaves the file as it is, [merge] writes the union of
    [new_flags] and the flags parsed from the file without separation of
    the includes, and [overwrite] writes [new_flags] alone. *)
Theorem write_flags_to_file_by_strategy
    (host : Host) (new_flags : list string) (file_path strategy : string) (w : world) :
  let k := FS.key w file_path in
  let result := write_flags_to_file host new_flags file_path strategy w in
  let written flags :=
    fst result = Ok tt
    ∧ files (snd result) = <[k := Reg (PyStr.join nl flags +:+ nl) (now w)]> (files w)
    ∧ writes (snd result) = writes w ++ [k] in
  (FS.lookup file_path w = None → written new_flags)
  ∧ (∀ content t, FS.lookup file_path w = Some (Reg content t) →
       (strategy = "keep_old" →
          fst result = Ok tt ∧ files (snd result) = files w
          ∧ writes (snd result) = writes w)
       ∧ (strategy = "merge" → PyPath.isabs (cwd w) = true →
          let curr_flags :=
            set_of_list (omap (parse_line (PyPath.dirname k) false)
                           (PyStr.readlines content)) in
          written (union new_flags curr_flags)
          ∧ ∀ f, f ∈ union new_flags curr_flags ↔
                 f ∈ new_flags
                 ∨ f ∈ omap (parse_line (PyPath.dirname k) false)
                         (PyStr.readlines content))
       ∧ (strategy = "overwrite" → written new_flags)).
Proof.
  intros k result written. subst written result k. cbv beta. split.
  - intros Hl. rewrite write_flags_fresh, write_lines_spec by (by rewrite ?Hl). done.
  - intros content t Hl.
    assert (Hnd : ∀ w', FS.lookup file_path w' = FS.lookup file_path w →
                        FS.lookup file_path w' ≠ Some Dir) by (intros w' ->; by rewrite Hl).
    split_and!.
    + intros ->. rewrite (write_flags_existing _ _ _ _ _ _ Hl). cbv zeta.
      rewrite get_flags_strategy_fixed by done. done.
    + intros -> Hw curr_flags. subst curr_flags.
      rewrite (write_flags_merge _ _ _ _ _ _ Hl Hw).
      rewrite write_lines_spec by by apply Hnd.
      split; [done|]. intros f. by rewrite elem_of_union, elem_of_set_of_list.
    + intros ->. rewrite (write_flags_existing _ _ _ _ _ _ Hl). cbv zeta.
      rewrite get_flags_strategy_fixed by done.
      rewrite !bool_decide_false by done.
      rewrite write_lines_spec by by apply Hnd. done.
Qed.

Lemma write_flags_to_file_by_strategy_witness :
  let w := World {[ "/proj/.clang_complete" := Reg ("-DOLD" +:+ nl +:+ "-Iinc" +:+ nl) 1 ]}
             "/elsewhere" 5 [] [] in
  let result := write_flags_to_file (demo_host "clang") ["-DNEW"; "-DOLD"]
                  "/proj/.clang_complete" "merge" w in
  fst result = Ok tt
  ∧ files (snd result) =
      <[ "/proj/.clang_complete" :=
           Reg ("-DNEW" +:+ nl +:+ "-DOLD" +:+ nl +:+ "-I/proj/inc" +:+ nl) 5 ]> (files w)
  ∧ writes (snd result) = ["/proj/.clang_complete"].
Proof.
  intros w result.
  destruct (write_flags_to_file_by_strategy (demo_host "clang") ["-DNEW"; "-DOLD"]
              "/proj/.clang_complete" "merge" w) as [_ H].
  destruct (H ("-DOLD" +:+ nl +:+ "-Iinc" +:+ nl) 1) as (_ & Hmerge & _).
  - vm_compute. reflexivity.
  - destruct Hmerge as [Hw _]; [reflexivity..|]. exact Hw.
Defined.

(** * Writing, then parsing *)

Section RoundTrip.
Import PyStr PyStrFacts.

Lemma join_unlines l : l ≠ [] → join nl l +:+ nl = unlines l.
Proof.
  induction l as [|f [|g l] IH]; [done| |]; intros _.
  - simpl. by rewrite sapp_nil_r.
  - change (join nl (f :: g :: l)) with (f +:+ nl +:+ join nl (g :: l)).
    rewrite !sapp_assoc, IH by done. done.
Qed.

Lemma universal_newlines_line f rest :
  single_line f = true →
  universal_newlines (f +:+ nl +:+ rest) = f +:+ nl +:+ universal_newlines rest.
Proof.
  induction f as [|c f IH]; intros H.
  - done.
  - simpl in H. apply andb_true_iff in H as [[_ Hc]%andb_true_iff Hf].
    rewrite !sapp_cons. cbn [universal_newlines].
    apply negb_true_iff in Hc. rewrite Hc. by rewrite IH.
Qed.

Lemma universal_newlines_unlines l :
  Forall (λ f, single_line f = true) l → universal_newlines (unlines l) = unlines l.
Proof.
  induction 1 as [|f l Hf _ IH]; [done|].
  cbn [unlines fold_right]. rewrite universal_newlines_line by done.
  by f_equal; f_equal.
Qed.

Lemma keep_lines_line f rest :
  single_line f = true →
  keep_lines (f +:+ nl +:+ rest) = (f +:+ nl) :: keep_lines rest.
Proof.
  induction f as [|c f IH]; intros H.
  - done.
  - simpl in H. apply andb_true_iff in H as [[Hc _]%andb_true_iff Hf].
    rewrite !sapp_cons. cbn [keep_lines].
    apply negb_true_iff in Hc. rewrite Hc. by rewrite IH.
Qed.

Lemma readlines_unlines l :
  Forall (λ f, single_line f = true) l →
  readlines (unlines l) = map (λ f, f +:+ nl) l.
Proof.
  intros H. unfold readlines. rewrite universal_newlines_unlines by done.
  induction H as [|f l Hf _ IH]; [done|].
  cbn [unlines fold_right map]. rewrite keep_lines_line by done. by f_equal.
Qed.

Lemma strip_app_nl s : strip s = s → strip (s +:+ nl) = s.
Proof. by apply strip_app_space. Qed.

Lemma strip_path f a p :
  f = a +:+ p → strip f = f → PyPath.isabs p = true → strip p = p.
Proof.
  intros -> Hf [r ->]%startswith_split.
  apply strip_fixed in Hf as [Hf|[_ Hf]].
  - apply sapp_eq_nil in Hf as [_ ?]. done.
  - rewrite ends_nonspace_app in Hf by done. by apply strip_id.
Qed.

Lemma parse_line_stable folder f :
  stable_flag f → parse_line folder false (f +:+ nl) = Some f.
Proof.
  intros (Hline & Hstrip & [HD|[(p & -> & Habs & Hnorm)|(p & -> & Habs & Hnorm)]]).
  - unfold parse_line.
    apply startswith_split in HD as [r Hr].
    assert (startswith (f +:+ nl) "-D" = true) as ->.
    { rewrite Hr, sapp_assoc. apply startswith_app. }
    f_equal. by apply strip_app_nl.
  - rewrite sapp_assoc, parse_line_I by apply startswith_app.
    change (slice_from 2 ("-I" +:+ p +:+ nl)) with (p +:+ nl). cbv zeta.
    rewrite strip_app_nl by by apply (strip_path ("-I" +:+ p) "-I" p).
    by rewrite Habs, Hnorm.
  - rewrite sapp_assoc, parse_line_isystem by apply startswith_app.
    change (slice_from 8 ("-isystem" +:+ p +:+ nl)) with (p +:+ nl). cbv zeta.
    rewrite strip_app_nl by by apply (strip_path ("-isystem" +:+ p) "-isystem" p).
    rewrite Habs, Hnorm. unfold format_mask. by rewrite Hstrip.
Qed.

Lemma parse_lines_stable folder flags :
  Forall stable_flag flags →
  omap (parse_line folder false) (map (λ f, f +:+ nl) flags) = flags.
Proof.
  induction 1 as [|f l Hf _ IH]; [done|].
  rewrite map_cons. cbn [omap list_omap].
  rewrite parse_line_stable by done. by f_equal.
Qed.

Lemma parse_written_lines folder flags :
  Forall stable_flag flags →
  omap (parse_line folder false) (readlines (join nl flags +:+ nl)) = flags.
Proof.
  intros H. destruct (decide (flags = [])) as [->|Hne]; [done|].
  rewrite join_unlines, readlines_unlines by
    (done || (eapply Forall_impl; [exact H|]; by intros ? [? _])).
  by apply parse_lines_stable.
Qed.
End RoundTrip.

(** C3 fails for a relative include path: [-Iinc], written to
    [/proj/.clang_complete] and parsed again, comes back as [-I/proj/inc]. *)
Lemma relative_include_does_not_round_trip :
  let w := World ∅ "/elsewhere" 5 [] [] in
  let w1 := snd (write_flags_to_file (demo_host "clang") ["-Iinc"]
                   "/proj/.clang_complete" "overwrite" w) in
  fst (flags_from_clang_file (File_at "/proj/.clang_complete" w1) false w1)
    = Ok ["-I/proj/inc"]
  ∧ "-Iinc" ∉ set_of_list ["-I/proj/inc"].
Proof.
  split; [vm_compute; reflexivity|].
  intros H. vm_compute in H. apply list_elem_of_singleton in H. discriminate.
Qed.

(** C3, amended.  For every set of flags each of which is one line without
    white space around it, and is a [-D] flag or an [-I] or [-isystem] flag
    followed directly by an absolute, normalized path: writing the set with
    the strategy [overwrite] and parsing the file with
    [separate_includes=False] gives the flags that were written, so the set
    of the parsed flags is the set that was written. *)
Theorem stable_flags_round_trip
    (host : Host) (flags : list string) (file_path : string) (w : world) :
  PyPath.isabs (cwd w) = true →
  FS.lookup file_path w ≠ Some Dir →
  Forall stable_flag flags →
  let result := write_flags_to_file host flags file_path "overwrite" w in
  let w1 := snd result in
  fst result = Ok tt
  ∧ ∃ parsed,
      fst (flags_from_clang_file (File_at file_path w1) false w1) = Ok parsed
      ∧ parsed = flags
      ∧ ∀ f, f ∈ set_of_list parsed ↔ f ∈ flags.
Proof.
  intros Hw Hnd Hst result w1.
  assert (Hres : ∃ w', result = write_lines flags file_path w'
                       ∧ FS.lookup file_path w' = FS.lookup file_path w
                       ∧ FS.key w' file_path = FS.key w file_path
                       ∧ cwd w' = cwd w).
  { subst result. destruct (FS.lookup file_path w) as [n|] eqn:Hl.
    - rewrite (write_flags_existing _ _ _ _ _ _ Hl). cbv zeta.
      rewrite get_flags_strategy_fixed by done.
      rewrite !bool_decide_false by done. by eexists.
    - rewrite write_flags_fresh by done. by eexists. }
  destruct Hres as (w' & Hres & Hl' & Hk' & Hc').
  rewrite write_lines_spec in Hres by by rewrite Hl'.
  subst w1. rewrite Hres. cbn [fst snd].
  split; [done|]. exists flags.
  split; [|split; [done|intros f; apply elem_of_set_of_list]].
  set (w1 := add_write _ _).
  assert (Hl1 : FS.lookup file_path w1
                = Some (Reg (PyStr.join nl flags +:+ nl) (now w'))).
  { unfold FS.lookup. change (FS.key w1 file_path) with (FS.key w' file_path).
    subst w1. cbn [files add_write set_files]. by rewrite lookup_insert_eq. }
  rewrite (File_at_exists _ _ _ Hl1).
  erewrite flags_from_clang_file_loaded; [|done|].
  - cbn [fst]. by rewrite parse_written_lines.
  - change (FS.key w1 file_path) with (FS.key w' file_path).
    unfold FS.lookup in *.
    change (FS.key w1 (FS.key w' file_path)) with (FS.key w' (FS.key w' file_path)).
    rewrite key_key by by rewrite Hc'. exact Hl1.
Qed.

Lemma stable_flags_round_trip_witness :
  let w := World {[ "/proj/.clang_complete" := Reg "-Iold" 1 ]} "/elsewhere" 5 [] [] in
  let flags := ["-DFOO=1"; "-I/usr/include"; "-isystem/opt/x"] in
  let result := write_flags_to_file (demo_host "clang") flags
                  "/proj/.clang_complete" "overwrite" w in
  fst result = Ok tt
  ∧ ∃ parsed,
      fst (flags_from_clang_file (File_at "/proj/.clang_complete" (snd result)) false
             (snd result)) = Ok parsed
      ∧ parsed = flags
      ∧ ∀ f, f ∈ set_of_list parsed ↔ f ∈ flags.
Proof.
  intros w flags.
  apply (stable_flags_round_trip (demo_host "clang") flags "/proj/.clang_complete" w).
  - reflexivity.
  - vm_compute. discriminate.
  - repeat apply Forall_cons_2; [| | |apply Forall_nil_2];
      (split; [vm_compute; reflexivity|split; [vm_compute; reflexivity|]]).
    + left. reflexivity.
    + right. left. exists "/usr/include". repeat split; vm_compute; reflexivity.
    + right. right. exists "/opt/x". repeat split; vm_compute; reflexivity.
Defined.

(** * The orchestrator *)

Section ReadOnly.
Import PyStr PyStrFacts.

Lemma same_fs_refl w : same_fs w w.
Proof. done. Qed.

Lemma same_fs_sym w w' : same_fs w w' → same_fs w' w.
Proof. by intros [??]. Qed.

Lemma same_fs_trans w1 w2 w3 : same_fs w1 w2 → same_fs w2 w3 → same_fs w1 w3.
Proof. intros [??] [??]. split; congruence. Qed.

Lemma same_fs_log l m w : same_fs w (add_log l m w).
Proof. done. Qed.

Lemma key_ext w w' p : same_fs w w' → FS.key w' p = FS.key w p.
Proof. intros [_ H]. unfold FS.key. by rewrite H. Qed.

Lemma lookup_ext w w' p : same_fs w w' → FS.lookup p w' = FS.lookup p w.
Proof. intros H. unfold FS.lookup. rewrite (key_ext _ _ _ H). by destruct H as [-> _]. Qed.

Lemma exists_ext w w' p : same_fs w w' → FS.exists_ p w' = FS.exists_ p w.
Proof. intros H. unfold FS.exists_. by rewrite (lookup_ext _ _ _ H). Qed.

Lemma mtime_ext w w' p : same_fs w w' → FS.mtime p w' = FS.mtime p w.
Proof. intros H. unfold FS.mtime. by rewrite (lookup_ext _ _ _ H). Qed.

Lemma File_at_ext w w' p : same_fs w w' → File_at p w' = File_at p w.
Proof.
  intros H. unfold File_at. by rewrite (exists_ext _ _ _ H), (key_ext _ _ _ H).
Qed.

Lemma search_up_ext w w' fuel file_name current to_folder search_content :
  same_fs w w' →
  search_up fuel file_name current to_folder search_content w'
  = search_up fuel file_name current to_folder search_content w.
Proof.
  intros H. revert current. induction fuel as [|fuel IH]; intros current; [done|].
  cbn [search_up]. unfold search_match.
  rewrite (lookup_ext _ _ _ H), (File_at_ext _ _ _ H). by rewrite IH.
Qed.

Lemma File_search_ext w w' file_name from_folder to_folder search_content :
  same_fs w w' →
  File_search file_name from_folder to_folder search_content w'
  = File_search file_name from_folder to_folder search_content w.
Proof.
  intros H. unfold File_search.
  destruct from_folder, to_folder; try done. by rewrite (search_up_ext _ _ _ _ _ _ _ H).
Qed.

Lemma was_modified_ext w w' f : same_fs w w' → was_modified f w' = was_modified f w.
Proof.
  intros H. unfold was_modified. destruct (full_path f); [|done].
  by rewrite (mtime_ext _ _ _ H).
Qed.

Lemma quiet_ext self w w' : same_fs w w' → quiet self w → quiet self w'.
Proof.
  intros H (Hc & Hs & Hm). unfold quiet.
  rewrite !(File_search_ext _ _ _ _ _ _ H), !(was_modified_ext _ _ _ H). done.
Qed.

(** [was_modified] keeps the path, and answers no when asked again. *)
Lemma was_modified_path f w : full_path (was_modified f w).2 = full_path f.
Proof.
  unfold was_modified. destruct (full_path f) as [p|] eqn:Hp; [|done].
  destruct (FS.mtime p w); [|done]. by destruct (_ <? _).
Qed.

Lemma was_modified_false f w b f' : was_modified f w = (b, f') → b = false → f' = f.
Proof.
  unfold was_modified. destruct (full_path f) as [p|]; [|congruence].
  destruct (FS.mtime p w); [|congruence]. destruct (_ <? _); congruence.
Qed.

Lemma was_modified_again f w w' :
  (∀ p, full_path f = Some p → FS.mtime p w' = FS.mtime p w) →
  was_modified (was_modified f w).2 w' = (false, (was_modified f w).2).
Proof.
  intros H. unfold was_modified at 2 3.
  destruct (full_path f) as [p|] eqn:Hp.
  - destruct (FS.mtime p w) as [t|] eqn:Ht.
    + destruct (last_seen_modification f <? t) eqn:Hlt; cbn [snd].
      * unfold was_modified. cbn [full_path last_seen_modification].
        rewrite (H p) by done. by rewrite Ht, Z.ltb_irrefl.
      * unfold was_modified. rewrite Hp, (H p) by done. by rewrite Ht, Hlt.
    + cbn [snd]. unfold was_modified. rewrite Hp, (H p) by done. by rewrite Ht.
  - cbn [snd]. unfold was_modified. by rewrite Hp.
Qed.

Lemma was_modified_unloaded f w : loaded f = false → was_modified f w = (false, f).
Proof. intros H%loaded_false. unfold was_modified. by rewrite H. Qed.

Lemma loaded_was_modified f w : loaded (was_modified f w).2 = loaded f.
Proof. unfold loaded. by rewrite was_modified_path. Qed.

(** Commands that read only. *)
Lemma read_only_ret {A} (a : A) : read_only (ret a).
Proof. done. Qed.

Lemma read_only_raise {A} e : read_only (@raise A e).
Proof. done. Qed.

Lemma read_only_log l m : read_only (log l m).
Proof. done. Qed.

Lemma read_only_lift {A} (r : result A) : read_only (lift r).
Proof. done. Qed.

Lemma read_only_read p : read_only (FS.read p).
Proof. intros w. unfold FS.read. by destruct (FS.lookup p w) as [[]|]. Qed.

Lemma read_only_bind {A B} (c : Py A) (k : A → Py B) :
  read_only c → (∀ a, read_only (k a)) → read_only (bind c k).
Proof.
  intros Hc Hk w. unfold bind. specialize (Hc w).
  destruct (c w) as [[a|e] w1]; cbn [snd] in *; [|done].
  destruct (Hk a w1) as [H1 H2]. destruct Hc as [H3 H4].
  split; [by eapply same_fs_trans|congruence].
Qed.

Lemma read_only_flags_from_clang_file file separate_includes :
  read_only (flags_from_clang_file file separate_includes).
Proof.
  unfold flags_from_clang_file. destruct (loaded file); cbn [negb].
  - apply read_only_bind; [apply read_only_read|]. intros content.
    apply read_only_bind; [apply read_only_log|]. intros _. apply read_only_ret.
  - apply read_only_bind; [apply read_only_log|]. intros _. apply read_only_ret.
Qed.

Lemma read_only_flags_from_database host database_file :
  read_only (flags_from_database host database_file).
Proof.
  unfold flags_from_database. destruct (full_path database_file); [|apply read_only_raise].
  apply read_only_bind; [apply read_only_read|]. intros text.
  destruct (json_load host text); [|apply read_only_raise].
  apply read_only_bind; [apply read_only_lift|]. intros [flags|]; [|apply read_only_ret].
  apply read_only_bind; [apply read_only_log|]. intros _. apply read_only_ret.
Qed.

Lemma read_only_in_world {A} (c : world → Py A) :
  (∀ w, read_only (c w)) → read_only (λ w, c w w).
Proof. intros H w. apply H. Qed.
End ReadOnly.

Section Writes.
Import PyStr PyStrFacts.
Context (host : Host).

(** Commands that write one file at most. *)
Lemma writes_only_read_only {A} path (c : Py A) : read_only c → writes_only path c.
Proof. intros H w. destruct (H w) as [[Hf Hc] _]. split; [done|]. intros k _. by rewrite Hf. Qed.

Lemma writes_only_bind {A B} path (c : Py A) (k : A → Py B) :
  writes_only path c → (∀ a, writes_only path (k a)) → writes_only path (bind c k).
Proof.
  intros Hc Hk w. unfold bind. specialize (Hc w).
  destruct (c w) as [[a|e] w1]; cbn [snd] in *; [|done].
  destruct Hc as [Hcwd Hc]. destruct (Hk a w1) as [Hcwd' Hk'].
  split; [congruence|]. intros k' Hne.
  rewrite Hk', Hc; [done..|]. unfold FS.key in *. by rewrite Hcwd.
Qed.

Lemma writes_only_write path content : writes_only path (FS.write path content).
Proof.
  intros w. unfold FS.write. destruct (FS.lookup path w) as [[]|]; cbn; split; try done.
  all: intros k Hne; by rewrite lookup_insert_ne.
Qed.

Lemma writes_only_in_world {A} path (c : world → Py A) :
  (∀ w, writes_only path (c w)) → writes_only path (λ w, c w w).
Proof. intros H w. apply H. Qed.

Lemma writes_only_write_flags_to_file new_flags path strategy :
  writes_only path (write_flags_to_file host new_flags path strategy).
Proof.
  unfold write_flags_to_file. intros w. cbv beta.
  destruct (FS.exists_ path w); [|apply writes_only_write].
  generalize w. change (writes_only path
    (log DEBUG " path already exists" ;;; log DEBUG " picked '%s' strategy." ;;;
     if bool_decide (get_flags_strategy host strategy = Some "keep_old") then ret tt
     else if bool_decide (get_flags_strategy host strategy = Some "merge") then
       parsed <~ (λ w', flags_from_clang_file (File_at path w') false w') ;;
       write_lines (union new_flags (set_of_list parsed)) path
     else write_lines new_flags path)).
  apply writes_only_bind; [apply writes_only_read_only, read_only_log|]. intros _.
  apply writes_only_bind; [apply writes_only_read_only, read_only_log|]. intros _.
  repeat case_bool_decide.
  - apply writes_only_read_only, read_only_ret.
  - apply writes_only_bind; [|intros; apply writes_only_write].
    apply writes_only_read_only.
    apply (read_only_in_world (λ w', flags_from_clang_file (File_at path w') false)).
    intros w'. apply read_only_flags_from_clang_file.
  - apply writes_only_write.
Qed.

Lemma writes_only_update_clang_complete cmake_file strategy db :
  writes_only (PyPath.join (folder cmake_file) CLANG_COMPLETE_FILE_NAME)
    (update_clang_complete host cmake_file strategy db).
Proof.
  unfold update_clang_complete.
  apply writes_only_bind;
    [apply writes_only_read_only, read_only_flags_from_database|]. intros new_flags.
  apply writes_only_bind.
  { apply writes_only_read_only.
    apply (read_only_in_world (λ w', flags_from_clang_file (File_at _ w') false)).
    intros w'. apply read_only_flags_from_clang_file. }
  intros parsed. destruct new_flags as [new_flags|];
    [|apply writes_only_read_only, read_only_raise].
  destruct (_ <? _)%nat; [|apply writes_only_read_only, read_only_log].
  apply writes_only_bind; [apply writes_only_write_flags_to_file|]. intros _.
  apply writes_only_read_only, read_only_log.
Qed.

(** What [compile_cmake] leaves alone: every file that exists and that the
    build tool does not touch. *)
Lemma compile_cmake_keeps cmake_file w k r w' :
  is_Some (files w !! k) →
  (∀ cmd dir fs, (check_output host cmd dir fs).2 !! k = fs !! k) →
  compile_cmake host cmake_file w = (r, w') →
  cwd w' = cwd w ∧ files w' !! k = files w !! k.
Proof.
  intros Hk Htool E. unfold compile_cmake in E.
  destruct (full_path cmake_file) as [path|]; [|by injection E as <- <-].
  set (tempdir := PyPath.join _ (md5_hexdigest host path)) in E.
  set (cmd := cmake_mask _) in E.
  unfold bind at 1 in E.
  assert (Hmk : ∃ w1, (if negb (FS.exists_ tempdir w) then FS.makedirs tempdir w
                       else (Ok tt, w)) = (Ok tt, w1)
                      ∧ cwd w1 = cwd w ∧ files w1 !! k = files w !! k).
  { destruct (FS.exists_ tempdir w) eqn:He; cbn [negb]; [by eexists|].
    eexists. split; [done|]. split; [done|]. cbn.
    apply lookup_insert_ne. intros <-.
    unfold FS.exists_ in He. apply bool_decide_eq_false in He. by apply He. }
  destruct Hmk as (w1 & Hmk & Hc1 & Hf1). rewrite Hmk in E. clear Hmk.
  unfold bind at 1 in E.
  destruct (FS.lookup tempdir w1) as [[|]|]; [|by injection E as <- <-..].
  destruct (check_output host cmd (FS.key w1 tempdir) (files w1))
    as [[returncode output_text] fs] eqn:Hrun.
  assert (Hfs : fs !! k = files w !! k).
  { rewrite <- Hf1. specialize (Htool cmd (FS.key w1 tempdir) (files w1)).
    by rewrite Hrun in Htool. }
  unfold bind, log in E.
  destruct (returncode =? 0); cbn [fst snd] in E;
    destruct (negb (FS.exists_ _ _)); injection E as <- <-; done.
Qed.

(** What [compile_cmake] writes itself: at most the directory of the
    build, where nothing existed. *)
Lemma compile_cmake_writes cmake_file w r w' :
  compile_cmake host cmake_file w = (r, w') →
  ∃ new, writes w' = writes w ++ new ∧ ∀ k, k ∈ new → files w !! k = None.
Proof.
  intros E. unfold compile_cmake in E.
  destruct (full_path cmake_file) as [path|].
  2:{ injection E as <- <-. exists []. split; [by rewrite app_nil_r|].
      by intros k ?%elem_of_nil. }
  set (tempdir := PyPath.join _ (md5_hexdigest host path)) in E.
  set (cmd := cmake_mask _) in E.
  unfold bind at 1 in E.
  assert (Hmk : ∃ w1 new, (if negb (FS.exists_ tempdir w) then FS.makedirs tempdir w
                           else (Ok tt, w)) = (Ok tt, w1)
                          ∧ writes w1 = writes w ++ new
                          ∧ ∀ k, k ∈ new → files w !! k = None).
  { destruct (FS.exists_ tempdir w) eqn:He; cbn [negb].
    - exists w, []. split_and!; [done|by rewrite app_nil_r|by intros k ?%elem_of_nil].
    - eexists _, [FS.key w tempdir]. split_and!; [done..|].
      intros k ->%list_elem_of_singleton.
      unfold FS.exists_ in He. apply bool_decide_eq_false in He.
      destruct (files w !! FS.key w tempdir) eqn:Hk; [|done].
      destruct He. unfold FS.lookup. by rewrite Hk. }
  destruct Hmk as (w1 & new & Hmk & Hw1 & Hnew). rewrite Hmk in E. clear Hmk.
  exists new. split; [|done]. rewrite <- Hw1.
  unfold bind at 1 in E.
  destruct (FS.lookup tempdir w1) as [[|]|]; [|by injection E as <- <-..].
  destruct (check_output host cmd (FS.key w1 tempdir) (files w1))
    as [[returncode output_text] fs].
  unfold bind, log in E.
  destruct (returncode =? 0); cbn [fst snd] in E;
    destruct (negb (FS.exists_ _ _)); injection E as <- <-; done.
Qed.

(** Paths and their last characters. *)
Lemma endswith_app_l a p n : endswith p n = true → endswith (a +:+ p) n = true.
Proof.
  intros [x ->]%endswith_split. rewrite <- sapp_assoc. apply endswith_app.
Qed.

Lemma endswith_join a b n : endswith b n = true → endswith (PyPath.join a b) n = true.
Proof.
  intros H. unfold PyPath.join. destruct (startswith b "/"); [done|].
  destruct (_ || _); repeat apply endswith_app_l; done.
Qed.

Lemma endswith_key w p n : endswith p n = true → endswith (FS.key w p) n = true.
Proof.
  intros H. unfold FS.key. destruct (PyPath.isabs p); [done|]. by apply endswith_join.
Qed.

Lemma endswith_last_char s n :
  endswith s n = true → n ≠ "" → last_char s = last_char n.
Proof. intros [x ->]%endswith_split ?. by apply last_char_app. Qed.

Lemma key_of_clang_complete_ne w c folder :
  endswith c CMAKE_FILE_NAME = true →
  FS.key w c ≠ FS.key w (PyPath.join folder CLANG_COMPLETE_FILE_NAME).
Proof.
  intros Hc Heq.
  assert (H1 : last_char (FS.key w c) = Some "t"%char).
  { rewrite (endswith_last_char _ CMAKE_FILE_NAME); [done| |done].
    by apply endswith_key. }
  assert (H2 : last_char (FS.key w (PyPath.join folder CLANG_COMPLETE_FILE_NAME))
               = Some "e"%char).
  { rewrite (endswith_last_char _ CLANG_COMPLETE_FILE_NAME); [done| |done].
    apply endswith_key, endswith_join, endswith_refl. }
  rewrite Heq in H1. congruence.
Qed.

Lemma File_at_path p w c : full_path (File_at p w) = Some c → c = FS.key w p.
Proof. unfold File_at. destruct (FS.exists_ p w); cbn; congruence. Qed.

Lemma search_up_named fuel file_name current to_folder search_content w c :
  full_path (search_up fuel file_name current to_folder search_content w) = Some c →
  endswith c file_name = true.
Proof.
  revert current. induction fuel as [|fuel IH]; intros current; [done|].
  cbn [search_up]. destruct (search_match _ _ _).
  - intros ->%File_at_path. apply endswith_key, endswith_join, endswith_refl.
  - destruct (String.eqb current to_folder); [done|].
    destruct (String.eqb _ current); [done|]. apply IH.
Qed.

Lemma File_search_named file_name from_folder to_folder search_content w c :
  full_path (File_search file_name from_folder to_folder search_content w) = Some c →
  endswith c file_name = true.
Proof.
  unfold File_search. destruct from_folder, to_folder; try done.
  destruct (_ && _); [|done]. apply search_up_named.
Qed.

(** The manager, field by field. *)
Lemma set_cmake_file_id self : set_cmake_file (_cmake_file self) self = self.
Proof. by destruct self. Qed.

Lemma set_clang_complete_file_id self :
  set_clang_complete_file (_clang_complete_file self) self = self.
Proof. by destruct self. Qed.

(** [regenerate] leaves the build-description file as it is. *)
Lemma regenerate_keeps cmake_file strategy w r w' c :
  full_path cmake_file = Some c →
  endswith c CMAKE_FILE_NAME = true →
  is_Some (FS.lookup c w) →
  respects_build_files host →
  regenerate host cmake_file strategy w = (r, w') →
  cwd w' = cwd w ∧ FS.lookup c w' = FS.lookup c w.
Proof.
  intros Hc Hn Hex Htool E. unfold regenerate in E.
  unfold bind at 1, log in E.
  set (w0 := add_log _ _ w) in E.
  unfold bind in E.
  destruct (compile_cmake host cmake_file w0) as [[db|e] w1] eqn:Ec.
  2:{ injection E as <- <-.
      destruct (compile_cmake_keeps cmake_file w0 (FS.key w c) _ _ Hex
                  (λ cmd dir fs, Htool cmd dir fs _ (endswith_key w _ _ Hn)) Ec)
        as [H1 H2].
      change (cwd w0) with (cwd w) in H1. change (files w0) with (files w) in H2.
      split; [done|]. unfold FS.lookup, FS.key. rewrite H1. exact H2. }
  destruct (compile_cmake_keeps cmake_file w0 (FS.key w c) _ _ Hex
              (λ cmd dir fs, Htool cmd dir fs _ (endswith_key w _ _ Hn)) Ec)
    as [H1 H2].
  change (cwd w0) with (cwd w) in H1. change (files w0) with (files w) in H2.
  assert (Hk : ∀ w2, cwd w2 = cwd w → FS.key w2 c = FS.key w c).
  { intros w2 H. unfold FS.key. by rewrite H. }
  destruct db as [db|].
  - destruct (writes_only_update_clang_complete cmake_file strategy db w1) as [H3 H4].
    rewrite E in H3, H4. cbn [snd] in H3, H4.
    split; [congruence|]. unfold FS.lookup.
    rewrite (Hk w') by congruence.
    rewrite H4; [exact H2|].
    rewrite <- (Hk w1) by done. by apply key_of_clang_complete_ne.
  - injection E as <- <-. split; [done|].
    unfold FS.lookup. change (FS.key (add_log _ _ w1) c) with (FS.key w1 c).
    rewrite (Hk w1) by done. exact H2.
Qed.
End Writes.

Section Idempotence.
Import PyStr PyStrFacts.
Context (host : Host).

Lemma mtime_is_Some p w t : FS.mtime p w = Some t → is_Some (FS.lookup p w).
Proof. unfold FS.mtime. destruct (FS.lookup p w) as [[]|]; [done| |done]. by eexists. Qed.

Lemma mtime_of_lookup p w w' : FS.lookup p w' = FS.lookup p w → FS.mtime p w' = FS.mtime p w.
Proof. unfold FS.mtime. by intros ->. Qed.

(** After [refresh_from_cmake] the build description is not modified any
    more; an unbound one means that nothing was done. *)
Lemma refresh_from_cmake_settles self w r self' w' :
  cmake_file_named self →
  respects_build_files host →
  refresh_from_cmake host self w = (r, self', w') →
  cwd w' = cwd w
  ∧ self' = set_cmake_file (_cmake_file self') self
  ∧ full_path (_cmake_file self') = full_path (_cmake_file self)
  ∧ (_use_cmake self = true → ∀ w'', same_fs w' w'' →
       was_modified (_cmake_file self') w'' = (false, _cmake_file self'))
  ∧ (loaded (_cmake_file self) = false → w' = w ∧ self' = self).
Proof.
  intros Hnamed Htool E. unfold refresh_from_cmake in E.
  destruct (_use_cmake self) eqn:Huse.
  2:{ injection E as <- <- <-. split_and!; try done.
      by rewrite set_cmake_file_id. }
  destruct (was_modified (_cmake_file self) w) as [modified f] eqn:Hm.
  assert (Hf : f = (was_modified (_cmake_file self) w).2) by by rewrite Hm.
  assert (Hpath : full_path f = full_path (_cmake_file self)).
  { rewrite Hf. apply was_modified_path. }
  destruct modified.
  - cbn [_cmake_file set_cmake_file _flags_update_strategy] in E.
    destruct (regenerate host f (_flags_update_strategy self) w) as [r0 w0] eqn:Er.
    injection E as <- <- <-. cbn [_cmake_file set_cmake_file].
    assert (Hc : ∃ c t, full_path (_cmake_file self) = Some c ∧ FS.mtime c w = Some t).
    { unfold was_modified in Hm. destruct (full_path (_cmake_file self)) as [c|]; [|done].
      destruct (FS.mtime c w) as [t|] eqn:Ht; [|done]. by exists c, t. }
    destruct Hc as (c & t & Hc & Ht).
    assert (Hfc : full_path f = Some c) by congruence.
    destruct (regenerate_keeps host f _ w _ _ c Hfc (Hnamed c Hc)
                (mtime_is_Some _ _ _ Ht) Htool Er) as [Hcwd Hl].
    split_and!; [done..| |].
    + intros _ w'' Hs. rewrite Hf.
      apply was_modified_again. intros p Hp.
      rewrite (mtime_ext _ _ _ Hs). apply mtime_of_lookup. congruence.
    + intros Hl'%loaded_false. congruence.
  - injection E as <- <- <-. cbn [_cmake_file set_cmake_file].
    assert (f = _cmake_file self) as -> by by eapply was_modified_false.
    split_and!; [done..| |].
    + intros _ w'' Hs. by rewrite (was_modified_ext _ _ _ Hs).
    + intros _. by rewrite set_cmake_file_id.
Qed.

Lemma locate_cmake_file_spec self w self' w' :
  locate_cmake_file self w = (self', w') →
  same_fs w w' ∧ writes w' = writes w
  ∧ self' = set_cmake_file (_cmake_file self') self
  ∧ (cmake_file_named self → cmake_file_named self')
  ∧ (if _use_cmake self && negb (loaded (_cmake_file self))
     then _cmake_file self' =
          File_search CMAKE_FILE_NAME (from_folder (_search_scope self))
            (to_folder (_search_scope self)) (Some "project") w'
     else self' = self).
Proof.
  unfold locate_cmake_file. destruct (_ && _).
  - intros [= <- <-]. split_and!; try done.
    intros _ c Hc. cbn in Hc. by eapply File_search_named.
  - intros [= <- <-]. split_and!; try done. by rewrite set_cmake_file_id.
Qed.

Lemma locate_clang_complete_file_spec self w self' w' :
  locate_clang_complete_file self w = (self', w') →
  same_fs w w' ∧ writes w' = writes w
  ∧ self' = set_clang_complete_file (_clang_complete_file self') self
  ∧ (if negb (loaded (_clang_complete_file self))
     then _clang_complete_file self' =
          File_search CLANG_COMPLETE_FILE_NAME (from_folder (_search_scope self))
            (to_folder (_search_scope self)) None w'
     else self' = self).
Proof.
  unfold locate_clang_complete_file. destruct (negb _).
  - intros [= <- <-]. by split_and!.
  - intros [= <- <-]. split_and!; try done. by rewrite set_clang_complete_file_id.
Qed.

Lemma reload_flags_spec self separate_includes w r self' w' :
  reload_flags self separate_includes w = (r, self', w') →
  same_fs w w' ∧ writes w' = writes w
  ∧ _clang_complete_file self' = (was_modified (_clang_complete_file self) w).2
  ∧ _cmake_file self' = _cmake_file self
  ∧ _search_scope self' = _search_scope self
  ∧ _use_cmake self' = _use_cmake self
  ∧ ∀ flags, r = Ok flags → _flags self' = flags.
Proof.
  unfold reload_flags.
  destruct (was_modified (_clang_complete_file self) w) as [modified f] eqn:Hm.
  cbn [snd]. destruct modified.
  - cbn [_clang_complete_file set_clang_complete_file].
    pose proof (read_only_bind _ _ (read_only_log DEBUG
                  " .clang_complete modified. Load new flags.")
                  (λ _, read_only_flags_from_clang_file f separate_includes) w) as Hro.
    destruct ((log DEBUG " .clang_complete modified. Load new flags.";;;
               flags_from_clang_file f separate_includes) w) as [[flags|e] w1].
    + intros [= <- <- <-]. destruct Hro. split_and!; try done. by intros ? [= <-].
    + intros [= <- <- <-]. destruct Hro. split_and!; try done.
  - intros [= <- <- <-]. split_and!; try done. by intros ? [= <-].
Qed.

(** A call of [get_flags] that returns leaves a manager with nothing to
    do, holding the flags that were returned. *)
Lemma get_flags_quiet self separate_includes w flags self1 w1 :
  cmake_file_named self →
  respects_build_files host →
  get_flags host self separate_includes w = (Ok flags, self1, w1) →
  quiet self1 w1 ∧ _flags self1 = flags.
Proof.
  intros Hnamed Htool E. unfold get_flags in E.
  destruct (locate_cmake_file self w) as [sa wa] eqn:Ea.
  destruct (refresh_from_cmake host sa wa) as [[r sb] wb] eqn:Eb.
  destruct r as [[]|e]; [|done].
  destruct (locate_clang_complete_file sb wb) as [sc wc] eqn:Ec.
  apply locate_cmake_file_spec in Ea as (Hwa & _ & Hsa & Hna & Hfa).
  apply refresh_from_cmake_settles in Eb as (Hcb & Hsb & Hpb & Hmb & Hub);
    [|by apply Hna|done].
  apply locate_clang_complete_file_spec in Ec as (Hwc & _ & Hsc & Hfc).
  apply reload_flags_spec in E as (Hw1 & _ & Hf1 & Hc1 & Hs1 & Hu1 & Hfl).
  assert (Hcc : _cmake_file sc = _cmake_file sb) by (rewrite Hsc; by destruct sb).
  assert (Huse : _use_cmake self1 = _use_cmake self).
  { rewrite Hu1, Hsc, Hsb, Hsa. done. }
  assert (Hscope : _search_scope self1 = _search_scope self).
  { rewrite Hs1, Hsc, Hsb, Hsa. done. }
  assert (Hscope_b : _search_scope sb = _search_scope self).
  { rewrite Hsb, Hsa. done. }
  split; [|by apply Hfl].
  unfold quiet. rewrite Hc1, Hcc, Huse, Hscope. split_and!.
  - intros Hu. split.
    + intros Hl.
      assert (Hla : loaded (_cmake_file sa) = false).
      { unfold loaded in *. by rewrite <- Hpb. }
      destruct (Hub Hla) as [-> ->].
      rewrite Hu in Hfa. destruct (loaded (_cmake_file self)) eqn:Hls; cbn in Hfa.
      * subst sa. congruence.
      * rewrite Hfa. apply File_search_ext.
        eapply same_fs_trans; [exact Hwc|exact Hw1].
    + apply Hmb; [by rewrite Hsa|].
      eapply same_fs_trans; [exact Hwc|exact Hw1].
  - intros Hl. rewrite Hf1 in Hl. rewrite loaded_was_modified in Hl.
    rewrite Hf1, was_modified_unloaded by done. cbn [snd].
    destruct (loaded (_clang_complete_file sb)) eqn:Hlb; cbn in Hfc.
    + subst sc. congruence.
    + rewrite Hfc, Hscope_b. by apply File_search_ext.
  - rewrite Hf1. apply was_modified_again. intros p _. by apply mtime_ext.
Qed.

(** A manager with nothing to do returns the flags it holds, and writes
    nothing. *)
Lemma quiet_get_flags self separate_includes w :
  quiet self w →
  ∃ w', get_flags host self separate_includes w = (Ok (_flags self), self, w')
        ∧ same_fs w w' ∧ writes w' = writes w.
Proof.
  intros Hq. unfold get_flags.
  assert (Ha : ∃ wa, locate_cmake_file self w = (self, wa)
                     ∧ same_fs w wa ∧ writes wa = writes w).
  { unfold locate_cmake_file.
    destruct (_use_cmake self) eqn:Hu; cbn [andb]; [|by exists w].
    destruct (loaded (_cmake_file self)) eqn:Hl; cbn [andb negb]; [by exists w|].
    destruct Hq as [Hq _]. destruct (Hq Hu) as [Hs _]. specialize (Hs Hl).
    eexists. split.
    { rewrite (File_search_ext w) by done. by rewrite Hs, set_cmake_file_id. }
    done. }
  destruct Ha as (wa & -> & Hwa & Hwr).
  apply (quiet_ext _ _ _ Hwa) in Hq. destruct Hq as (Hqc & Hqs & Hqm).
  assert (refresh_from_cmake host self wa = (Ok tt, self, wa)) as ->.
  { unfold refresh_from_cmake. destruct (_use_cmake self); [|done].
    destruct (Hqc eq_refl) as [_ ->]. by rewrite set_cmake_file_id. }
  assert (Hc : ∃ wc, locate_clang_complete_file self wa = (self, wc)
                     ∧ same_fs wa wc ∧ writes wc = writes wa).
  { unfold locate_clang_complete_file.
    destruct (loaded (_clang_complete_file self)) eqn:Hl; cbn [negb]; [by exists wa|].
    eexists. split.
    { rewrite (File_search_ext wa) by done.
      by rewrite (Hqs eq_refl), set_clang_complete_file_id. }
    done. }
  destruct Hc as (wc & -> & Hwc & Hwr').
  exists wc. unfold reload_flags.
  rewrite (was_modified_ext _ _ _ Hwc), Hqm, set_clang_complete_file_id.
  split_and!; [done|by eapply same_fs_trans|congruence].
Qed.

(** [get_flags] binds no build description but a [CMakeLists.txt]. *)
Lemma refresh_from_cmake_path self w r self' w' :
  refresh_from_cmake host self w = (r, self', w') →
  full_path (_cmake_file self') = full_path (_cmake_file self).
Proof.
  unfold refresh_from_cmake. destruct (_use_cmake self); [|by intros [= <- <- <-]].
  pose proof (was_modified_path (_cmake_file self) w) as Hp.
  destruct (was_modified (_cmake_file self) w) as [[] f].
  - destruct (regenerate _ _ _ _) as [r0 w0]. by intros [= <- <- <-].
  - by intros [= <- <- <-].
Qed.

Lemma get_flags_keeps_name self separate_includes w r self1 w1 :
  cmake_file_named self →
  get_flags host self separate_includes w = (r, self1, w1) →
  cmake_file_named self1.
Proof.
  intros Hnamed E. unfold get_flags in E.
  destruct (locate_cmake_file self w) as [sa wa] eqn:Ea.
  destruct (refresh_from_cmake host sa wa) as [[r0 sb] wb] eqn:Eb.
  apply locate_cmake_file_spec in Ea as (_ & _ & _ & Hna & _).
  apply refresh_from_cmake_path in Eb.
  assert (Hb : cmake_file_named sb).
  { intros c Hc. apply Hna; [done|]. by rewrite <- Eb. }
  destruct r0 as [[]|e].
  - destruct (locate_clang_complete_file sb wb) as [sc wc] eqn:Ec.
    apply locate_clang_complete_file_spec in Ec as (_ & _ & Hsc & _).
    apply reload_flags_spec in E as (_ & _ & _ & Hc1 & _).
    intros c Hc. apply Hb. rewrite Hc1, Hsc in Hc. by destruct sb.
  - by injection E as <- <- <-.
Qed.

Lemma any_file_modified_keeps_name self w b self' :
  cmake_file_named self →
  any_file_modified self w = (b, self') →
  cmake_file_named self'.
Proof.
  intros Hnamed. unfold any_file_modified.
  pose proof (was_modified_path (_cmake_file self) w) as Hp.
  destruct (was_modified (_cmake_file self) w) as [m1 f1]. cbn [snd] in Hp.
  destruct m1.
  - intros [= <- <-] c Hc. apply Hnamed. by rewrite <- Hp.
  - cbn [_clang_complete_file set_cmake_file].
    destruct (was_modified (_clang_complete_file self) w) as [[] f2];
      intros [= <- <-] c Hc; apply Hnamed; by rewrite <- Hp.
Qed.

Lemma reachable_named self : reachable host self → cmake_file_named self.
Proof.
  induction 1 as [use_cmake strategy scope w self w' E
                 |self sep w r self' w' _ IH E
                 |self w b self' _ IH E].
  - unfold __init__, bind, log in E.
    destruct (negb (valid scope)); injection E as <- <-; by intros c Hc.
  - by eapply get_flags_keeps_name.
  - by eapply any_file_modified_keeps_name.
Qed.
End Idempotence.

(** C1.  For every manager a program can hold (made by the constructor
    and used through its methods), for a build tool that leaves the files
    named [CMakeLists.txt] as they are, and for both values of
    [separate_includes] in either call: when a call of [get_flags] has
    returned, a second call in the world the first one left returns the
    same list of flags and leaves the manager as it is; it writes nothing,
    and the file system after it is the file system before it. *)
Theorem get_flags_twice
    (host : Host) (self : FlagsManager) (separate_includes again : bool) (w : world)
    (flags : list string) (self1 : FlagsManager) (w1 : world) :
  reachable host self →
  respects_build_files host →
  get_flags host self separate_includes w = (Ok flags, self1, w1) →
  ∃ w2, get_flags host self1 again w1 = (Ok flags, self1, w2)
        ∧ files w2 = files w1
        ∧ writes w2 = writes w1.
Proof.
  intros Hnamed%reachable_named Htool E.
  destruct (get_flags_quiet host _ _ _ _ _ _ Hnamed Htool E) as [Hq <-].
  destruct (quiet_get_flags host self1 again w1 Hq) as (w2 & E2 & [Hf _] & Hw).
  by exists w2.
Qed.

Lemma host_with_respects_build_files text data :
  respects_build_files (host_with text data).
Proof.
  intros cmd dir fs p Hp. cbn [host_with check_output snd].
  apply lookup_insert_ne. intros Heq.
  assert (H1 : last_char p = Some "t"%char).
  { by rewrite (endswith_last_char _ _ Hp). }
  assert (H2 : last_char (PyPath.join dir CMAKE_DB_FILE_NAME) = Some "n"%char).
  { rewrite (endswith_last_char _ CMAKE_DB_FILE_NAME); [done| |done].
    apply endswith_join, PyStrFacts.endswith_refl. }
  rewrite Heq in H2. congruence.
Qed.

Lemma get_flags_twice_witness :
  let host := demo_host demo_command in
  let first := get_flags host demo_manager true demo_world in
  ∃ w2, get_flags host first.1.2 false first.2
        = (Ok ["-I " +:+ quote +:+ "/usr/include" +:+ quote; "-DFOO=1"], first.1.2, w2)
        ∧ files w2 = files first.2
        ∧ writes w2 = writes first.2.
Proof.
  intros host first.
  apply (get_flags_twice host demo_manager true false demo_world).
  - apply (reachable_init host true "overwrite"
             (mkSearchScope (Some "/proj/src") (Some "/proj")) demo_world
             demo_manager demo_world).
    reflexivity.
  - apply host_with_respects_build_files.
  - vm_compute. reflexivity.
Defined.

(** C2.  When [get_flags] has derived a set of flags from the compilation
    database, and the symmetric difference of that set and the set of the
    flags parsed, without separation of the includes, from the flag-list
    file on disk is empty, then the file is not written.  From the moment
    the database exists to the end of the call the file system stays as it
    is, so the flag-list file keeps its content and its modification time;
    and all that the call has written itself are paths where nothing
    existed when it began (the directory of the build), never a file that
    was there. *)
Theorem unchanged_flags_are_not_written
    (host : Host) (self : FlagsManager) (separate_includes : bool) (w : world)
    (self_a : FlagsManager) (w_a : world) (cmake_file db : File)
    (w_db w_flags w_parsed : world) (new_flags parsed : list string) :
  locate_cmake_file self w = (self_a, w_a) →
  _use_cmake self_a = true →
  was_modified (_cmake_file self_a) w_a = (true, cmake_file) →
  compile_cmake host cmake_file
    (add_log DEBUG " CMakeLists.txt was modified. Generate new .clang_complete" w_a)
    = (Ok (Some db), w_db) →
  flags_from_database host db w_db = (Ok (Some new_flags), w_flags) →
  flags_from_clang_file
    (File_at (PyPath.join (folder cmake_file) CLANG_COMPLETE_FILE_NAME) w_flags)
    false w_flags = (Ok parsed, w_parsed) →
  symmetric_difference new_flags (set_of_list parsed) = [] →
  let w' := (get_flags host self separate_includes w).2 in
  files w' = files w_db
  ∧ writes w' = writes w_db
  ∧ FS.lookup (PyPath.join (folder cmake_file) CLANG_COMPLETE_FILE_NAME) w'
    = FS.lookup (PyPath.join (folder cmake_file) CLANG_COMPLETE_FILE_NAME) w_db
  ∧ ∃ new, writes w' = writes w ++ new ∧ ∀ k, k ∈ new → files w !! k = None.
Proof.
  intros Ea Huse Hm Hc Hdb Hparse Hsym w'. subst w'.
  destruct (read_only_flags_from_database host db w_db) as [[Hf1 Hc1] Hw1].
  rewrite Hdb in Hf1, Hc1, Hw1. cbn [snd] in Hf1, Hc1, Hw1.
  destruct (read_only_flags_from_clang_file
              (File_at (PyPath.join (folder cmake_file) CLANG_COMPLETE_FILE_NAME) w_flags)
              false w_flags) as [[Hf2 Hc2] Hw2].
  rewrite Hparse in Hf2, Hc2, Hw2. cbn [snd] in Hf2, Hc2, Hw2.
  destruct (compile_cmake_writes _ _ _ _ _ Hc) as (new & Hnew & Hfresh).
  cbn [writes files add_log] in Hnew, Hfresh.
  pose proof (locate_cmake_file_spec _ _ _ _ Ea) as ([Hfa _] & Hwa & _).
  unfold get_flags. rewrite Ea. unfold refresh_from_cmake. rewrite Huse, Hm.
  cbn [_cmake_file set_cmake_file _flags_update_strategy].
  unfold regenerate, bind, log. rewrite Hc.
  unfold update_clang_complete, bind. rewrite Hdb, Hparse, Hsym. cbn [length Nat.ltb Nat.leb].
  unfold log.
  set (w_b := add_log _ _ w_parsed).
  destruct (locate_clang_complete_file _ w_b) as [self_c w_c] eqn:Ec.
  apply locate_clang_complete_file_spec in Ec as ([Hf3 Hc3] & Hw3 & _).
  destruct (reload_flags self_c separate_includes w_c) as [[r self'] w'] eqn:Er.
  apply reload_flags_spec in Er as ([Hf4 Hc4] & Hw4 & _).
  cbn [snd].
  assert (Hfiles : files w' = files w_db).
  { rewrite Hf4, Hf3. subst w_b. cbn [files add_log]. congruence. }
  assert (Hcwd : cwd w' = cwd w_db).
  { rewrite Hc4, Hc3. subst w_b. cbn [cwd add_log]. congruence. }
  assert (Hwrites : writes w' = writes w_db).
  { rewrite Hw4, Hw3. subst w_b. cbn [writes add_log]. congruence. }
  split_and!; [done..| |].
  - unfold FS.lookup, FS.key. by rewrite Hfiles, Hcwd.
  - exists new. rewrite Hwrites, Hnew, Hwa. split; [done|].
    intros k Hk. rewrite <- Hfa. by apply Hfresh.
Qed.

Lemma unchanged_flags_are_not_written_witness :
  let host := demo_host demo_command in
  let w' := (get_flags host demo_manager false demo_world_in_sync).2 in
  FS.lookup "/proj/.clang_complete" w'
    = Some (Reg ("-DFOO=1" +:+ nl +:+ "-I/usr/include" +:+ nl) 2)
  ∧ "/proj/.clang_complete" ∉ writes w'.
Proof.
  intros host w'.
  pose proof (unchanged_flags_are_not_written host demo_manager false demo_world_in_sync)
    as H.
  edestruct H as (Hfiles & Hwrites & Hlookup & _).
  - vm_compute. reflexivity.
  - vm_compute. reflexivity.
  - vm_compute. reflexivity.
  - vm_compute. reflexivity.
  - vm_compute. reflexivity.
  - vm_compute. reflexivity.
  - vm_compute. reflexivity.
  - subst w'. split.
    + etransitivity; [exact Hlookup|]. vm_compute. reflexivity.
    + rewrite Hwrites. vm_compute. intros Hin.
      apply list_elem_of_singleton in Hin. discriminate Hin.
Defined.

Lemma File_search_invalid scope file_name search_content w :
  valid scope = false →
  File_search file_name (from_folder scope) (to_folder scope) search_content w
  = File_empty.
Proof.
  unfold valid, File_search. destruct (from_folder scope), (to_folder scope); try done.
  by destruct (_ && _).
Qed.

(** C10.  A [FlagsManager] made with a search scope that is not valid, one
    bound or both not set: the constructor raises nothing, logs one error,
    and stores the scope and the other two settings as given.  A call of
    [get_flags] on that manager returns, with the flags the manager holds
    (none), and changes neither the manager nor the file system: both of
    its searches find nothing. *)
Theorem invalid_scope_is_only_logged
    (host : Host) (use_cmake : bool) (flags_update_strategy : string)
    (search_scope : SearchScope) (separate_includes : bool) (w w0 : world) :
  valid search_scope = false →
  let self := mkFlagsManager File_empty File_empty [] search_scope use_cmake
                flags_update_strategy in
  __init__ use_cmake flags_update_strategy search_scope w
    = (Ok self, add_log ERROR " search scope is wrong." w)
  ∧ File_search CMAKE_FILE_NAME (from_folder search_scope) (to_folder search_scope)
      (Some "project") w0 = File_empty
  ∧ File_search CLANG_COMPLETE_FILE_NAME (from_folder search_scope)
      (to_folder search_scope) None w0 = File_empty
  ∧ ∃ w', get_flags host self separate_includes w0 = (Ok [], self, w')
          ∧ files w' = files w0
          ∧ writes w' = writes w0.
Proof.
  intros Hv self. split_and!.
  - unfold __init__, bind, log. by rewrite Hv.
  - by apply File_search_invalid.
  - by apply File_search_invalid.
  - assert (Hq : quiet self w0).
    { unfold quiet. cbn [self _cmake_file _clang_complete_file _search_scope _use_cmake].
      rewrite !File_search_invalid by done. done. }
    destruct (quiet_get_flags host self separate_includes w0 Hq) as (w' & E & [Hf _] & Hw).
    by exists w'.
Qed.

Lemma invalid_scope_is_only_logged_witness :
  let self := mkFlagsManager File_empty File_empty [] (mkSearchScope (Some "/proj/src") None)
                true "ask" in
  __init__ true "ask" (mkSearchScope (Some "/proj/src") None) demo_world
    = (Ok self, add_log ERROR " search scope is wrong." demo_world)
  ∧ ∃ w', get_flags (demo_host demo_command) self true demo_world = (Ok [], self, w')
          ∧ files w' = files demo_world
          ∧ writes w' = writes demo_world.
Proof.
  intros self.
  destruct (invalid_scope_is_only_logged (demo_host demo_command) true "ask"
              (mkSearchScope (Some "/proj/src") None) true demo_world demo_world)
    as (H1 & _ & _ & H2).
  - reflexivity.
  - split; [exact H1|exact H2].
Defined.

(** * More about the code: the strategies *)

(** X1.  Over a file that exists, the strategy [ask] is the strategy the
    user picks in the dialog: [merge] for yes, [overwrite] for no,
    [keep_old] for cancel.  Any other answer of the dialog, and any
    strategy that is none of [ask], [keep_old] and [merge], overwrites the
    file. *)
Theorem ask_is_the_answer_of_the_dialog
    (host : Host) (new_flags : list string) (file_path : string) (w : world) (n : node) :
  FS.lookup file_path w = Some n →
  let answer :=
    yes_no_cancel_dialog host ".clang_complete file exists. What do you want to do?"
      "Merge!" "Overwrite!" in
  let run strategy := write_flags_to_file host new_flags file_path strategy w in
  (answer = DIALOG_YES → run "ask" = run "merge")
  ∧ (answer = DIALOG_NO → run "ask" = run "overwrite")
  ∧ (answer = DIALOG_CANCEL → run "ask" = run "keep_old")
  ∧ (answer ≠ DIALOG_YES → answer ≠ DIALOG_NO → answer ≠ DIALOG_CANCEL →
     run "ask" = run "overwrite")
  ∧ (∀ strategy, strategy ≠ "ask" → strategy ≠ "keep_old" → strategy ≠ "merge" →
     run strategy = run "overwrite").
Proof.
  intros Hl answer run. subst run. cbv beta.
  rewrite !(write_flags_existing _ _ _ _ _ _ Hl). cbv zeta.
  rewrite !(get_flags_strategy_fixed host "merge"),
          !(get_flags_strategy_fixed host "overwrite"),
          !(get_flags_strategy_fixed host "keep_old") by done.
  assert (Hask : get_flags_strategy host "ask" =
                 if answer =? DIALOG_YES then Some "merge"
                 else if answer =? DIALOG_NO then Some "overwrite"
                 else if answer =? DIALOG_CANCEL then Some "keep_old"
                 else None) by done.
  rewrite Hask. clearbody answer. split_and!.
  - intros ->. done.
  - intros ->. done.
  - intros ->. done.
  - intros H1 H2 H3.
    apply Z.eqb_neq in H1, H2, H3. rewrite H1, H2, H3. done.
  - intros strategy H1 H2 H3. rewrite (write_flags_existing _ _ _ _ _ _ Hl). cbv zeta.
    rewrite get_flags_strategy_fixed by done.
    rewrite !bool_decide_false by congruence. done.
Qed.

Lemma ask_is_the_answer_of_the_dialog_witness :
  let w := World {[ "/proj/.clang_complete" := Reg ("-DOLD" +:+ nl) 1 ]}
             "/elsewhere" 5 [] [] in
  write_flags_to_file (demo_host "clang") ["-DNEW"] "/proj/.clang_complete" "ask" w
  = write_flags_to_file (demo_host "clang") ["-DNEW"] "/proj/.clang_complete"
      "overwrite" w.
Proof.
  intros w.
  destruct (ask_is_the_answer_of_the_dialog (demo_host "clang") ["-DNEW"]
              "/proj/.clang_complete" w (Reg ("-DOLD" +:+ nl) 1)) as (_ & H & _).
  - vm_compute. reflexivity.
  - apply H. reflexivity.
Defined.

(** * More about the code: the compilation database *)

Section DatabaseShapes.
Import PyStr PyStrFacts.

Lemma scan_command_inv parts flags_set s :
  scan_parts parts 0 parts flags_set = Ok s → dangling parts = false.
Proof.
  intros H. destruct (dangling parts) eqn:Hd; [|done].
  by rewrite (scan_command_raise _ _ Hd) in H.
Qed.

Lemma scan_entries_inv entries flags_set s :
  scan_entries entries flags_set = Ok s →
  ∃ commands, records entries commands ∧ existsb dangling_isystem commands = false.
Proof.
  revert flags_set. induction entries as [|entry entries IH]; intros flags_set H.
  { exists []. split; [constructor|done]. }
  cbn [scan_entries] in H.
  destruct (subscript_command entry) as [command|] eqn:Hc; [|done].
  destruct command as [| | |c| |]; try done. cbn [split_command] in H.
  destruct (scan_parts (split c) 0 (split c) flags_set) as [acc|] eqn:Hs; [|done].
  destruct (IH _ H) as (commands & Hrec & Hd).
  exists (c :: commands). split; [by constructor|].
  cbn [existsb]. unfold dangling_isystem at 1.
  by rewrite (scan_command_inv _ _ _ Hs), Hd.
Qed.

Lemma scan_entries_first_bad good commands bad rest flags_set e :
  records good commands →
  existsb dangling_isystem commands = false →
  (subscript_command bad = Raise e
   ∨ ∃ v, subscript_command bad = Ok v ∧ split_command v = Raise e) →
  scan_entries (good ++ bad :: rest) flags_set = Raise e.
Proof.
  intros Hrec Hd Hbad.
  destruct (scan_entries_ok good commands flags_set Hrec Hd) as (s & Hs & _).
  revert flags_set s Hs Hd.
  induction Hrec as [|entry command good commands He _ IH]; intros flags_set s Hs Hd.
  - cbn [app scan_entries]. destruct Hbad as [->|(v & -> & ->)]; done.
  - cbn [app scan_entries] in *. rewrite He in *. cbn [split_command] in *.
    destruct (scan_parts _ 0 _ flags_set) as [acc|]; [|done].
    cbn [existsb] in Hd. apply orb_false_iff in Hd as [_ Hd]. by eapply IH.
Qed.

Lemma database_shape_inv data flags_set :
  flags_from_data data = Ok (Some flags_set) →
  ∃ entries commands,
    data = JArr entries ∧ entries ≠ [] ∧ records entries commands
    ∧ existsb dangling_isystem commands = false.
Proof.
  unfold flags_from_data. intros H. destruct (falsy data) eqn:Hf; [done|].
  destruct data as [|b|n|s|entries|members]; cbn [iterate] in H; try done.
  - destruct s as [|c s]; [done|]. done.
  - destruct (scan_entries entries []) as [s|] eqn:Hs; [|done].
    destruct (scan_entries_inv _ _ _ Hs) as (commands & Hrec & Hd).
    exists entries, commands. split_and!; [done| |done..].
    intros ->. done.
  - destruct members as [|[k v] members]; [done|]. done.
Qed.

Lemma no_space_single_line t : no_space t = true → single_line t = true.
Proof.
  induction t as [|c t IH]; [done|]. cbn [no_space single_line].
  intros [Hc Ht]%andb_true_iff. rewrite IH by done.
  destruct (Ascii.eqb_spec c "010"%char) as [->|]; [done|].
  destruct (Ascii.eqb_spec c "013"%char) as [->|]; done.
Qed.

Lemma single_line_app s t :
  single_line s = true → single_line t = true → single_line (s +:+ t) = true.
Proof.
  induction s as [|c s IH]; [done|]. rewrite sapp_cons. cbn [single_line].
  intros [Hc Hs]%andb_true_iff Ht. by rewrite Hc, IH.
Qed.

Lemma startswith_app_l s t p : startswith s p = true → startswith (s +:+ t) p = true.
Proof.
  intros [r ->]%startswith_split. rewrite sapp_assoc. apply startswith_app.
Qed.

Lemma spec_flags_well_formed parts f :
  Forall is_token parts → f ∈ spec_flags parts → well_formed_flag f.
Proof.
  induction 1 as [|part rest Hpart Hrest IH]; [by intros ?%elem_of_nil|].
  cbn [spec_flags].
  destruct (startswith part "-I" || startswith part "-D") eqn:E1.
  - intros [->|?]%elem_of_cons; [|by apply IH].
    destruct Hpart as [? Hns]. split_and!.
    + apply orb_true_iff in E1 as [?|?]; auto.
    + by apply no_space_single_line.
    + by apply token_strip.
  - destruct (startswith part "-isystem") eqn:E2; [|done].
    destruct rest as [|next rest']; [done|].
    intros [->|?]%elem_of_cons; [|by apply IH].
    apply Forall_cons in Hrest as [Hnext _].
    split_and!.
    + right; right. by apply startswith_app_l.
    + destruct Hpart as [_ Hp], Hnext as [_ Hn].
      apply single_line_app; [by apply no_space_single_line|].
      apply (single_line_app " "); [done|by apply no_space_single_line].
    + by apply token_pair_strip.
Qed.
End DatabaseShapes.

(** X2.  [flags_from_database] on the value that [json.load] gave: it
    returns none exactly for an empty value, and it returns a set only for
    a non-empty array of records whose commands are strings, none of them
    ending in a token that starts with [-isystem].  Every other value
    raises: a non-empty object, a non-empty string, a number other than
    zero and [true] all end in [TypeError]. *)
Theorem database_result_by_shape (data : json) :
  (flags_from_data data = Ok None ↔ falsy data = true)
  ∧ (∀ flags_set, flags_from_data data = Ok (Some flags_set) →
       ∃ entries commands,
         data = JArr entries ∧ entries ≠ [] ∧ records entries commands
         ∧ existsb dangling_isystem commands = false)
  ∧ (falsy data = false → (∀ entries, data ≠ JArr entries) →
     flags_from_data data = Raise TypeError).
Proof.
  split_and!; [unfold flags_from_data| |unfold flags_from_data].
  - destruct (falsy data); [done|]. split; [|done].
    destruct (iterate data); [|done]. by destruct (scan_entries _ _).
  - intros flags_set H. by apply (database_shape_inv _ flags_set).
  - intros Hf Hna. rewrite Hf.
    destruct data as [|b|n|s|entries|members]; cbn [iterate]; try done.
    + by destruct s.
    + by destruct (Hna entries).
    + by destruct members as [|[k v] members].
Qed.

(** X3.  In an array whose first entries are records as they should be,
    the first entry that is not one decides the result of
    [flags_from_database]: [TypeError] for an entry that is not an object,
    [KeyError] for an object without the key [command], [AttributeError]
    for a command that is not a string.  The flags of the entries before it
    are not returned. *)
Theorem first_bad_entry_raises
    (good : list json) (commands : list string) (bad : json) (rest : list json) :
  records good commands →
  existsb dangling_isystem commands = false →
  ((∀ members, bad ≠ JObj members) →
     flags_from_data (JArr (good ++ bad :: rest)) = Raise TypeError)
  ∧ (∀ members, bad = JObj members → dict_get "command" members = None →
     flags_from_data (JArr (good ++ bad :: rest)) = Raise KeyError)
  ∧ (∀ members v, bad = JObj members → dict_get "command" members = Some v →
     (∀ c, v ≠ JStr c) →
     flags_from_data (JArr (good ++ bad :: rest)) = Raise AttributeError).
Proof.
  intros Hrec Hd.
  assert (Hne : falsy (JArr (good ++ bad :: rest)) = false).
  { apply JArr_not_falsy. by destruct good. }
  unfold flags_from_data. rewrite Hne. cbn [iterate]. split_and!.
  - intros Hbad. rewrite (scan_entries_first_bad _ _ _ _ _ TypeError Hrec Hd); [done|].
    left. destruct bad; try done. by destruct (Hbad members).
  - intros members -> Hk.
    rewrite (scan_entries_first_bad _ _ _ _ _ KeyError Hrec Hd); [done|].
    left. cbn [subscript_command]. by rewrite Hk.
  - intros members v -> Hk Hv.
    rewrite (scan_entries_first_bad _ _ _ _ _ AttributeError Hrec Hd); [done|].
    right. exists v. cbn [subscript_command]. rewrite Hk. split; [done|].
    destruct v; try done. by destruct (Hv s).
Qed.

Lemma first_bad_entry_raises_witness :
  flags_from_data
    (JArr [JObj [("command", JStr "clang -Iinc")]; JObj [("file", JStr "a.c")]])
  = Raise KeyError.
Proof.
  destruct (first_bad_entry_raises [JObj [("command", JStr "clang -Iinc")]]
              ["clang -Iinc"] (JObj [("file", JStr "a.c")]) []) as (_ & H & _).
  - repeat constructor.
  - vm_compute. reflexivity.
  - apply (H [("file", JStr "a.c")]); reflexivity.
Defined.

(** X4.  Every flag of a set that [flags_from_database] returns starts
    with [-I], [-D] or [-isystem], holds no line end, and has no white
    space at either end: written one to a line, each flag is one line. *)
Theorem database_flags_are_well_formed (data : json) (flags_set : list string) :
  flags_from_data data = Ok (Some flags_set) →
  Forall well_formed_flag flags_set
  ∧ PyStr.readlines (PyStr.join nl flags_set +:+ nl)
    = if bool_decide (flags_set = []) then [nl] else map (λ f, f +:+ nl) flags_set.
Proof.
  intros H.
  assert (Hwf : Forall well_formed_flag flags_set).
  { destruct (database_shape_inv _ _ H) as (entries & commands & -> & Hne & Hrec & Hd).
    unfold flags_from_data in H. rewrite JArr_not_falsy in H by done.
    cbn [iterate] in H.
    destruct (scan_entries_ok entries commands [] Hrec Hd) as (s & Hs & _ & Hmem).
    rewrite Hs in H. injection H as <-.
    apply Forall_forall. intros f [?%elem_of_nil|(c & _ & Hf)]%Hmem; [done|].
    eapply spec_flags_well_formed; [apply PyStrFacts.split_tokens|done]. }
  split; [done|]. case_bool_decide as Hnil; [by subst|].
  rewrite join_unlines by done. apply readlines_unlines.
  eapply Forall_impl; [exact Hwf|]. by intros f (_ & ? & _).
Qed.

Lemma database_flags_are_well_formed_witness :
  Forall well_formed_flag ["-Iinc"; "-DFOO=1"; "-isystem /usr/x"].
Proof.
  apply (database_flags_are_well_formed
           (JArr [JObj [("command", JStr "clang -Iinc -DFOO=1 -isystem /usr/x -O2")]])).
  vm_compute. reflexivity.
Defined.

(** * More about the code: the parser of flag-list files *)

Section ParserShapes.
Import PyStr PyStrFacts.

Lemma rstrip_cons_nonspace c r :
  is_space c = false → rstrip (String c r) = String c (rstrip r).
Proof. intros Hc. cbn [rstrip]. rewrite Hc. by destruct (rstrip r). Qed.

Lemma isabs_cons r : PyPath.isabs (String "/" r) = true.
Proof. apply (startswith_app "/" r). Qed.

Lemma isabs_inv p : PyPath.isabs p = true → ∃ r, p = String "/" r.
Proof. intros [r ->]%startswith_split. by exists r. Qed.

Lemma isabs_rstrip p : PyPath.isabs p = true → PyPath.isabs (rstrip p) = true.
Proof.
  intros [r ->]%isabs_inv. rewrite rstrip_cons_nonspace by done. apply isabs_cons.
Qed.

Lemma isabs_normpath p : PyPath.isabs p = true → PyPath.isabs (PyPath.normpath p) = true.
Proof.
  intros Hp. unfold PyPath.normpath.
  destruct (isabs_inv _ Hp) as [r ->]. cbn [String.eqb].
  assert (startswith (String "/" r) "/" = true) as -> by apply isabs_cons.
  destruct (startswith (String "/" r) "//" && negb (startswith (String "/" r) "///"));
    cbn [repeat_char]; rewrite !sapp_cons, sapp_nil_l; cbn [String.eqb];
    apply isabs_cons.
Qed.

Lemma rstrip_char_nil c s :
  rstrip_char c s = "" → s = repeat_char c (String.length s).
Proof.
  induction s as [|d s IH]; [done|]. cbn [rstrip_char].
  destruct (rstrip_char c s); [|done].
  destruct (Ascii.eqb_spec d c) as [->|]; [|done].
  intros _. cbn. by rewrite <- IH.
Qed.

Lemma rstrip_char_head c d s :
  rstrip_char c (String d s) = "" ∨ ∃ r, rstrip_char c (String d s) = String d r.
Proof.
  cbn [rstrip_char]. destruct (rstrip_char c s); [|by right; eexists].
  destruct (Ascii.eqb d c); [by left|by right; eexists].
Qed.

Lemma head_of_abs r : ∃ h, PyPath.head_of (String "/" r) = String "/" h.
Proof.
  cbn [PyPath.head_of]. destruct (PyPath.head_of r); [|by eexists].
  by eexists.
Qed.

Lemma isabs_dirname p : PyPath.isabs p = true → PyPath.isabs (PyPath.dirname p) = true.
Proof.
  intros [r ->]%isabs_inv. unfold PyPath.dirname.
  destruct (head_of_abs r) as [h ->].
  destruct (negb _ && negb (String.eqb _ _)) eqn:E; [|apply isabs_cons].
  apply andb_true_iff in E as [_ E]. apply negb_true_iff, String.eqb_neq in E.
  destruct (rstrip_char_head PyPath.sep "/" h) as [Hnil|[r' ->]]; [|apply isabs_cons].
  destruct E. by apply rstrip_char_nil.
Qed.

Lemma strip_keeps_prefix a s :
  strip (String "-" a +:+ s) = String "-" (rstrip (a +:+ s)).
Proof.
  unfold strip. rewrite sapp_cons. cbn [lstrip]. cbn [is_space].
  by rewrite rstrip_cons_nonspace.
Qed.

(** What [parse_line] returns, without separation, in a folder with an
    absolute name. *)
Lemma parse_line_shape folder line f :
  PyPath.isabs folder = true →
  parse_line folder false line = Some f →
  (startswith line "-D" = true ∧ f = strip line)
  ∨ (∃ P, f = "-I" +:+ P ∧ PyPath.isabs P = true)
  ∨ (∃ P, f = "-isystem" +:+ P ∧ PyPath.isabs P = true).
Proof.
  intros Hfolder. unfold parse_line.
  destruct (startswith line "-D") eqn:HD; [intros [= <-]; by left|].
  assert (Habs : ∀ p, PyPath.isabs
                   (if PyPath.isabs p then PyPath.normpath p
                    else PyPath.join folder p) = true).
  { intros p. destruct (PyPath.isabs p) eqn:Hp;
      [by apply isabs_normpath|by apply isabs_join]. }
  destruct (startswith line "-I") eqn:HI.
  { intros Hf. right; left.
    exists (let p := strip (slice_from 2 line) in
            if PyPath.isabs p then PyPath.normpath p else PyPath.join folder p).
    split; [|apply Habs]. cbv zeta in *.
    destruct (PyPath.isabs (strip (slice_from 2 line))); by injection Hf as <-. }
  destruct (startswith line "-isystem") eqn:HS; [|done].
  intros Hf. right; right.
  set (p := strip (slice_from 8 line)) in *.
  exists (rstrip (if PyPath.isabs p then PyPath.normpath p else PyPath.join folder p)).
  split; [|apply isabs_rstrip, Habs].
  assert (Hs : ∀ P, strip (format_mask false "-isystem" P) = "-isystem" +:+ rstrip P).
  { intros P. unfold format_mask. rewrite strip_keeps_prefix.
    rewrite !sapp_cons, sapp_nil_l. by rewrite !rstrip_cons_nonspace by done. }
  destruct (PyPath.isabs p); injection Hf as <-; apply Hs.
Qed.

Lemma parse_line_indented folder separate_includes c r :
  is_space c = true → parse_line folder separate_includes (String c r) = None.
Proof.
  intros Hc. unfold parse_line. rewrite !startswith_cons.
  assert (bool_decide ("-"%char = c) = false) as ->.
  { apply bool_decide_eq_false. intros <-. done. }
  done.
Qed.

Lemma omap_drop_line {A} (f : string → option A) before line after :
  f line = None → omap f (before ++ line :: after) = omap f (before ++ after).
Proof.
  intros H. induction before as [|x before IH].
  - cbn. by rewrite H.
  - cbn. by rewrite IH.
Qed.
End ParserShapes.

Section ParsedFlags.
Import PyStr PyStrFacts.

Lemma flags_from_clang_file_Ok file separate_includes w path flags :
  full_path file = Some path →
  fst (flags_from_clang_file file separate_includes w) = Ok flags →
  ∃ content t,
    FS.lookup path w = Some (Reg content t)
    ∧ flags = omap (parse_line (PyPath.dirname path) separate_includes)
                (readlines content).
Proof.
  intros Hp. destruct (FS.lookup path w) as [[|content t]|] eqn:Hl.
  - unfold flags_from_clang_file, bind, FS.read.
    rewrite (loaded_Some _ _ Hp), Hp. cbn [negb from_option id]. by rewrite Hl.
  - rewrite (flags_from_clang_file_loaded _ _ _ _ _ _ Hp Hl).
    intros [= <-]. exists content, t. split; [done|].
    unfold folder. by rewrite Hp.
  - unfold flags_from_clang_file, bind, FS.read.
    rewrite (loaded_Some _ _ Hp), Hp. cbn [negb from_option id]. by rewrite Hl.
Qed.

Lemma parse_line_not_separate_isystem folder line next :
  PyPath.isabs folder = true →
  parse_line folder false line ≠ Some ("-isystem" +:+ " " +:+ next).
Proof.
  intros Hfolder Hf.
  destruct (parse_line_shape _ _ _ Hfolder Hf) as [[HD Hs]|[(P & HP & _)|(P & HP & Habs)]].
  - apply startswith_split in HD as [r ->].
    rewrite strip_keeps_prefix in Hs.
  rewrite !sapp_cons, !sapp_nil_l, rstrip_cons_nonspace in Hs by done. done.
  - rewrite !sapp_cons in HP. done.
  - apply (inj (String.append "-isystem")) in HP. subst P.
    rewrite sapp_cons in Habs. done.
Qed.

Lemma parsed_without_separate_isystem file w path next flags :
  full_path file = Some path →
  PyPath.isabs path = true →
  fst (flags_from_clang_file file false w) = Ok flags →
  "-isystem" +:+ " " +:+ next ∉ flags.
Proof.
  intros Hp Habs Hok Hf.
  destruct (flags_from_clang_file_Ok _ _ _ _ _ Hp Hok) as (content & t & _ & ->).
  apply list_elem_of_omap in Hf as (line & _ & Hline).
  by eapply parse_line_not_separate_isystem; [apply isabs_dirname|].
Qed.
End ParsedFlags.

(** X5.  Parsed without separation from a file whose path is absolute,
    every flag is a [-D] flag, or [-I] or [-isystem] followed directly by
    an absolute path: the parser returns no relative include path. *)
Theorem parsed_include_paths_are_absolute
    (file : File) (w : world) (path : string) (flags : list string) :
  full_path file = Some path →
  PyPath.isabs path = true →
  fst (flags_from_clang_file file false w) = Ok flags →
  ∀ f, f ∈ flags →
    PyStr.startswith f "-D" = true
    ∨ (∃ P, f = "-I" +:+ P ∧ PyPath.isabs P = true)
    ∨ (∃ P, f = "-isystem" +:+ P ∧ PyPath.isabs P = true).
Proof.
  intros Hp Habs Hok f Hf.
  destruct (flags_from_clang_file_Ok _ _ _ _ _ Hp Hok) as (content & t & _ & ->).
  apply list_elem_of_omap in Hf as (line & _ & Hline).
  destruct (parse_line_shape _ _ _ (isabs_dirname _ Habs) Hline)
    as [[HD ->]|[?|?]]; [left|by right; left|by right; right].
  apply PyStrFacts.startswith_split in HD as [r ->].
  rewrite strip_keeps_prefix.
  rewrite PyStrFacts.sapp_cons, PyStrFacts.sapp_nil_l, rstrip_cons_nonspace by done.
  apply (PyStrFacts.startswith_app "-D").
Qed.

Lemma parsed_include_paths_are_absolute_witness :
  let w := flags_file_world ("-Iinclude" +:+ nl +:+ "-isystem ../sys" +:+ nl) in
  fst (flags_from_clang_file (File_at "/proj/.flags" w) false w)
  = Ok ["-I/proj/include"; "-isystem/proj/../sys"]
  ∧ ∀ f, f ∈ ["-I/proj/include"; "-isystem/proj/../sys"] →
      PyStr.startswith f "-D" = true
      ∨ (∃ P, f = "-I" +:+ P ∧ PyPath.isabs P = true)
      ∨ (∃ P, f = "-isystem" +:+ P ∧ PyPath.isabs P = true).
Proof.
  intros w.
  assert (H : fst (flags_from_clang_file (File_at "/proj/.flags" w) false w)
              = Ok ["-I/proj/include"; "-isystem/proj/../sys"])
    by (vm_compute; reflexivity).
  split; [exact H|].
  apply (parsed_include_paths_are_absolute (File_at "/proj/.flags" w) w "/proj/.flags").
  - vm_compute. reflexivity.
  - reflexivity.
  - exact H.
Defined.

(** X6.  A flag written as [-isystem], a space and a path is never what
    the parser returns for a line without separation: from a file in a
    folder with an absolute name no line parses to it, whatever the line.
    It writes such flags as [-isystem] and the path with nothing
    between. *)
Theorem separate_isystem_flag_is_never_parsed
    (file : File) (w : world) (path next : string) (flags : list string) :
  full_path file = Some path →
  PyPath.isabs path = true →
  fst (flags_from_clang_file file false w) = Ok flags →
  "-isystem" +:+ " " +:+ next ∉ flags.
Proof.
  apply parsed_without_separate_isystem.
Qed.

Lemma separate_isystem_flag_is_never_parsed_witness :
  let w := flags_file_world ("-isystem /usr/x" +:+ nl) in
  fst (flags_from_clang_file (File_at "/proj/.flags" w) false w) = Ok ["-isystem/usr/x"]
  ∧ "-isystem /usr/x" ∉ ["-isystem/usr/x"].
Proof.
  intros w.
  assert (H : fst (flags_from_clang_file (File_at "/proj/.flags" w) false w)
              = Ok ["-isystem/usr/x"]) by (vm_compute; reflexivity).
  split; [exact H|].
  apply (separate_isystem_flag_is_never_parsed (File_at "/proj/.flags" w) w
           "/proj/.flags" "/usr/x"); [vm_compute; reflexivity|reflexivity|exact H].
Defined.

(** X7.  A line of the flag-list file that starts with white space adds
    no flag, whatever follows the white space: an indented [-I], [-D] or
    [-isystem] line is passed over like any other text, and the flags of
    the file are those of the file without that line. *)
Theorem indented_lines_are_ignored
    (file : File) (separate_includes : bool) (w w' : world) (path : string)
    (before after : list string) (c : ascii) (r : string) (t t' : Z) :
  full_path file = Some path →
  PyStr.is_space c = true →
  Forall (λ l, single_line l = true) (before ++ String c r :: after) →
  FS.lookup path w = Some (Reg (unlines (before ++ String c r :: after)) t) →
  FS.lookup path w' = Some (Reg (unlines (before ++ after)) t') →
  fst (flags_from_clang_file file separate_includes w)
  = fst (flags_from_clang_file file separate_includes w').
Proof.
  intros Hp Hc Hlines Hl Hl'.
  rewrite (flags_from_clang_file_loaded _ _ _ _ _ _ Hp Hl),
          (flags_from_clang_file_loaded _ _ _ _ _ _ Hp Hl').
  cbn [fst]. f_equal.
  assert (Hlines' : Forall (λ l, single_line l = true) (before ++ after)).
  { apply Forall_app in Hlines as [? [_ ?]%Forall_cons]. by apply Forall_app. }
  rewrite !readlines_unlines by done.
  rewrite !map_app, map_cons. apply omap_drop_line.
  rewrite PyStrFacts.sapp_cons. by apply parse_line_indented.
Qed.

Lemma indented_lines_are_ignored_witness :
  let w := flags_file_world (unlines ["-DA"; "  -Iinc"; "-DB"]) in
  let w' := flags_file_world (unlines ["-DA"; "-DB"]) in
  fst (flags_from_clang_file (File_at "/proj/.flags" w) false w)
  = fst (flags_from_clang_file (File_at "/proj/.flags" w') false w').
Proof.
  intros w w'.
  apply (indented_lines_are_ignored (File_at "/proj/.flags" w) false w w' "/proj/.flags"
           ["-DA"] ["-DB"] " " " -Iinc" 1 1).
  - vm_compute. reflexivity.
  - reflexivity.
  - repeat constructor.
  - vm_compute. reflexivity.
  - vm_compute. reflexivity.
Defined.

(** * More about the code: the gate before the write *)

Section Gate.
Context (host : Host).

Lemma list_difference_nil (a b : list string) :
  list_difference a b = [] ↔ ∀ f, f ∈ a → f ∈ b.
Proof.
  split.
  - intros H f Hf. destruct (decide (f ∈ b)) as [|Hn]; [done|].
    assert (f ∈ list_difference a b) as Hd by by apply list_elem_of_difference.
    rewrite H in Hd. by apply elem_of_nil in Hd.
  - intros H. apply elem_of_nil_inv. intros f [Hf Hn]%list_elem_of_difference.
    by apply Hn, H.
Qed.

Lemma symmetric_difference_nil (a b : list string) :
  symmetric_difference a b = [] ↔ ∀ f, f ∈ a ↔ f ∈ b.
Proof.
  unfold symmetric_difference. rewrite app_nil, !list_difference_nil.
  split; [intros [H1 H2] f; split; auto|intros H; split; intros f; apply H].
Qed.

Lemma update_clang_complete_unfold cmake_file strategy db w w1 w2 new_flags parsed :
  flags_from_database host db w = (Ok (Some new_flags), w1) →
  flags_from_clang_file
    (File_at (PyPath.join (folder cmake_file) CLANG_COMPLETE_FILE_NAME) w1)
    false w1 = (Ok parsed, w2) →
  update_clang_complete host cmake_file strategy db w =
  (if (0 <? length (symmetric_difference new_flags (set_of_list parsed)))%nat then
     write_flags_to_file host new_flags
       (PyPath.join (folder cmake_file) CLANG_COMPLETE_FILE_NAME) strategy ;;;
     log DEBUG "'%s' is not equal to '%s' by %s so update"
   else
     log DEBUG
       " the flags have not changed so we don't modify the .clang_complete file") w2.
Proof.
  intros Hdb Hparse. unfold update_clang_complete, bind at 1.
  rewrite Hdb. unfold bind at 1. by rewrite Hparse.
Qed.

Lemma update_clang_complete_gate cmake_file strategy db w w1 w2 new_flags parsed :
  flags_from_database host db w = (Ok (Some new_flags), w1) →
  flags_from_clang_file
    (File_at (PyPath.join (folder cmake_file) CLANG_COMPLETE_FILE_NAME) w1)
    false w1 = (Ok parsed, w2) →
  ((∀ f, f ∈ new_flags ↔ f ∈ parsed) →
     update_clang_complete host cmake_file strategy db w =
     (Ok tt,
      add_log DEBUG
        " the flags have not changed so we don't modify the .clang_complete file" w2))
  ∧ (¬ (∀ f, f ∈ new_flags ↔ f ∈ parsed) →
     update_clang_complete host cmake_file strategy db w =
     (write_flags_to_file host new_flags
        (PyPath.join (folder cmake_file) CLANG_COMPLETE_FILE_NAME) strategy ;;;
      log DEBUG "'%s' is not equal to '%s' by %s so update") w2).
Proof.
  intros Hdb Hparse.
  rewrite (update_clang_complete_unfold _ _ _ _ _ _ _ _ Hdb Hparse).
  destruct (symmetric_difference new_flags (set_of_list parsed)) as [|x l] eqn:E.
  - split; [done|]. intros H. destruct H.
    pose proof (proj1 (symmetric_difference_nil _ _) E) as E'. intros f.
    by rewrite E', elem_of_set_of_list.
  - split; [|done]. intros H.
    assert (symmetric_difference new_flags (set_of_list parsed) = []) as E'.
    { apply symmetric_difference_nil. intros f. by rewrite H, elem_of_set_of_list. }
    by rewrite E in E'.
Qed.
End Gate.

(** X8.  The gate of [get_flags] compares sets.  With the flags of the
    database and the flags parsed from the flag-list file in hand, the file
    is left alone exactly when both have the same members, in whatever
    order and however often the file repeats a flag; as soon as one flag is
    in one and not in the other, [write_flags_to_file] is called with the
    flags of the database. *)
Theorem gate_compares_sets
    (host : Host) (cmake_file db : File) (strategy : string) (w w1 w2 : world)
    (new_flags parsed : list string) :
  flags_from_database host db w = (Ok (Some new_flags), w1) →
  flags_from_clang_file
    (File_at (PyPath.join (folder cmake_file) CLANG_COMPLETE_FILE_NAME) w1)
    false w1 = (Ok parsed, w2) →
  ((∀ f, f ∈ new_flags ↔ f ∈ parsed) →
     update_clang_complete host cmake_file strategy db w =
     (Ok tt,
      add_log DEBUG
        " the flags have not changed so we don't modify the .clang_complete file" w2))
  ∧ (¬ (∀ f, f ∈ new_flags ↔ f ∈ parsed) →
     update_clang_complete host cmake_file strategy db w =
     (write_flags_to_file host new_flags
        (PyPath.join (folder cmake_file) CLANG_COMPLETE_FILE_NAME) strategy ;;;
      log DEBUG "'%s' is not equal to '%s' by %s so update") w2).
Proof. apply update_clang_complete_gate. Qed.

Lemma gate_compares_sets_witness :
  let host := demo_host demo_command in
  let w := gate_world demo_command ("-DFOO=1" +:+ nl +:+ "-I/usr/include" +:+ nl) in
  let r := update_clang_complete host (mkFile (Some "/proj/CMakeLists.txt") 3) "overwrite"
             (mkFile (Some "/db/compile_commands.json") 1) w in
  r.1 = Ok tt ∧ writes r.2 = [].
Proof.
  intros host w r.
  edestruct (gate_compares_sets host (mkFile (Some "/proj/CMakeLists.txt") 3)
               (mkFile (Some "/db/compile_commands.json") 1) "overwrite" w)
    as [Hsame _].
  - vm_compute. reflexivity.
  - vm_compute. reflexivity.
  - subst r. rewrite Hsame.
    + split; reflexivity.
    + apply symmetric_difference_nil. vm_compute. reflexivity.
Defined.


(** X9.  A database with a flag [-isystem] followed by its path in the
    next token defeats the gate.  The flag is kept with a space in it, and
    the parser never returns such a flag; so, whatever the flag-list file
    holds, the two sets differ and [write_flags_to_file] is called (with
    the strategy [ask], the user is asked) every time the build
    description was modified. *)
Theorem separate_isystem_defeats_the_gate
    (host : Host) (cmake_file db : File) (strategy next : string) (w w1 w2 : world)
    (new_flags parsed : list string) :
  PyPath.isabs (cwd w) = true →
  flags_from_database host db w = (Ok (Some new_flags), w1) →
  flags_from_clang_file
    (File_at (PyPath.join (folder cmake_file) CLANG_COMPLETE_FILE_NAME) w1)
    false w1 = (Ok parsed, w2) →
  "-isystem" +:+ " " +:+ next ∈ new_flags →
  update_clang_complete host cmake_file strategy db w =
  (write_flags_to_file host new_flags
     (PyPath.join (folder cmake_file) CLANG_COMPLETE_FILE_NAME) strategy ;;;
   log DEBUG "'%s' is not equal to '%s' by %s so update") w2.
Proof.
  intros Hcwd Hdb Hparse Hin.
  apply (update_clang_complete_gate host _ _ _ _ _ _ _ _ Hdb Hparse).
  intros Heq. apply Heq in Hin.
  destruct (read_only_flags_from_database host db w) as [[_ Hc1] _].
  rewrite Hdb in Hc1. cbn [snd] in Hc1.
  set (P := PyPath.join (folder cmake_file) CLANG_COMPLETE_FILE_NAME) in *.
  destruct (FS.lookup P w1) as [n|] eqn:Hl.
  - rewrite (File_at_exists _ _ _ Hl) in Hparse.
    eapply (parsed_without_separate_isystem (mkFile (Some (FS.key w1 P)) 0) w1
              (FS.key w1 P) next parsed);
      [done|apply key_abs; by rewrite Hc1|by rewrite Hparse|done].
  - rewrite (File_at_missing _ _ Hl) in Hparse.
    rewrite flags_from_clang_file_unloaded in Hparse by done.
    injection Hparse as <- _. by apply elem_of_nil in Hin.
Qed.

Lemma separate_isystem_defeats_the_gate_witness :
  let command := "clang -isystem /usr/x -c a.c" in
  let host := demo_host command in
  let w := gate_world command ("-isystem/usr/x" +:+ nl) in
  let r := update_clang_complete host (mkFile (Some "/proj/CMakeLists.txt") 3) "overwrite"
             (mkFile (Some "/db/compile_commands.json") 1) w in
  r.1 = Ok tt ∧ writes r.2 = ["/proj/.clang_complete"].
Proof.
  intros command host w r. subst r.
  eassert (Heq : update_clang_complete host _ "overwrite" _ w = _).
  { eapply (separate_isystem_defeats_the_gate host (mkFile (Some "/proj/CMakeLists.txt") 3)
              (mkFile (Some "/db/compile_commands.json") 1) "overwrite" "/usr/x" w).
    - reflexivity.
    - vm_compute. reflexivity.
    - vm_compute. reflexivity.
    - vm_compute. apply list_elem_of_here. }
  rewrite Heq. split; vm_compute; reflexivity.
Defined.

(** * More about the code: the calls of a manager *)

Section Calls.
Context (host : Host).

(** [refresh_from_cmake] changes one field of the manager. *)
Lemma refresh_from_cmake_self self w r self' w' :
  refresh_from_cmake host self w = (r, self', w') →
  self' = set_cmake_file (_cmake_file self') self.
Proof.
  unfold refresh_from_cmake. destruct (_use_cmake self).
  2:{ intros [= <- <- <-]. by rewrite set_cmake_file_id. }
  destruct (was_modified (_cmake_file self) w) as [[] f].
  - destruct (regenerate _ _ _ _) as [r0 w0]. by intros [= <- <- <-].
  - by intros [= <- <- <-].
Qed.

(** Without the build description [refresh_from_cmake] does nothing. *)
Lemma refresh_from_cmake_off self w :
  _use_cmake self = false → refresh_from_cmake host self w = (Ok tt, self, w).
Proof. intros H. unfold refresh_from_cmake. by rewrite H. Qed.

(** With a build description that was not modified it does nothing. *)
Lemma refresh_from_cmake_unmodified self w :
  was_modified (_cmake_file self) w = (false, _cmake_file self) →
  refresh_from_cmake host self w = (Ok tt, self, w).
Proof.
  intros H. unfold refresh_from_cmake. destruct (_use_cmake self); [|done].
  by rewrite H, set_cmake_file_id.
Qed.

(** What [reload_flags] does to the fields that [reload_flags_spec] leaves
    out. *)
Lemma reload_flags_self self separate_includes w r self' w' :
  reload_flags self separate_includes w = (r, self', w') →
  _flags_update_strategy self' = _flags_update_strategy self
  ∧ match r with
    | Ok flags => _flags self' = flags
    | Raise _ => _flags self' = _flags self
    end.
Proof.
  unfold reload_flags.
  destruct (was_modified (_clang_complete_file self) w) as [[] f].
  - destruct ((_ ;;; _) w) as [[flags|e] w0]; by intros [= <- <- <-].
  - by intros [= <- <- <-].
Qed.

(** The second half of [get_flags], lines 105-118: it reads, and it keeps
    what the manager was made with. *)
Lemma get_flags_tail self separate_includes w sc wc r self' w' :
  locate_clang_complete_file self w = (sc, wc) →
  reload_flags sc separate_includes wc = (r, self', w') →
  same_fs w w' ∧ writes w' = writes w
  ∧ _cmake_file self' = _cmake_file self
  ∧ _search_scope self' = _search_scope self
  ∧ _use_cmake self' = _use_cmake self
  ∧ _flags_update_strategy self' = _flags_update_strategy self
  ∧ match r with
    | Ok flags => _flags self' = flags
    | Raise _ => _flags self' = _flags self
    end.
Proof.
  intros Ec Er.
  apply locate_clang_complete_file_spec in Ec as (Hwc & Hwr & Hsc & _).
  pose proof (reload_flags_self _ _ _ _ _ _ Er) as [Hst Hfl].
  apply reload_flags_spec in Er as (Hw' & Hwr' & _ & Hc & Hs & Hu & _).
  split_and!.
  - by eapply same_fs_trans.
  - congruence.
  - rewrite Hc, Hsc. done.
  - rewrite Hs, Hsc. done.
  - rewrite Hu, Hsc. done.
  - rewrite Hst, Hsc. done.
  - destruct r; [done|]. rewrite Hfl, Hsc. done.
Qed.

(** [get_flags] in its two halves. *)
Lemma get_flags_halves self separate_includes w r self1 w1 :
  get_flags host self separate_includes w = (r, self1, w1) →
  ∃ sa wa rb sb wb,
    locate_cmake_file self w = (sa, wa)
    ∧ refresh_from_cmake host sa wa = (rb, sb, wb)
    ∧ same_fs wb w1 ∧ writes w1 = writes wb
    ∧ _cmake_file self1 = _cmake_file sb
    ∧ _search_scope self1 = _search_scope self
    ∧ _use_cmake self1 = _use_cmake self
    ∧ _flags_update_strategy self1 = _flags_update_strategy self
    ∧ _clang_complete_file sb = _clang_complete_file self
    ∧ match r with
      | Ok flags => _flags self1 = flags
      | Raise _ => _flags self1 = _flags self
      end.
Proof.
  intros E. unfold get_flags in E.
  destruct (locate_cmake_file self w) as [sa wa] eqn:Ea.
  destruct (refresh_from_cmake host sa wa) as [[rb sb] wb] eqn:Eb.
  exists sa, wa, rb, sb, wb. split; [done|]. split; [done|].
  apply locate_cmake_file_spec in Ea as (_ & _ & Hsa & _).
  pose proof (refresh_from_cmake_self _ _ _ _ _ Eb) as Hsb.
  destruct rb as [[]|e].
  - destruct (locate_clang_complete_file sb wb) as [sc wc] eqn:Ec.
    destruct (get_flags_tail _ _ _ _ _ _ _ _ Ec E) as (? & ? & ? & Hs & Hu & Hst & Hfl).
    split_and!; [done..| | | | |].
    + rewrite Hs, Hsb, Hsa. done.
    + rewrite Hu, Hsb, Hsa. done.
    + rewrite Hst, Hsb, Hsa. done.
    + rewrite Hsb, Hsa. done.
    + destruct r; [done|]. rewrite Hfl, Hsb, Hsa. done.
  - injection E as <- <- <-. split_and!; [apply same_fs_refl|done..| | | | |].
    + rewrite Hsb, Hsa. done.
    + rewrite Hsb, Hsa. done.
    + rewrite Hsb, Hsa. done.
    + rewrite Hsb, Hsa. done.
    + rewrite Hsb, Hsa. done.
Qed.

(** A manager whose build description is settled: the search for it, if
    there is one to do, finds nothing, and it was not modified. *)
Lemma settled_get_flags self separate_includes w :
  (_use_cmake self = true →
     (loaded (_cmake_file self) = false →
        loaded (File_search CMAKE_FILE_NAME (from_folder (_search_scope self))
                  (to_folder (_search_scope self)) (Some "project") w) = false)
     ∧ was_modified (_cmake_file self) w = (false, _cmake_file self)) →
  ∃ r self' w',
    get_flags host self separate_includes w = (r, self', w')
    ∧ same_fs w w' ∧ writes w' = writes w.
Proof.
  intros Hsettled. unfold get_flags.
  destruct (locate_cmake_file self w) as [sa wa] eqn:Ea.
  assert (Hrefresh : refresh_from_cmake host sa wa = (Ok tt, sa, wa)).
  { pose proof (locate_cmake_file_spec _ _ _ _ Ea) as (Hwa & _ & Hsa & _ & Hfa).
    destruct (_use_cmake self) eqn:Hu.
    2:{ apply refresh_from_cmake_off. rewrite Hsa. done. }
    destruct (Hsettled eq_refl) as [Hsearch Hm].
    apply refresh_from_cmake_unmodified.
    destruct (loaded (_cmake_file self)) eqn:Hl; cbn in Hfa.
    - subst sa. by rewrite (was_modified_ext _ _ _ Hwa).
    - apply was_modified_unloaded. rewrite Hfa.
      rewrite (File_search_ext _ _ _ _ _ _ Hwa). by apply Hsearch. }
  rewrite Hrefresh.
  destruct (locate_clang_complete_file sa wa) as [sc wc] eqn:Ec.
  destruct (reload_flags sc separate_includes wc) as [[r self'] w'] eqn:Er.
  exists r, self', w'. split; [done|].
  destruct (get_flags_tail _ _ _ _ _ _ _ _ Ec Er) as (Hs & Hw & _).
  apply locate_cmake_file_spec in Ea as (Hwa & Hwr & _).
  split; [by eapply same_fs_trans|congruence].
Qed.

(** After a call of [get_flags], whatever it returned or raised, the
    build description of the manager is settled in the world it left. *)
Lemma get_flags_settles self separate_includes w r self1 w1 :
  cmake_file_named self →
  respects_build_files host →
  get_flags host self separate_includes w = (r, self1, w1) →
  _use_cmake self1 = true →
  (loaded (_cmake_file self1) = false →
     loaded (File_search CMAKE_FILE_NAME (from_folder (_search_scope self1))
               (to_folder (_search_scope self1)) (Some "project") w1) = false)
  ∧ was_modified (_cmake_file self1) w1 = (false, _cmake_file self1).
Proof.
  intros Hnamed Htool E Hu1.
  destruct (get_flags_halves _ _ _ _ _ _ E)
    as (sa & wa & rb & sb & wb & Ea & Eb & Hw1 & _ & Hc1 & Hs1 & Hu & _).
  apply locate_cmake_file_spec in Ea as (Hwa & _ & Hsa & Hna & Hfa).
  apply refresh_from_cmake_settles in Eb as (_ & Hsb & Hpb & Hmb & Hub);
    [|by apply Hna|done].
  rewrite Hu in Hu1. rewrite Hc1, Hs1. split.
  - intros Hl.
    assert (Hla : loaded (_cmake_file sa) = false).
    { unfold loaded in *. by rewrite <- Hpb. }
    destruct (Hub Hla) as [-> ->].
    rewrite Hu1 in Hfa. destruct (loaded (_cmake_file self)) eqn:Hls; cbn in Hfa.
    + subst sa. congruence.
    + rewrite (File_search_ext _ _ _ _ _ _ Hw1). by rewrite <- Hfa.
  - apply Hmb; [by rewrite Hsa|done].
Qed.

(** The flag-list file of a manager has the name of a flag-list file. *)
Lemma reachable_clang_complete_named self c :
  reachable host self →
  full_path (_clang_complete_file self) = Some c →
  PyStr.endswith c CLANG_COMPLETE_FILE_NAME = true.
Proof.
  intros Hr. revert c.
  induction Hr as [use_cmake strategy scope w self w' Hinit
                  |self separate_includes w r self' w' _ IH E
                  |self w b self' _ IH E]; intros c Hc.
  - unfold __init__, bind, log in Hinit.
    destruct (valid scope); injection Hinit as <- _; done.
  - unfold get_flags in E.
    destruct (locate_cmake_file self w) as [sa wa] eqn:Ea.
    apply locate_cmake_file_spec in Ea as (_ & _ & Hsa & _).
    destruct (refresh_from_cmake host sa wa) as [[rb sb] wb] eqn:Eb.
    apply refresh_from_cmake_self in Eb as Hsb.
    assert (Hb : _clang_complete_file sb = _clang_complete_file self).
    { rewrite Hsb, Hsa. done. }
    destruct rb as [[]|e].
    2:{ injection E as <- <- <-. apply IH. by rewrite <- Hb. }
    destruct (locate_clang_complete_file sb wb) as [sc wc] eqn:Ec.
    apply locate_clang_complete_file_spec in Ec as (_ & _ & _ & Hfc).
    apply reload_flags_spec in E as (_ & _ & Hf & _).
    rewrite Hf, was_modified_path in Hc.
    destruct (loaded (_clang_complete_file sb)); cbn in Hfc.
    + subst sc. apply IH. by rewrite <- Hb.
    + rewrite Hfc in Hc. by eapply File_search_named.
  - unfold any_file_modified in E.
    destruct (was_modified (_cmake_file self) w) as [[] f1].
    + injection E as <- <-. by apply IH.
    + cbn [_clang_complete_file set_cmake_file] in E.
      destruct (was_modified (_clang_complete_file self) w) as [m2 f2] eqn:Hm.
      assert (Hp : full_path f2 = full_path (_clang_complete_file self)).
      { replace f2 with (was_modified (_clang_complete_file self) w).2 by by rewrite Hm.
        apply was_modified_path. }
      destruct m2; injection E as <- <-; apply IH; by rewrite <- Hp.
Qed.
End Calls.

(** What [any_file_modified] does to the two files of the manager. *)
Lemma any_file_modified_cmake self w :
  _cmake_file (any_file_modified self w).2 = (was_modified (_cmake_file self) w).2.
Proof.
  unfold any_file_modified.
  destruct (was_modified (_cmake_file self) w) as [[] f1]; [done|].
  cbn [_clang_complete_file set_cmake_file].
  by destruct (was_modified (_clang_complete_file self) w) as [[] f2].
Qed.

Lemma any_file_modified_settled self w :
  was_modified (_cmake_file self) w = (false, _cmake_file self) →
  any_file_modified self w
  = ((was_modified (_clang_complete_file self) w).1,
     set_clang_complete_file (was_modified (_clang_complete_file self) w).2 self).
Proof.
  intros H. unfold any_file_modified. rewrite H, set_cmake_file_id.
  by destruct (was_modified (_clang_complete_file self) w) as [[] f2].
Qed.

Lemma any_file_modified_self self w :
  _search_scope (any_file_modified self w).2 = _search_scope self
  ∧ _use_cmake (any_file_modified self w).2 = _use_cmake self
  ∧ _flags_update_strategy (any_file_modified self w).2 = _flags_update_strategy self
  ∧ _flags (any_file_modified self w).2 = _flags self.
Proof.
  unfold any_file_modified.
  destruct (was_modified (_cmake_file self) w) as [[] f1]; [done|].
  cbn [_clang_complete_file set_cmake_file].
  by destruct (was_modified (_clang_complete_file self) w) as [[] f2].
Qed.

(** X10.  A manager made without the build description never uses it:
    [get_flags] returns the same, and leaves the same manager, whatever the
    build tool, the reader of the database and the dialog would do, it
    changes no file and writes none, and it does not look for a build
    description. *)
Theorem without_cmake_nothing_is_written
    (host host' : Host) (self : FlagsManager) (separate_includes : bool) (w : world) :
  _use_cmake self = false →
  get_flags host self separate_includes w = get_flags host' self separate_includes w
  ∧ files (get_flags host self separate_includes w).2 = files w
  ∧ writes (get_flags host self separate_includes w).2 = writes w
  ∧ _cmake_file (get_flags host self separate_includes w).1.2 = _cmake_file self.
Proof.
  intros Hu.
  assert (Hoff : ∀ h, get_flags h self separate_includes w
                      = let '(sc, wc) := locate_clang_complete_file self w in
                        reload_flags sc separate_includes wc).
  { intros h. unfold get_flags, locate_cmake_file. rewrite Hu. cbn [andb].
    by rewrite refresh_from_cmake_off. }
  split; [by rewrite !Hoff|]. rewrite Hoff.
  destruct (locate_clang_complete_file self w) as [sc wc] eqn:Ec.
  destruct (reload_flags sc separate_includes wc) as [[r self'] w'] eqn:Er.
  destruct (get_flags_tail _ _ _ _ _ _ _ _ Ec Er) as ([Hf _] & Hw & Hc & _).
  done.
Qed.

Lemma without_cmake_nothing_is_written_witness :
  let self := mkFlagsManager File_empty File_empty []
                (mkSearchScope (Some "/proj/src") (Some "/proj")) false "overwrite" in
  get_flags (demo_host demo_command) self false demo_world
  = get_flags (host_with "" None) self false demo_world
  ∧ files (get_flags (demo_host demo_command) self false demo_world).2 = files demo_world
  ∧ writes (get_flags (demo_host demo_command) self false demo_world).2
    = writes demo_world
  ∧ _cmake_file (get_flags (demo_host demo_command) self false demo_world).1.2
    = File_empty.
Proof.
  intros self.
  apply (without_cmake_nothing_is_written (demo_host demo_command) (host_with "" None)
           self false demo_world).
  reflexivity.
Defined.

(** X11.  Neither [get_flags] nor [any_file_modified] changes what the
    manager was made with: the search scope, the use of the build
    description and the update strategy stay.  The flags the manager holds
    after [get_flags] are the flags returned, and the flags it held when
    the call raised; [any_file_modified] keeps them. *)
Theorem configuration_is_kept
    (host : Host) (self : FlagsManager) (separate_includes : bool) (w : world) :
  let r := (get_flags host self separate_includes w).1.1 in
  let self' := (get_flags host self separate_includes w).1.2 in
  let self'' := (any_file_modified self w).2 in
  (_search_scope self' = _search_scope self
   ∧ _use_cmake self' = _use_cmake self
   ∧ _flags_update_strategy self' = _flags_update_strategy self
   ∧ match r with
     | Ok flags => _flags self' = flags
     | Raise _ => _flags self' = _flags self
     end)
  ∧ (_search_scope self'' = _search_scope self
     ∧ _use_cmake self'' = _use_cmake self
     ∧ _flags_update_strategy self'' = _flags_update_strategy self
     ∧ _flags self'' = _flags self).
Proof.
  intros r self' self''. subst r self' self''. split.
  - destruct (get_flags host self separate_includes w) as [[r self'] w'] eqn:E.
    by destruct (get_flags_halves _ _ _ _ _ _ _ E)
      as (sa & wa & rb & sb & wb & _ & _ & _ & _ & _ & ? & ? & ? & _ & ?).
  - apply any_file_modified_self.
Qed.

(** X12.  The two files of a manager have the names of their kinds: in
    every manager that the constructor, [get_flags] and [any_file_modified]
    can produce, a bound build description has a path that ends with
    [CMakeLists.txt], and a bound flag-list file one that ends with
    [.clang_complete]. *)
Theorem manager_files_are_named (host : Host) (self : FlagsManager) :
  reachable host self →
  (∀ c, full_path (_cmake_file self) = Some c →
        PyStr.endswith c CMAKE_FILE_NAME = true)
  ∧ (∀ c, full_path (_clang_complete_file self) = Some c →
          PyStr.endswith c CLANG_COMPLETE_FILE_NAME = true).
Proof.
  intros Hr. split.
  - by apply (reachable_named host).
  - intros c. by apply (reachable_clang_complete_named host).
Qed.

Lemma manager_files_are_named_witness :
  let host := demo_host demo_command in
  let self := (get_flags host demo_manager false demo_world).1.2 in
  (∀ c, full_path (_cmake_file self) = Some c →
        PyStr.endswith c CMAKE_FILE_NAME = true)
  ∧ (∀ c, full_path (_clang_complete_file self) = Some c →
          PyStr.endswith c CLANG_COMPLETE_FILE_NAME = true).
Proof.
  intros host self.
  apply (manager_files_are_named host self).
  apply (reachable_get_flags host demo_manager false demo_world
           (get_flags host demo_manager false demo_world).1.1 self
           (get_flags host demo_manager false demo_world).2).
  - apply (reachable_init host true "overwrite"
             (mkSearchScope (Some "/proj/src") (Some "/proj")) demo_world
             demo_manager demo_world).
    reflexivity.
  - vm_compute. reflexivity.
Defined.

(** X13.  Whatever a call of [get_flags] returned or raised, the call
    after it, in the world the first has left, runs no build and writes
    nothing: the build description is not seen as modified a second time.
    An error of the build step is so raised once; the next call goes on to
    the flag-list file. *)
Theorem second_call_never_writes
    (host : Host) (self self1 : FlagsManager) (s1 s2 : bool) (w w1 : world)
    (r : result (list string)) :
  reachable host self →
  respects_build_files host →
  get_flags host self s1 w = (r, self1, w1) →
  ∃ r2 self2 w2,
    get_flags host self1 s2 w1 = (r2, self2, w2)
    ∧ files w2 = files w1 ∧ cwd w2 = cwd w1 ∧ writes w2 = writes w1.
Proof.
  intros Hr Htool E.
  destruct (settled_get_flags host self1 s2 w1) as (r2 & self2 & w2 & E2 & [Hf Hc] & Hw).
  { intros Hu. eapply get_flags_settles; [by apply (reachable_named host)|done..]. }
  by exists r2, self2, w2.
Qed.

Lemma second_call_never_writes_witness :
  let host := host_with "[]" (Some (JArr [])) in
  let first := get_flags host demo_manager true demo_world in
  first.1.1 = Raise AttributeError
  ∧ ∃ r2 self2 w2,
      get_flags host first.1.2 false first.2 = (r2, self2, w2)
      ∧ files w2 = files first.2 ∧ cwd w2 = cwd first.2 ∧ writes w2 = writes first.2.
Proof.
  intros host first. split; [vm_compute; reflexivity|].
  apply (second_call_never_writes host demo_manager first.1.2 true false demo_world
           first.2 first.1.1).
  - apply (reachable_init host true "overwrite"
             (mkSearchScope (Some "/proj/src") (Some "/proj")) demo_world
             demo_manager demo_world).
    reflexivity.
  - intros cmd dir fs p Hp. cbn [host_with check_output snd].
    apply lookup_insert_ne. intros Heq.
    assert (H1 : last_char p = Some "t"%char).
    { by rewrite (endswith_last_char _ _ Hp). }
    assert (H2 : last_char (PyPath.join dir CMAKE_DB_FILE_NAME) = Some "n"%char).
    { rewrite (endswith_last_char _ CMAKE_DB_FILE_NAME); [done| |done].
      apply endswith_join, PyStrFacts.endswith_refl. }
    rewrite Heq in H2. congruence.
  - vm_compute. reflexivity.
Defined.

(** X14.  [any_file_modified] uses up the change it reports.  On a manager
    with a bound build description, once [any_file_modified] has been
    called, [get_flags] in the same world runs no build and writes nothing,
    also when the answer was [True] because the build description had
    changed: the flag-list file is not made again from it. *)
Theorem any_file_modified_uses_up_the_change
    (host : Host) (self : FlagsManager) (separate_includes : bool) (w : world) :
  loaded (_cmake_file self) = true →
  let self' := (any_file_modified self w).2 in
  ∃ r self'' w',
    get_flags host self' separate_includes w = (r, self'', w')
    ∧ files w' = files w ∧ cwd w' = cwd w ∧ writes w' = writes w.
Proof.
  intros Hl self'.
  destruct (settled_get_flags host self' separate_includes w)
    as (r & self'' & w' & E & [Hf Hc] & Hw).
  { intros _. subst self'. rewrite any_file_modified_cmake. split.
    - rewrite loaded_was_modified. congruence.
    - by apply was_modified_again. }
  by exists r, self'', w'.
Qed.

Lemma any_file_modified_uses_up_the_change_witness :
  let host := demo_host demo_command in
  let self := set_cmake_file (mkFile (Some "/proj/CMakeLists.txt") 0) demo_manager in
  (any_file_modified self demo_world).1 = true
  ∧ writes (get_flags host self false demo_world).2 ≠ []
  ∧ ∃ r self'' w',
      get_flags host (any_file_modified self demo_world).2 false demo_world
      = (r, self'', w')
      ∧ files w' = files demo_world ∧ cwd w' = cwd demo_world
      ∧ writes w' = writes demo_world.
Proof.
  intros host self. split; [vm_compute; reflexivity|]. split; [by vm_compute|].
  apply (any_file_modified_uses_up_the_change host self false demo_world).
  reflexivity.
Defined.

(** X15.  In a world that does not change, [any_file_modified] answers
    [True] at most twice, once for each file: the third call in a row
    answers [False] and leaves the manager as the second left it, and so
    does every call after it. *)
Theorem any_file_modified_third_call
    (self : FlagsManager) (w : world) :
  let self1 := (any_file_modified self w).2 in
  let self2 := (any_file_modified self1 w).2 in
  any_file_modified self2 w = (false, self2).
Proof.
  intros self1 self2.
  assert (H1 : was_modified (_cmake_file self1) w = (false, _cmake_file self1)).
  { subst self1. rewrite any_file_modified_cmake. by apply was_modified_again. }
  assert (E2 : self2 = set_clang_complete_file
                         (was_modified (_clang_complete_file self1) w).2 self1).
  { subst self2. by rewrite (any_file_modified_settled _ _ H1). }
  assert (H2 : was_modified (_cmake_file self2) w = (false, _cmake_file self2)).
  { by rewrite E2. }
  rewrite (any_file_modified_settled _ _ H2).
  assert (H3 : was_modified (_clang_complete_file self2) w
               = (false, _clang_complete_file self2)).
  { rewrite E2. cbn [_clang_complete_file set_clang_complete_file].
    by apply was_modified_again. }
  rewrite H3. cbn [fst snd]. by rewrite set_clang_complete_file_id.
Qed.

(** * More about the code: the build step *)

Section Build.
Context (host : Host).

(** [get_flags] with a build description that was modified. *)
Lemma get_flags_modified self separate_includes w self_a w_a cmake_file :
  locate_cmake_file self w = (self_a, w_a) →
  _use_cmake self_a = true →
  was_modified (_cmake_file self_a) w_a = (true, cmake_file) →
  get_flags host self separate_includes w =
  let '(r, w_r) := regenerate host cmake_file (_flags_update_strategy self_a) w_a in
  match r with
  | Raise e => (Raise e, set_cmake_file cmake_file self_a, w_r)
  | Ok _ =>
      let '(sc, wc) :=
        locate_clang_complete_file (set_cmake_file cmake_file self_a) w_r in
      reload_flags sc separate_includes wc
  end.
Proof.
  intros Ea Hu Hm. unfold get_flags. rewrite Ea.
  unfold refresh_from_cmake. rewrite Hu, Hm.
  cbn [_cmake_file set_cmake_file _flags_update_strategy].
  by destruct (regenerate _ _ _ _) as [[[]|e] w_r].
Qed.

(** [regenerate] with a database. *)
Lemma regenerate_with_database cmake_file strategy w db w_db :
  compile_cmake host cmake_file
    (add_log DEBUG " CMakeLists.txt was modified. Generate new .clang_complete" w)
    = (Ok (Some db), w_db) →
  regenerate host cmake_file strategy w
  = update_clang_complete host cmake_file strategy db w_db.
Proof. intros Hc. unfold regenerate, bind, log. by rewrite Hc. Qed.

(** [regenerate] without one. *)
Lemma regenerate_without_database cmake_file strategy w w_db :
  compile_cmake host cmake_file
    (add_log DEBUG " CMakeLists.txt was modified. Generate new .clang_complete" w)
    = (Ok None, w_db) →
  regenerate host cmake_file strategy w
  = (Ok tt, add_log WARNING " could not get compilation database from cmake" w_db).
Proof. intros Hc. unfold regenerate, bind, log. by rewrite Hc. Qed.

End Build.



(** X17.  [merge_flags] of two flags is the list of the members of the set
    of both: it has no flag twice, and its members are the two flags, one
    member when they are equal.  The order of the list is the order of the
    set and nothing is said about it.  Given a list of flags in either
    place it raises [TypeError], a list cannot be a member of a set. *)
Theorem merge_flags_is_the_set_of_both (a b : string) :
  (∃ l, merge_flags (VStr a) (VStr b) = Ok l
        ∧ NoDup l
        ∧ (∀ v, v ∈ l ↔ v = VStr a ∨ v = VStr b)
        ∧ length l = if bool_decide (a = b) then 1%nat else 2%nat)
  ∧ (∀ items v, merge_flags (VList items) v = Raise TypeError)
  ∧ (∀ items, merge_flags (VStr a) (VList items) = Raise TypeError).
Proof.
  split; [|done]. unfold merge_flags, set_add_value. cbn [hashable].
  rewrite (bool_decide_false (VStr a ∈ [])) by by intros ?%elem_of_nil.
  cbn [app]. destruct (decide (a = b)) as [->|Hne].
  - rewrite bool_decide_true by apply list_elem_of_here.
    rewrite bool_decide_true by done.
    eexists. split; [done|]. split_and!; [| |done].
    + apply NoDup_singleton.
    + intros v. rewrite list_elem_of_singleton. tauto.
  - rewrite bool_decide_false by (intros [= ?]%list_elem_of_singleton; congruence).
    rewrite bool_decide_false by done.
    eexists. split; [done|]. split_and!; [| |done].
    + apply NoDup_cons. split; [|apply NoDup_singleton].
      intros [= ?]%list_elem_of_singleton. congruence.
    + intros v. cbn [app]. rewrite elem_of_cons, list_elem_of_singleton. tauto.
Qed.

(** X18.  When the flags of the database and the flags of the flag-list
    file differ, and nothing exists at the path beside the build
    description or the strategy is [overwrite] and a file is there, the
    call of [get_flags] leaves, at that path, the flags of the database,
    one on a line, stamped with the time of the write; every other path is as
    the build tool left it, and the path is the one write after those of
    the build. *)
Theorem changed_flags_are_written
    (host : Host) (self : FlagsManager) (separate_includes : bool) (w : world)
    (self_a : FlagsManager) (w_a : world) (cmake_file db : File)
    (w_db w_flags w_parsed : world) (new_flags parsed : list string) :
  locate_cmake_file self w = (self_a, w_a) →
  _use_cmake self_a = true →
  was_modified (_cmake_file self_a) w_a = (true, cmake_file) →
  compile_cmake host cmake_file
    (add_log DEBUG " CMakeLists.txt was modified. Generate new .clang_complete" w_a)
    = (Ok (Some db), w_db) →
  flags_from_database host db w_db = (Ok (Some new_flags), w_flags) →
  flags_from_clang_file
    (File_at (PyPath.join (folder cmake_file) CLANG_COMPLETE_FILE_NAME) w_flags)
    false w_flags = (Ok parsed, w_parsed) →
  ¬ (∀ f, f ∈ new_flags ↔ f ∈ parsed) →
  let P := PyPath.join (folder cmake_file) CLANG_COMPLETE_FILE_NAME in
  (FS.lookup P w_db = None
   ∨ (_flags_update_strategy self = "overwrite"
      ∧ ∃ content t, FS.lookup P w_db = Some (Reg content t))) →
  let w' := (get_flags host self separate_includes w).2 in
  files w' = <[FS.key w_db P := Reg (PyStr.join nl new_flags +:+ nl) (now w_parsed)]>
               (files w_db)
  ∧ writes w' = writes w_db ++ [FS.key w_db P].
Proof.
  intros Ea Hu Hm Hc Hdb Hparse Hne P Hcase w'. subst w'.
  destruct (read_only_flags_from_database host db w_db) as [[Hf1 Hc1] Hw1].
  rewrite Hdb in Hf1, Hc1, Hw1. cbn [snd] in Hf1, Hc1, Hw1.
  destruct (read_only_flags_from_clang_file (File_at P w_flags) false w_flags)
    as [[Hf2 Hc2] Hw2].
  fold P in Hparse. rewrite Hparse in Hf2, Hc2, Hw2. cbn [snd] in Hf2, Hc2, Hw2.
  assert (Hstrategy : _flags_update_strategy self_a = _flags_update_strategy self).
  { apply locate_cmake_file_spec in Ea as (_ & _ & -> & _). done. }
  assert (Hlook : FS.lookup P w_parsed = FS.lookup P w_db).
  { unfold FS.lookup, FS.key. by rewrite Hf2, Hc2, Hf1, Hc1. }
  assert (Hkey : FS.key w_parsed P = FS.key w_db P).
  { unfold FS.key. by rewrite Hc2, Hc1. }
  assert (Hwrite : write_flags_to_file host new_flags P (_flags_update_strategy self_a)
                     w_parsed
                   = write_lines new_flags P
                       (if FS.exists_ P w_parsed then
                          add_log DEBUG " picked '%s' strategy."
                            (add_log DEBUG " path already exists" w_parsed)
                        else w_parsed)).
  { destruct Hcase as [Hnone|[Hov (content & t & Hreg)]].
    - rewrite write_flags_fresh by by rewrite Hlook.
      unfold FS.exists_. rewrite Hlook, Hnone.
      by rewrite bool_decide_false by by intros [? ?].
    - rewrite (write_flags_existing _ _ _ _ _ (Reg content t)) by by rewrite Hlook.
      cbv zeta. rewrite Hstrategy, Hov.
      rewrite get_flags_strategy_fixed by done.
      rewrite !bool_decide_false by done.
      unfold FS.exists_. rewrite Hlook, Hreg.
      by rewrite bool_decide_true by by eexists. }
  set (w_x := if FS.exists_ P w_parsed then
                add_log DEBUG " picked '%s' strategy."
                  (add_log DEBUG " path already exists" w_parsed)
              else w_parsed) in Hwrite.
  assert (Hx : files w_x = files w_db ∧ cwd w_x = cwd w_db ∧ writes w_x = writes w_db
               ∧ now w_x = now w_parsed).
  { subst w_x. destruct (FS.exists_ P w_parsed);
      cbn [files cwd writes now add_log]; split_and!; congruence. }
  destruct Hx as (Hfx & Hcx & Hwx & Hnx).
  assert (Hregen : regenerate host cmake_file (_flags_update_strategy self_a) w_a
                   = (Ok tt,
                      add_log DEBUG "'%s' is not equal to '%s' by %s so update"
                        (add_write (FS.key w_x P)
                           (set_files (<[FS.key w_x P :=
                                           Reg (PyStr.join nl new_flags +:+ nl) (now w_x)]>
                                         (files w_x)) w_x)))).
  { rewrite (regenerate_with_database host _ _ _ _ _ Hc).
    destruct (update_clang_complete_gate host cmake_file (_flags_update_strategy self_a)
                db w_db w_flags w_parsed new_flags parsed Hdb Hparse) as [_ Hgate].
    rewrite (Hgate Hne). fold P. unfold bind at 1. rewrite Hwrite.
    rewrite write_lines_spec; [done|].
    unfold FS.lookup, FS.key. rewrite Hfx, Hcx.
    change (FS.lookup P w_db ≠ Some Dir).
    by destruct Hcase as [->|[_ (? & ? & ->)]]. }
  rewrite (get_flags_modified host _ _ _ _ _ _ Ea Hu Hm), Hregen.
  set (w_b := add_log _ _ (add_write _ _)).
  destruct (locate_clang_complete_file _ w_b) as [sc wc] eqn:Ec.
  destruct (reload_flags sc separate_includes wc) as [[r self'] w'] eqn:Er.
  destruct (get_flags_tail _ _ _ _ _ _ _ _ Ec Er) as ([Hf3 _] & Hw3 & _).
  cbn [snd]. rewrite Hf3, Hw3. subst w_b.
  cbn [files writes add_log add_write set_files].
  assert (Hkey' : FS.key w_x P = FS.key w_db P) by (unfold FS.key; by rewrite Hcx).
  by rewrite Hkey', Hnx, Hfx, Hwx.
Qed.

Lemma changed_flags_are_written_witness :
  let host := demo_host demo_command in
  let w' := (get_flags host demo_manager false demo_world).2 in
  FS.lookup "/proj/.clang_complete" w'
  = Some (Reg ("-I/usr/include" +:+ nl +:+ "-DFOO=1" +:+ nl) 10).
Proof.
  intros host w'.
  pose proof (changed_flags_are_written host demo_manager false demo_world) as H.
  edestruct H as [Hfiles _].
  - vm_compute. reflexivity.
  - vm_compute. reflexivity.
  - vm_compute. reflexivity.
  - vm_compute. reflexivity.
  - vm_compute. reflexivity.
  - vm_compute. reflexivity.
  - intros Heq. apply (elem_of_nil "-DFOO=1"). apply Heq. vm_compute.
    apply list_elem_of_further, list_elem_of_here.
  - left. vm_compute. reflexivity.
  - subst w'. unfold FS.lookup. rewrite Hfiles. vm_compute. reflexivity.
Defined.

(** X19.  [get_flags] catches nothing of the build step.  What
    [flags_from_database] raises, [get_flags] raises, and a database
    without entries ends the call in [AttributeError] as soon as the
    flag-list file has been read; no database at all is logged as a
    warning and the call goes on.  In the first two cases the manager
    keeps the flags it held, the build description counts as seen, and of
    the files only those of the build have changed. *)
Theorem build_errors_reach_the_caller
    (host : Host) (self : FlagsManager) (separate_includes : bool) (w : world)
    (self_a : FlagsManager) (w_a : world) (cmake_file : File)
    (r_db : result (option File)) (w_db : world) :
  locate_cmake_file self w = (self_a, w_a) →
  _use_cmake self_a = true →
  was_modified (_cmake_file self_a) w_a = (true, cmake_file) →
  compile_cmake host cmake_file
    (add_log DEBUG " CMakeLists.txt was modified. Generate new .clang_complete" w_a)
    = (r_db, w_db) →
  let P := PyPath.join (folder cmake_file) CLANG_COMPLETE_FILE_NAME in
  let call := get_flags host self separate_includes w in
  let self_b := set_cmake_file cmake_file self_a in
  match r_db with
  | Raise e => call = (Raise e, self_b, w_db)
  | Ok None =>
      call =
      (let '(sc, wc) :=
         locate_clang_complete_file self_b
           (add_log WARNING " could not get compilation database from cmake" w_db) in
       reload_flags sc separate_includes wc)
  | Ok (Some db) =>
      (∀ e w_flags, flags_from_database host db w_db = (Raise e, w_flags) →
         call = (Raise e, self_b, w_flags)
         ∧ files w_flags = files w_db ∧ writes w_flags = writes w_db)
      ∧ (∀ w_flags parsed w_parsed,
           flags_from_database host db w_db = (Ok None, w_flags) →
           flags_from_clang_file (File_at P w_flags) false w_flags
             = (Ok parsed, w_parsed) →
           call = (Raise AttributeError, self_b, w_parsed)
           ∧ files w_parsed = files w_db ∧ writes w_parsed = writes w_db)
  end.
Proof.
  intros Ea Hu Hm Hc P call self_b. subst call self_b.
  rewrite (get_flags_modified host _ _ _ _ _ _ Ea Hu Hm).
  destruct r_db as [[db|]|e].
  - rewrite (regenerate_with_database host _ _ _ _ _ Hc). split.
    + intros e w_flags Hdb.
      destruct (read_only_flags_from_database host db w_db) as [[Hf1 _] Hw1].
      rewrite Hdb in Hf1, Hw1. cbn [snd] in Hf1, Hw1.
      unfold update_clang_complete, bind at 1. by rewrite Hdb.
    + intros w_flags parsed w_parsed Hdb Hparse.
      destruct (read_only_flags_from_database host db w_db) as [[Hf1 _] Hw1].
      rewrite Hdb in Hf1, Hw1. cbn [snd] in Hf1, Hw1.
      destruct (read_only_flags_from_clang_file (File_at P w_flags) false w_flags)
        as [[Hf2 _] Hw2].
      rewrite Hparse in Hf2, Hw2. cbn [snd] in Hf2, Hw2.
      unfold update_clang_complete, bind at 1. rewrite Hdb.
      unfold bind at 1. fold P. rewrite Hparse.
      split; [done|]. split; congruence.
  - by rewrite (regenerate_without_database host _ _ _ _ Hc).
  - unfold regenerate, bind, log. by rewrite Hc.
Qed.

Lemma build_errors_reach_the_caller_witness :
  let host := host_with "[]" (Some (JArr [])) in
  ∃ self_b w_parsed,
    get_flags host demo_manager false demo_world
    = (Raise AttributeError, self_b, w_parsed)
    ∧ _flags self_b = []
    ∧ FS.lookup "/proj/.clang_complete" w_parsed = None.
Proof.
  intros host.
  set (located := locate_cmake_file demo_manager demo_world).
  set (cmake_file := (was_modified (_cmake_file located.1) located.2).2).
  set (built := compile_cmake host cmake_file
                  (add_log DEBUG " CMakeLists.txt was modified. Generate new .clang_complete"
                     located.2)).
  set (db := mkFile
               (Some "/tmp/cmake_builds/0123456789abcdef0123456789abcdef/compile_commands.json")
               0).
  assert (H1 : locate_cmake_file demo_manager demo_world = (located.1, located.2))
    by (vm_compute; reflexivity).
  assert (H2 : _use_cmake located.1 = true) by reflexivity.
  assert (H3 : was_modified (_cmake_file located.1) located.2 = (true, cmake_file))
    by (vm_compute; reflexivity).
  assert (H4 : built = (Ok (Some db), built.2)) by (vm_compute; reflexivity).
  pose proof (build_errors_reach_the_caller host demo_manager false demo_world
                located.1 located.2 cmake_file (Ok (Some db)) built.2 H1 H2 H3 H4) as H.
  cbv beta iota zeta in H. destruct H as [_ Hnone].
  edestruct Hnone as (Hcall & _ & _).
  - vm_compute. reflexivity.
  - vm_compute. reflexivity.
  - eexists _, _. split; [exact Hcall|]. split; vm_compute; reflexivity.
Defined.
